(** * Order, inventory, coupon and rating logic of the storefront backend

    A shallow embedding of the checkout slice of the backend
    ([order.controller.js], the [Order] model, the cart's discount helper and
    the review controller's rating aggregation), with the properties the
    specification states about it.

    Conventions of the embedding
    - JavaScript numbers that carry money, and the rating average, are exact
      rationals ([Q]): sums, products and quotients are taken without the
      rounding of binary floating point.  Counters (stock, quantities, usage
      counts, ratings) are integers ([Z]).  Equations between amounts are
      stated with [==] on [Q].
    - Strings stay strings: statuses, coupon kinds and roles are compared
      with [String.eqb], as the source compares them with [===].
    - An optional field ([undefined] / [null] in the document) is an [option].
    - The document store is explicit: a finite map from ids to documents is
      passed in and the updated map is returned.
    - Calls to external services (payment refund, loyalty points) are
      collected in an effect log.
    - A handler that answers with an error status returns [inl] of the error;
      nothing is persisted in that case.
    - The database and the external services answer every call; addresses,
      the user document, e-mails and the audit log are left out. *)

From Stdlib Require Import ZArith QArith Qround Qminmax Qabs Lqa Lia List.
From Stdlib Require Import String Ascii HexString.
From stdpp Require Import gmap strings list fin_maps.

Local Open Scope string_scope.
Local Open Scope Z_scope.

(** ** JavaScript helpers *)

(** [x || 0] on an optional number: a missing field and zero both give 0. *)
Definition orZero (x : option Q) : Q :=
  match x with
  | Some v => if Qeq_bool v 0 then 0%Q else v
  | None => 0%Q
  end.

(** Truthiness of an optional number: present and not zero. *)
Definition truthyQ (x : option Q) : bool :=
  match x with
  | Some v => negb (Qeq_bool v 0)
  | None => false
  end.

Definition truthyZ (x : option Z) : bool :=
  match x with
  | Some v => negb (v =? 0)
  | None => false
  end.

(** Truthiness of an optional string: present and not empty. *)
Definition truthyS (x : option string) : bool :=
  match x with
  | Some s => negb (String.eqb s "")
  | None => false
  end.

(** [Math.max] and [Math.min] on two numbers. *)
Definition MathMax (a b : Q) : Q := if Qle_bool a b then b else a.
Definition MathMin (a b : Q) : Q := if Qle_bool a b then a else b.

(** [x.toFixed(d)] read back with [parseFloat], on the exact value of [x]:
    the decimal with [d] digits nearest to [x]; of two equally near ones the
    larger is taken.  (JavaScript rounds the double that stands for [x]; for
    a decimal ending in 5 that double can lie a little to either side of
    it.) *)
Definition toFixed (d : nat) (x : Q) : Q :=
  let scale := Z.pow 10 (Z.of_nat d) in
  Qmake (Qfloor (x * inject_Z scale + (1 # 2))) (Z.to_pos scale).

Definition upperAscii (c : ascii) : ascii :=
  let n := nat_of_ascii c in
  if (Nat.leb 97 n && Nat.leb n 122)%bool then ascii_of_nat (n - 32) else c.

(** [s.toUpperCase()] on the ASCII letters; every other byte of the string
    is left as it is. *)
Fixpoint toUpperCase (s : string) : string :=
  match s with
  | EmptyString => EmptyString
  | String c r => String (upperAscii c) (toUpperCase r)
  end.

(** [arr.includes(x)] on an array of strings. *)
Definition includes (arr : list string) (x : string) : bool :=
  existsb (String.eqb x) arr.

(** ** Catalog documents *)

Abbreviation ObjectId := N (only parsing).

Record Inventory := mkInventory {
  quantity : Z;
  reserved : Z;
  sold : Z;
  allowBackorders : bool
}.

Record Variant := mkVariant {
  sku : string;
  v_inventory : Inventory;
  priceAdjustment : option Q
}.

Record Sale := mkSale {
  sale_type : string;
  sale_amount : Q;
  sale_startDate : Z;
  sale_endDate : option Z
}.

Record Price := mkPrice {
  base : Q;
  sale : option Sale
}.

Record Ratings := mkRatings {
  ratings_average : Q;
  ratings_count : Z;
  ratings_distribution : gmap Z Z
}.

Record Product := mkProduct {
  p_name : string;
  price : Price;
  tax_rate : option Q;
  weight : option Q;
  inventory : Inventory;
  variants : list Variant;
  ratings : Ratings
}.

(** ** Responses *)

Inductive Error :=
| EmptyOrder
| ShippingMethodRequired
| PaymentMethodRequired
| ProductNotFound (id : ObjectId)
| VariantNotFound (s : string)
| InsufficientStock (available requested : Z)
| CouponUsageLimitExceeded
| CouponUserLimitExceeded
| MinimumPurchaseRequired (minimum : Q)
| PermissionDenied
| OrderNotFound
| InvalidTransition (from to : string)
| CannotCancel
| InvalidAction
| ReviewNotFound
| ReviewNotPending.

(** The HTTP status each error is answered with. *)
Definition httpStatus (e : Error) : Z :=
  match e with
  | ProductNotFound _ | OrderNotFound | ReviewNotFound => 404
  | PermissionDenied => 403
  | _ => 400
  end.

(** ** Inventory *)

(** Modelled from the spec: the [updateInventory] method of the Product model
    (the controllers call it, the model that defines it is not among the
    sources).  Section 4.1 of the specification gives its three actions:
    reserve increments [reserved]; sell decrements [quantity] and [reserved]
    and increments [sold]; release decrements [reserved] only.  An action the
    specification does not describe leaves the record as it is. *)
Definition applyAction (action : string) (q : Z) (inv : Inventory) : Inventory :=
  if String.eqb action "reserve" then
    mkInventory (quantity inv) (reserved inv + q) (sold inv) (allowBackorders inv)
  else if String.eqb action "sell" then
    mkInventory (quantity inv - q) (reserved inv - q) (sold inv + q)
                (allowBackorders inv)
  else if String.eqb action "release" then
    mkInventory (quantity inv) (reserved inv - q) (sold inv) (allowBackorders inv)
  else inv.

(** The first variant carrying the SKU is the one addressed, as with
    [variants.find(v => v.sku === variantSku)]. *)
Fixpoint updateVariant (s : string) (f : Inventory -> Inventory)
    (vs : list Variant) : list Variant :=
  match vs with
  | [] => []
  | v :: r =>
      if String.eqb (sku v) s
      then mkVariant (sku v) (f (v_inventory v)) (priceAdjustment v) :: r
      else v :: updateVariant s f r
  end.

Definition setInventory (p : Product) (inv : Inventory) : Product :=
  mkProduct (p_name p) (price p) (tax_rate p) (weight p) inv (variants p)
            (ratings p).

Definition setVariants (p : Product) (vs : list Variant) : Product :=
  mkProduct (p_name p) (price p) (tax_rate p) (weight p) (inventory p) vs
            (ratings p).

(** Modelled from the spec: [product.updateInventory(quantity, variantSku,
    action)], acting on the variant's own record when a SKU is given and on
    the base record otherwise.  A SKU no variant carries changes nothing. *)
Definition updateInventory (q : Z) (variantSku : option string)
    (action : string) (p : Product) : Product :=
  match variantSku with
  | Some s =>
      if String.eqb s ""
      then setInventory p (applyAction action q (inventory p))
      else setVariants p (updateVariant s (applyAction action q) (variants p))
  | None => setInventory p (applyAction action q (inventory p))
  end.

(** ** Orders (order.controller.js, first controller) *)

Record ItemReq := mkItemReq {
  productId : ObjectId;
  variantSku : option string;
  req_quantity : Z
}.

Record OrderItem := mkOrderItem {
  item_product : ObjectId;
  item_variantSku : option string;
  item_quantity : Z;
  item_price : Q;
  item_originalPrice : Q;
  item_discount : Q;
  item_taxRate : Q;
  item_taxAmount : Q;
  item_total : Q
}.

Record Amount := mkAmount {
  amt_subtotal : Q;
  amt_shipping : Q;
  amt_tax : Q;
  amt_discount : Q;
  amt_total : Q
}.

Record Payment := mkPayment {
  pay_method : string;
  pay_status : string;
  pay_gateway : option string;
  pay_transactionId : option string;
  pay_amount : Amount
}.

Record Shipping := mkShipping {
  ship_method : string;
  ship_cost : Q;
  ship_originalCost : Q;
  ship_discount : Q;
  ship_tracking : option string
}.

Record DiscountRec := mkDiscountRec {
  disc_code : string;
  disc_amount : Q;
  disc_appliedTo : string
}.

Record Order := mkOrder {
  order_user : ObjectId;
  order_items : list OrderItem;
  order_status : string;
  order_payment : Payment;
  order_shipping : Shipping;
  order_discounts : list DiscountRec;
  order_internalNotes : list string
}.

Record Coupon := mkCoupon {
  code : string;
  isActive : bool;
  startDate : Z;
  endDate : option Z;
  discountType : string;
  discountValue : Q;
  maxDiscountAmount : option Q;
  appliesTo : string;
  usageLimit : option Z;
  usedCount : Z;
  userUsageLimit : option Z;
  minimumPurchase : option Q
}.

(** Calls that leave the process. *)
Inductive Effect :=
| RefundPayment (gateway transaction : option string) (amount : Q) (reason : string)
| AwardLoyaltyPoints (user : ObjectId) (points : Z)
| ProcessRefund (user : ObjectId).

Record ItemsAcc := mkItemsAcc {
  acc_orderItems : list OrderItem;
  acc_subtotal : Q;
  acc_totalWeight : Q;
  acc_totalItems : Z;
  acc_productUpdates : list ItemReq
}.

Record CouponStage := mkCouponStage {
  cs_coupon : option Coupon;
  cs_couponDiscount : Q;
  cs_subtotal : Q
}.

Record OrderReq := mkOrderReq {
  items : list ItemReq;
  shippingMethod : string;
  paymentMethod : string;
  couponCode : option string
}.

Definition findVariant (p : Product) (s : string) : option Variant :=
  List.find (fun v => String.eqb (sku v) s) (variants p).

(** [item.variantSku] selects a variant when it is given; a SKU the product
    does not carry is answered with 400. *)
Definition selectVariant (p : Product) (variantSku : option string)
    : Error + option Variant :=
  match variantSku with
  | Some s =>
      if String.eqb s "" then inr None
      else match findVariant p s with
           | Some v => inr (Some v)
           | None => inl (VariantNotFound s)
           end
  | None => inr None
  end.

Definition availableStock (p : Product) (variant : option Variant) : Z :=
  match variant with
  | Some v => quantity (v_inventory v) - reserved (v_inventory v)
  | None => quantity (inventory p) - reserved (inventory p)
  end.

(** The availability check of the item loop: too little stock is an error
    only when the product does not allow backorders. *)
Definition checkAvailability (p : Product) (variant : option Variant)
    (requested : Z) : Error + unit :=
  if availableStock p variant <? requested then
    if negb (allowBackorders (inventory p))
    then inl (InsufficientStock (availableStock p variant) requested)
    else inr tt
  else inr tt.

Definition saleActive (now : Z) (s : Sale) : bool :=
  (sale_startDate s <=? now) &&
  match sale_endDate s with
  | None => true
  | Some e => now <=? e
  end.

Definition basePriceOf (p : Product) (variant : option Variant) : Q :=
  match variant with
  | Some v => (base (price p) + orZero (priceAdjustment v))%Q
  | None => base (price p)
  end.

Definition finalPriceOf (now : Z) (p : Product) (variant : option Variant) : Q :=
  let basePrice := basePriceOf p variant in
  match sale (price p) with
  | Some s =>
      if saleActive now s then
        if String.eqb (sale_type s) "percentage"
        then (basePrice * (1 - sale_amount s / 100))%Q
        else if String.eqb (sale_type s) "fixed"
        then MathMax 0 (basePrice - sale_amount s)
        else basePrice
      else basePrice
  | None => basePrice
  end.

(** The item loop of [createOrder]: each requested item is looked up,
    checked for stock and priced; the first failure ends the request. *)
Fixpoint createOrder_items (now : Z) (products : gmap N Product)
    (reqs : list ItemReq) (acc : ItemsAcc) : Error + ItemsAcc :=
  match reqs with
  | [] => inr acc
  | item :: rest =>
      match products !! productId item with
      | None => inl (ProductNotFound (productId item))
      | Some product =>
          match selectVariant product (variantSku item) with
          | inl e => inl e
          | inr variant =>
              match checkAvailability product variant (req_quantity item) with
              | inl e => inl e
              | inr _ =>
                  let basePrice := basePriceOf product variant in
                  let finalPrice := finalPriceOf now product variant in
                  let taxRate := orZero (tax_rate product) in
                  let qty := inject_Z (req_quantity item) in
                  let taxAmount := (finalPrice * (taxRate / 100) * qty)%Q in
                  let itemTotal := (finalPrice * qty)%Q in
                  createOrder_items now products rest
                    (mkItemsAcc
                       (acc_orderItems acc ++
                        [mkOrderItem (productId item) (variantSku item)
                           (req_quantity item) finalPrice basePrice
                           ((basePrice - finalPrice) * qty)%Q
                           taxRate taxAmount (itemTotal + taxAmount)%Q])
                       (acc_subtotal acc + itemTotal)%Q
                       (acc_totalWeight acc + orZero (weight product) * qty)%Q
                       (acc_totalItems acc + req_quantity item)
                       (acc_productUpdates acc ++
                        [mkItemReq (productId item) (variantSku item)
                           (req_quantity item)]))
              end
          end
      end
  end.

(** [Coupon.findOne] with the code in upper case: active, started, and not
    yet ended (or without an end date). *)
Definition couponMatches (now : Z) (c : string) (cp : Coupon) : bool :=
  String.eqb (code cp) c && isActive cp && (startDate cp <=? now) &&
  match endDate cp with
  | None => true
  | Some e => now <=? e
  end.

Definition findCoupon (now : Z) (coupons : list Coupon) (c : string)
    : option Coupon :=
  List.find (couponMatches now (toUpperCase c)) coupons.

(** [Order.countDocuments({ user, 'discounts.code': code })]. *)
Definition userUsageCount (orders : list Order) (userId : ObjectId)
    (c : string) : Z :=
  Z.of_nat (length (List.filter
    (fun o => N.eqb (order_user o) userId &&
              existsb (fun d => String.eqb (disc_code d) c) (order_discounts o))
    orders)).

(** The discount a coupon yields against the subtotal. *)
Definition couponDiscountOf (coupon : Coupon) (subtotal : Q) : Q :=
  if String.eqb (discountType coupon) "percentage" then
    let d := (subtotal * (discountValue coupon / 100))%Q in
    if truthyQ (maxDiscountAmount coupon)
    then MathMin d (orZero (maxDiscountAmount coupon))
    else d
  else if String.eqb (discountType coupon) "fixed" then discountValue coupon
  else 0%Q.

(** The coupon stage of [createOrder]: look the code up, check the limits,
    compute the discount and take it off the subtotal unless the coupon
    applies to shipping. *)
Definition createOrder_coupon (now : Z) (coupons : list Coupon)
    (orders : list Order) (userId : ObjectId) (couponCode : option string)
    (subtotal : Q) : Error + CouponStage :=
  match couponCode with
  | Some cc =>
      if String.eqb cc "" then inr (mkCouponStage None 0 subtotal)
      else
        match findCoupon now coupons cc with
        | Some coupon =>
            if truthyZ (usageLimit coupon) &&
               (default 0 (usageLimit coupon) <=? usedCount coupon)
            then inl CouponUsageLimitExceeded
            else if truthyZ (userUsageLimit coupon) &&
                    (default 0 (userUsageLimit coupon) <=?
                     userUsageCount orders userId (toUpperCase cc))
            then inl CouponUserLimitExceeded
            else if truthyQ (minimumPurchase coupon) &&
                    negb (Qle_bool (orZero (minimumPurchase coupon)) subtotal)
            then inl (MinimumPurchaseRequired (orZero (minimumPurchase coupon)))
            else
              let couponDiscount := couponDiscountOf coupon subtotal in
              inr (mkCouponStage (Some coupon) couponDiscount
                     (if String.eqb (appliesTo coupon) "shipping"
                      then subtotal
                      else MathMax 0 (subtotal - couponDiscount)))
        | None => inr (mkCouponStage None 0 subtotal)
        end
  | None => inr (mkCouponStage None 0 subtotal)
  end.

(** The discount a shipping coupon yields against the shipping cost. *)
Definition shippingDiscountOf (coupon : option Coupon) (shippingCost : Q) : Q :=
  match coupon with
  | Some c =>
      if String.eqb (appliesTo c) "shipping" then
        if String.eqb (discountType c) "percentage"
        then (shippingCost * (discountValue c / 100))%Q
        else if String.eqb (discountType c) "fixed"
        then MathMin (discountValue c) shippingCost
        else 0%Q
      else 0%Q
  | None => 0%Q
  end.

(** The flat tax rate of [createOrder], 0.08. *)
Definition taxRate : Q := 8 # 100.

(** The amounts stored under [payment.amount]. *)
Definition createOrder_totals (cs : CouponStage) (shippingCost : Q) : Amount :=
  let shippingDiscount := shippingDiscountOf (cs_coupon cs) shippingCost in
  let finalShippingCost := MathMax 0 (shippingCost - shippingDiscount) in
  let taxAmount := (cs_subtotal cs * taxRate)%Q in
  let total := (cs_subtotal cs + finalShippingCost + taxAmount)%Q in
  mkAmount (cs_subtotal cs) finalShippingCost taxAmount
           (cs_couponDiscount cs + shippingDiscount)%Q total.

(** One pass of an inventory loop: [Product.findById], and when the product
    exists, [updateInventory] and [save]. *)
Definition inventoryStep (action : string) (products : gmap N Product)
    (pid : ObjectId) (variantSku : option string) (q : Z) : gmap N Product :=
  match products !! pid with
  | Some product => <[pid := updateInventory q variantSku action product]> products
  | None => products
  end.

(** The reservation loop of [createOrder] over [productUpdates]. *)
Definition reserveItems (updates : list ItemReq) (products : gmap N Product)
    : gmap N Product :=
  fold_left (fun st u =>
    inventoryStep "reserve" st (productId u) (variantSku u) (req_quantity u))
    updates products.

(** The loops of [updateOrderStatus] and [cancelOrder] over [order.items]. *)
Definition itemsInventory (action : string) (its : list OrderItem)
    (products : gmap N Product) : gmap N Product :=
  fold_left (fun st it =>
    inventoryStep action st (item_product it) (item_variantSku it)
                  (item_quantity it))
    its products.

Definition useCoupon (c : Coupon) : Coupon :=
  mkCoupon (code c) (isActive c) (startDate c) (endDate c) (discountType c)
           (discountValue c) (maxDiscountAmount c) (appliesTo c) (usageLimit c)
           (usedCount c + 1) (userUsageLimit c) (minimumPurchase c).

Record Created := mkCreated {
  created_order : Order;
  created_products : gmap N Product;
  created_coupon : option Coupon
}.

Record Updated := mkUpdated {
  upd_order : Order;
  upd_products : gmap N Product;
  upd_effects : list Effect
}.

Section Checkout.

(** The shipping service's quote for a weight, an item count and a method,
    and the payment service's intent id for an amount. *)
Variable calculateShipping : Q -> Z -> string -> Q.
Variable createPayment : Q -> string.

Definition gatewayOf (paymentMethod : string) : string :=
  if String.eqb paymentMethod "paypal" then "paypal" else "stripe".

Definition createOrder (now : Z) (products : gmap N Product)
    (coupons : list Coupon) (orders : list Order) (userId : ObjectId)
    (req : OrderReq) : Error + Created :=
  match items req with
  | [] => inl EmptyOrder
  | _ :: _ =>
      if String.eqb (shippingMethod req) "" then inl ShippingMethodRequired
      else if String.eqb (paymentMethod req) "" then inl PaymentMethodRequired
      else
      match createOrder_items now products (items req)
              (mkItemsAcc [] 0 0 0 []) with
      | inl e => inl e
      | inr acc =>
          match createOrder_coupon now coupons orders userId
                  (couponCode req) (acc_subtotal acc) with
          | inl e => inl e
          | inr cs =>
              let shippingCost :=
                calculateShipping (acc_totalWeight acc) (acc_totalItems acc)
                                  (shippingMethod req) in
              let shippingDiscount :=
                shippingDiscountOf (cs_coupon cs) shippingCost in
              let amount := createOrder_totals cs shippingCost in
              let cod := String.eqb (paymentMethod req) "cod" in
              inr (mkCreated
                (mkOrder userId (acc_orderItems acc) "pending"
                   (mkPayment (paymentMethod req)
                      (if cod then "pending" else "processing")
                      (if cod then None
                       else Some (gatewayOf (paymentMethod req)))
                      (if cod then None
                       else Some (createPayment (amt_total amount)))
                      amount)
                   (mkShipping (shippingMethod req) (amt_shipping amount)
                      shippingCost shippingDiscount None)
                   match cs_coupon cs with
                   | Some c =>
                       [mkDiscountRec (code c)
                          (cs_couponDiscount cs + shippingDiscount)%Q
                          (appliesTo c)]
                   | None => []
                   end
                   [])
                (reserveItems (acc_productUpdates acc) products)
                (option_map useCoupon (cs_coupon cs)))
          end
      end
  end.

End Checkout.

(** The transition table of [updateOrderStatus]. *)
Definition validTransitions : list (string * list string) :=
  [ ("pending", ["confirmed"; "cancelled"]);
    ("confirmed", ["processing"; "cancelled"]);
    ("processing", ["ready_for_shipment"; "cancelled"]);
    ("ready_for_shipment", ["shipped"]);
    ("shipped", ["out_for_delivery"; "delivered"]);
    ("out_for_delivery", ["delivered"]);
    ("delivered", ["refunded"]);
    ("cancelled", []);
    ("refunded", []) ].

(** [validTransitions[from]?.includes(to)]. *)
Definition transitionAllowed (from to : string) : bool :=
  match List.find (fun kv => String.eqb (fst kv) from) validTransitions with
  | Some kv => includes (snd kv) to
  | None => false
  end.

Definition setStatus (o : Order) (status : string) : Order :=
  mkOrder (order_user o) (order_items o) status (order_payment o)
          (order_shipping o) (order_discounts o) (order_internalNotes o).

Definition setPaymentStatus (o : Order) (st : string) : Order :=
  mkOrder (order_user o) (order_items o) (order_status o)
          (mkPayment (pay_method (order_payment o)) st
                     (pay_gateway (order_payment o))
                     (pay_transactionId (order_payment o))
                     (pay_amount (order_payment o)))
          (order_shipping o) (order_discounts o) (order_internalNotes o).

Definition addNote (o : Order) (note : string) : Order :=
  mkOrder (order_user o) (order_items o) (order_status o) (order_payment o)
          (order_shipping o) (order_discounts o)
          (order_internalNotes o ++ [note]).

Definition setTracking (o : Order) (number : string) : Order :=
  mkOrder (order_user o) (order_items o) (order_status o) (order_payment o)
          (mkShipping (ship_method (order_shipping o))
                      (ship_cost (order_shipping o))
                      (ship_originalCost (order_shipping o))
                      (ship_discount (order_shipping o)) (Some number))
          (order_discounts o) (order_internalNotes o).

(** The refund step shared by both cancellation paths: a captured payment is
    refunded through the payment service and marked [refunded]. *)
Definition refundIfCaptured (o : Order) (reason : string) : Order * list Effect :=
  if String.eqb (pay_status (order_payment o)) "captured" then
    (setPaymentStatus o "refunded",
     [RefundPayment (pay_gateway (order_payment o))
                    (pay_transactionId (order_payment o))
                    (amt_total (pay_amount (order_payment o))) reason])
  else (o, []).

(** [updateOrderStatus] (admin only): the requested status must be listed for
    the current one; cancelling releases the items and refunds a captured
    payment, shipping assigns a tracking number when there is none, delivery
    sells the items and awards loyalty points. *)
Definition updateOrderStatus (userRole : string) (found : option Order)
    (status : string) (notes : option string) (trackingNumber : string)
    (products : gmap N Product) : Error + Updated :=
  if negb (String.eqb userRole "admin") && negb (String.eqb userRole "superadmin")
  then inl PermissionDenied
  else
    match found with
    | None => inl OrderNotFound
    | Some order =>
        if negb (transitionAllowed (order_status order) status)
        then inl (InvalidTransition (order_status order) status)
        else
          let order1 := setStatus order status in
          let order2 :=
            match notes with
            | Some n =>
                if String.eqb n "" then order1
                else addNote order1 ("Status changed to " ++ status ++ ": " ++ n)
            | None => order1
            end in
          if String.eqb status "cancelled" then
            let products' := itemsInventory "release" (order_items order2) products in
            let '(order3, effects) := refundIfCaptured order2 "order_cancelled" in
            inr (mkUpdated order3 products' effects)
          else if String.eqb status "shipped" then
            inr (mkUpdated
                   (if truthyS (ship_tracking (order_shipping order2))
                    then order2 else setTracking order2 trackingNumber)
                   products [])
          else if String.eqb status "delivered" then
            inr (mkUpdated order2
                   (itemsInventory "sell" (order_items order2) products)
                   [AwardLoyaltyPoints (order_user order2)
                      (Qfloor (amt_total (pay_amount (order_payment order2))))])
          else inr (mkUpdated order2 products [])
    end.

(** Modelled from the spec: the [canCancel] virtual of the Order model (the
    model behind the first controller is not among the sources).  Section 4.4
    permits cancelling only while the status is pending, confirmed or
    processing. *)
Definition canCancel (o : Order) : bool :=
  includes ["pending"; "confirmed"; "processing"] (order_status o).

(** [cancelOrder] (the customer's own order): refused unless [canCancel];
    sets the status, releases every item, refunds a captured payment. *)
Definition cancelOrder (found : option Order) (reason : string)
    (products : gmap N Product) : Error + Updated :=
  match found with
  | None => inl OrderNotFound
  | Some order =>
      if negb (canCancel order) then inl CannotCancel
      else
        let order1 :=
          addNote (setStatus order "cancelled")
                  ("Order cancelled by customer: " ++ reason) in
        let products' := itemsInventory "release" (order_items order1) products in
        let '(order2, effects) := refundIfCaptured order1 "customer_cancelled" in
        inr (mkUpdated order2 products' effects)
  end.

(** ** The second controller and the Order model it saves through *)

Module Simple.

Record SVariant := mkSVariant {
  v_sku : string;
  v_stock : Z
}.

(** The fields of the product document the stock helpers increment. *)
Record SProduct := mkSProduct {
  meta_stock : Z;
  meta_reserved : Z;
  s_variants : list SVariant
}.

Record SItem := mkSItem {
  i_product : ObjectId;
  i_variantSku : option string;
  i_quantity : Z;
  i_price : Q;
  i_subtotal : Q;
  i_tax : option Q;
  i_discountAmount : option Q
}.

Record Totals := mkTotals {
  t_items : Q;
  t_shipping : Q;
  t_tax : Q;
  t_discount : Q;
  t_grandTotal : Q
}.

(** [payment.amount]: five optional numbers of the schema. *)
Record PayAmount := mkPayAmount {
  pa_subtotal : option Q;
  pa_shipping : option Q;
  pa_tax : option Q;
  pa_discount : option Q;
  pa_total : option Q
}.

Record SOrder := mkSOrder {
  o_orderId : option string;
  o_user : ObjectId;
  o_items : list SItem;
  o_status : string;
  o_paymentMethod : option string;
  o_paymentStatus : string;
  o_paymentAmount : PayAmount;
  o_shippingMethod : option string;
  o_shippingCost : option Q;
  o_totals : Totals
}.

(** [items.reduce((sum, item) => sum + f(item), 0)]. *)
Definition sumOver (f : SItem -> Q) (its : list SItem) : Q :=
  fold_left (fun sum item => (sum + f item)%Q) its 0%Q.

(** The second [pre('save')] hook of the Order model: the totals are rebuilt
    from the line items and the shipping cost.  The last assignment,
    [this.payment.amount = this.totals], goes through the schema of
    [payment.amount]: of the five keys of the totals it keeps the three the
    schema has ([shipping], [tax], [discount]); [items] and [grandTotal] are
    no keys of it, and [subtotal] and [total] are left without a value. *)
Definition preSave (o : SOrder) : SOrder :=
  let its := sumOver i_subtotal (o_items o) in
  let shipping := orZero (o_shippingCost o) in
  let tax := sumOver (fun item => orZero (i_tax item)) (o_items o) in
  let discount := sumOver (fun item => orZero (i_discountAmount item)) (o_items o) in
  let totals := mkTotals its shipping tax discount
                         (its + shipping + tax - discount)%Q in
  mkSOrder (o_orderId o) (o_user o) (o_items o) (o_status o)
           (o_paymentMethod o) (o_paymentStatus o)
           (mkPayAmount None (Some shipping) (Some tax) (Some discount) None)
           (o_shippingMethod o) (o_shippingCost o) totals.

(** The validators of the schema on the fields of the document: [orderId],
    [payment.method] and [shipping.method] are required strings (an empty
    string does not count), the two methods' and the statuses' enums, the
    quantity of every item at least 1, the shipping cost required and not
    below 0.  The user, and the product, price and subtotal of an item, are
    required too; the record has them always. *)
Definition validate (o : SOrder) : bool :=
  truthyS (o_orderId o) &&
  forallb (fun item => 1 <=? i_quantity item) (o_items o) &&
  truthyS (o_paymentMethod o) &&
  includes ["credit_card"; "debit_card"; "paypal"; "bank_transfer"; "cod"; "wallet"]
           (default "" (o_paymentMethod o)) &&
  includes ["pending"; "processing"; "completed"; "failed"; "refunded"; "cancelled"]
           (o_paymentStatus o) &&
  truthyS (o_shippingMethod o) &&
  match o_shippingCost o with
  | Some cost => Qle_bool 0 cost
  | None => false
  end &&
  includes ["pending"; "confirmed"; "processing"; "shipped"; "delivered";
            "cancelled"; "refunded"]
           (o_status o).

(** [order.save()] on a document as a whole: the validation comes first and
    a document that fails it is not stored; the hooks run on a document
    that passed.  The first hook, which makes up an order id for a document
    without one, finds the id in place: the validation requires it. *)
Definition save (o : SOrder) : option SOrder :=
  if validate o then Some (preSave o) else None.

(** ['variants.$.stock'] incremented on the first variant with the SKU. *)
Fixpoint incVariantStock (s : string) (d : Z) (vs : list SVariant)
    : list SVariant :=
  match vs with
  | [] => []
  | v :: r =>
      if String.eqb (v_sku v) s
      then mkSVariant (v_sku v) (v_stock v + d) :: r
      else v :: incVariantStock s d r
  end.

(** One [findOneAndUpdate] / [findByIdAndUpdate] with [$inc]: a variant item
    moves the variant's stock by [dstock]; any other item moves the
    product's stock by [dstock] and its reserved count the other way. *)
Definition stockStep (dstock : Z) (products : gmap N SProduct) (item : SItem)
    : gmap N SProduct :=
  match products !! i_product item with
  | Some p =>
      if truthyS (i_variantSku item) then
        let s := default "" (i_variantSku item) in
        if existsb (fun v => String.eqb (v_sku v) s) (s_variants p) then
          <[i_product item :=
              mkSProduct (meta_stock p) (meta_reserved p)
                (incVariantStock s (dstock * i_quantity item) (s_variants p))]>
            products
        else products
      else
        <[i_product item :=
            mkSProduct (meta_stock p + dstock * i_quantity item)
                       (meta_reserved p - dstock * i_quantity item)
                       (s_variants p)]> products
  | None => products
  end.

Definition reserveStock (its : list SItem) (products : gmap N SProduct)
    : gmap N SProduct :=
  fold_left (stockStep (-1)) its products.

Definition restockItems (its : list SItem) (products : gmap N SProduct)
    : gmap N SProduct :=
  fold_left (stockStep 1) its products.

Record Cancelled := mkCancelled {
  c_order : SOrder;
  c_products : gmap N SProduct;
  c_effects : list Effect
}.

(** [cancelOrder] of the second controller: allowed from pending and
    confirmed; the order is saved with both statuses set to cancelled, the
    items are restocked, and the refund is requested when the payment status
    read after that assignment is [completed].  The order is one read from
    the store, which it entered through the validation; the two values
    assigned are in their enums, and the save runs the hook. *)
Definition cancelOrder (found : option SOrder) (products : gmap N SProduct)
    : Error + Cancelled :=
  match found with
  | None => inl OrderNotFound
  | Some order =>
      if negb (includes ["pending"; "confirmed"] (o_status order))
      then inl CannotCancel
      else
        let order1 :=
          preSave (mkSOrder (o_orderId order) (o_user order) (o_items order)
                            "cancelled" (o_paymentMethod order) "cancelled"
                            (o_paymentAmount order) (o_shippingMethod order)
                            (o_shippingCost order) (o_totals order)) in
        let products' := restockItems (o_items order1) products in
        inr (mkCancelled order1 products'
               (if String.eqb (o_paymentStatus order1) "completed"
                then [ProcessRefund (o_user order1)] else []))
  end.

End Simple.

(** ** The cart's discount helper (cart controller) *)

Record CartCoupon := mkCartCoupon {
  cc_code : string;
  cc_discountType : string;
  cc_value : Q;
  cc_minPurchase : Q
}.

Definition calculateDiscount (coupon : CartCoupon) (subtotal : Q) : Q :=
  if negb (Qle_bool (cc_minPurchase coupon) subtotal) then 0%Q
  else if String.eqb (cc_discountType coupon) "percentage"
  then (subtotal * (cc_value coupon / 100))%Q
  else if String.eqb (cc_discountType coupon) "fixed"
  then MathMin (cc_value coupon) subtotal
  else if String.eqb (cc_discountType coupon) "shipping" then 0%Q
  else 0%Q.

(** ** Reviews and the rating aggregate (review controller) *)

Record Review := mkReview {
  review_id : ObjectId;
  review_user : ObjectId;
  review_product : ObjectId;
  review_status : string;
  review_rating : Z
}.

(** [Review.find({ product: productId, status: 'approved' })]. *)
Definition approvedReviews (reviews : list Review) (pid : ObjectId)
    : list Review :=
  List.filter (fun r => N.eqb (review_product r) pid &&
                        String.eqb (review_status r) "approved") reviews.

Definition emptyDistribution : gmap Z Z :=
  <[1 := 0]> (<[2 := 0]> (<[3 := 0]> (<[4 := 0]> (<[5 := 0]> ∅)))).

(** [distribution[rating] = (distribution[rating] || 0) + 1]. *)
Definition tally (d : gmap Z Z) (r : Review) : gmap Z Z :=
  <[review_rating r := default 0 (d !! review_rating r) + 1]> d.

Definition totalRating (rs : list Review) : Z :=
  fold_left (fun sum r => sum + review_rating r) rs 0.

Definition setRatings (p : Product) (r : Ratings) : Product :=
  mkProduct (p_name p) (price p) (tax_rate p) (weight p) (inventory p)
            (variants p) r.

(** The aggregate written by [updateProductRating] for a non-empty list of
    approved reviews. *)
Definition aggregate (rs : list Review) : Ratings :=
  let averageRating := (inject_Z (totalRating rs) / inject_Z (Z.of_nat (length rs)))%Q in
  mkRatings (toFixed 1 averageRating) (Z.of_nat (length rs))
            (fold_left tally rs emptyDistribution).

(** [updateProductRating]: with no approved review it returns at once;
    otherwise [Product.findByIdAndUpdate] sets the three rating fields. *)
Definition updateProductRating (reviews : list Review)
    (products : gmap N Product) (pid : ObjectId) : gmap N Product :=
  match approvedReviews reviews pid with
  | [] => products
  | rs =>
      match products !! pid with
      | Some p => <[pid := setRatings p (aggregate rs)]> products
      | None => products
      end
  end.

Definition setReviewStatus (r : Review) (st : string) : Review :=
  mkReview (review_id r) (review_user r) (review_product r) st (review_rating r).

(** [review.save()]: the stored document with the same id is replaced. *)
Definition saveReview (r : Review) (reviews : list Review) : list Review :=
  map (fun x => if N.eqb (review_id x) (review_id r) then r else x) reviews.

(** [moderateReview] (admin only): a pending review is approved or rejected;
    an approval is followed by the rating update of its product. *)
Definition moderateReview (userRole : string) (reviewId : ObjectId)
    (action : string) (reviews : list Review) (products : gmap N Product)
    : Error + (list Review * gmap N Product) :=
  if negb (String.eqb userRole "admin") && negb (String.eqb userRole "superadmin")
  then inl PermissionDenied
  else if negb (includes ["approve"; "reject"] action) then inl InvalidAction
  else
    match List.find (fun r => N.eqb (review_id r) reviewId) reviews with
    | None => inl ReviewNotFound
    | Some review =>
        if negb (String.eqb (review_status review) "pending")
        then inl ReviewNotPending
        else
          let review' :=
            setReviewStatus review
              (if String.eqb action "approve" then "approved" else "rejected") in
          let reviews' := saveReview review' reviews in
          if String.eqb action "approve"
          then inr (reviews', updateProductRating reviews' products
                                (review_product review'))
          else inr (reviews', products)
    end.

(** [deleteReview] (the author's own review): the review is removed; when it
    was approved the rating update of its product follows. *)
Definition deleteReview (userId reviewId : ObjectId) (reviews : list Review)
    (products : gmap N Product) : Error + (list Review * gmap N Product) :=
  match List.find (fun r => N.eqb (review_id r) reviewId &&
                            N.eqb (review_user r) userId) reviews with
  | None => inl ReviewNotFound
  | Some review =>
      let reviews' :=
        List.filter (fun r => negb (N.eqb (review_id r) reviewId)) reviews in
      if String.eqb (review_status review) "approved"
      then inr (reviews', updateProductRating reviews' products
                            (review_product review))
      else inr (reviews', products)
  end.

(** ** The inventory operations as a caller sees them *)











Definition inventoryOk (inv : Inventory) : Prop :=
  0 <= reserved inv <= quantity inv.

(** [0 <= reserved <= quantity] on the base record and on every variant. *)
Definition stockInvariant (p : Product) : Prop :=
  inventoryOk (inventory p) /\
  Forall (fun v => inventoryOk (v_inventory v)) (variants p).


Definition simpleProduct (inv : Inventory) (vs : list Variant) : Product :=
  mkProduct "item" (mkPrice 100 None) None None inv vs (mkRatings 0 0 ∅).

(** ** Tables and measures the statements refer to *)

(** The order item as the reservation loop sees it ([productUpdates]). *)
Definition toUpdate (it : OrderItem) : ItemReq :=
  mkItemReq (item_product it) (item_variantSku it) (item_quantity it).

(** The transition table as the specification words it: the forward chain
    and the three cancellations. *)
Definition specTransitions : list (string * string) :=
  [ ("pending", "confirmed"); ("confirmed", "processing");
    ("processing", "ready_for_shipment"); ("ready_for_shipment", "shipped");
    ("shipped", "out_for_delivery"); ("out_for_delivery", "delivered");
    ("delivered", "refunded");
    ("pending", "cancelled"); ("confirmed", "cancelled");
    ("processing", "cancelled") ].

(** The pairs [(from, to)] a table of successors lists. *)
Definition tablePairs (t : list (string * list string)) : list (string * string) :=
  flat_map (fun kv => map (pair (fst kv)) (snd kv)) t.

(** How many reviews of a list carry the rating [k]. *)
Definition countRating (k : Z) (rs : list Review) : Z :=
  Z.of_nat (length (List.filter (fun r => review_rating r =? k) rs)).

(** An order on which neither cancellation path acts any more. *)
Definition refusesCancellation (o : Order) : Prop :=
  (forall reason st, cancelOrder (Some o) reason st = inl CannotCancel) /\
  (forall role notes tracking st,
      exists e,
        updateOrderStatus role (Some o) "cancelled" notes tracking st = inl e).

(** The sum of the ratings of a list of reviews. *)
Definition sumRatings (rs : list Review) : Z :=
  fold_right Z.add 0 (map review_rating rs).

(** A rating aggregate that is the full recomputation over the reviews [rs]:
    their number, the one-decimal number nearest to their mean, and for each
    of the ratings 1 to 5 how many of them carry it. *)
Definition recomputedFrom (rt : Ratings) (rs : list Review) : Prop :=
  ratings_count rt = Z.of_nat (length rs) /\
  (exists n, ratings_average rt = Qmake n 10) /\
  (Qabs (ratings_average rt
         - inject_Z (sumRatings rs) / inject_Z (Z.of_nat (length rs)))
   <= 1 # 20)%Q /\
  (forall k, 1 <= k <= 5 ->
             ratings_distribution rt !! k = Some (countRating k rs)).

(** The sum of an amount over line items, written as a plain sum. *)
Definition sumOf (f : Simple.SItem -> Q) (its : list Simple.SItem) : Q :=
  fold_right Qplus 0%Q (map f its).

(** A line item whose amounts are in range: subtotal and tax are not
    negative and the item's discount does not exceed its subtotal. *)
Definition itemInRange (it : Simple.SItem) : Prop :=
  (0 <= Simple.i_subtotal it)%Q /\
  (0 <= orZero (Simple.i_tax it))%Q /\
  (orZero (Simple.i_discountAmount it) <= Simple.i_subtotal it)%Q.

(** The order document in the database after a request on it: a request
    answered with an error returned before [order.save()]. *)
Definition orderAfter (found : option Order) (r : Error + Updated) : option Order :=
  match r with
  | inl _ => found
  | inr u => Some (upd_order u)
  end.

(** ** Sample documents *)

Definition stock (q r : Z) (backorders : bool) : Inventory :=
  mkInventory q r 0 backorders.

Definition tshirt : Product :=
  simpleProduct (stock 3 0 false)
    [mkVariant "TS-RED" (stock 4 1 false) None;
     mkVariant "TS-BLUE" (stock 2 0 false) (Some (5 # 1))].

Definition preorder : Product := simpleProduct (stock 3 0 true) [].

Definition catalog : gmap N Product :=
  <[1%N := tshirt]> (<[2%N := preorder]> ∅).

Definition save20 : Coupon :=
  mkCoupon "SAVE20" true 0 None "fixed" 20 None "subtotal" None 0 None
           (Some (100 # 1)).

Definition flatShipping : Q -> Z -> string -> Q := fun _ _ _ => 10%Q.

Definition intentId : Q -> string := fun _ => "pi_1".

Definition basket : OrderReq :=
  mkOrderReq [mkItemReq 1%N (Some "TS-RED") 2; mkItemReq 2%N None 5]
             "standard" "card" (Some "save20").

Definition paidItem : Simple.SItem :=
  Simple.mkSItem 1%N None 2 (40 # 1) (80 # 1) None None.

Definition paidTotals : Simple.Totals :=
  Simple.mkTotals (80 # 1) (10 # 1) 0 0 (90 # 1).

(** An order of the second controller that was paid for and confirmed. *)
Definition paidOrder : Simple.SOrder :=
  Simple.mkSOrder (Some "ORD-000001-001") 7%N [paidItem] "confirmed"
                  (Some "credit_card") "completed"
                  (Simple.mkPayAmount (Some (80 # 1)) (Some (10 # 1)) (Some 0%Q)
                                      (Some 0%Q) (Some (90 # 1)))
                  (Some "standard") (Some (10 # 1)) paidTotals.

Definition stockroom : gmap N Simple.SProduct :=
  <[1%N := Simple.mkSProduct 8 2 []]> ∅.

Definition expired10 : Coupon :=
  mkCoupon "OLD10" true 0 (Some 5) "percentage" 10 None "subtotal" None 0 None
           None.

Definition couponBook : list Coupon := [save20; expired10].

Definition take150 : Coupon :=
  mkCoupon "TAKE150" true 0 None "fixed" 150 None "subtotal" None 0 None None.

Definition shipping150 : Coupon :=
  mkCoupon "SHIP150" true 0 None "fixed" 150 None "shipping" None 0 None None.

Definition oneShirt : OrderReq :=
  mkOrderReq [mkItemReq 1%N (Some "TS-RED") 1] "standard" "card"
             (Some "take150").

Definition shippedOrder : Order :=
  mkOrder 7%N
    [mkOrderItem 1%N None 1 (100 # 1) (100 # 1) 0 0 0 (100 # 1)]
    "shipped"
    (mkPayment "card" "captured" (Some "stripe") (Some "pi_1")
               (mkAmount (100 # 1) (10 # 1) (8 # 1) 0 (118 # 1)))
    (mkShipping "standard" (10 # 1) (10 # 1) 0 (Some "TRK1"))
    [] [].

Definition fiveStars : Ratings :=
  mkRatings (50 # 10) 1 (<[5 := 1]> emptyDistribution).

Definition ratedCatalog : gmap N Product :=
  <[1%N := setRatings tshirt fiveStars]> ∅.

Definition onlyReview : list Review := [mkReview 1%N 7%N 1%N "approved" 5].

Definition reviewQueue : list Review :=
  [mkReview 1%N 7%N 1%N "approved" 5; mkReview 2%N 8%N 1%N "pending" 4;
   mkReview 3%N 9%N 1%N "approved" 4; mkReview 4%N 9%N 2%N "pending" 1].

Definition draftOrder : Simple.SOrder :=
  Simple.mkSOrder (Some "ORD-000002-002") 7%N
    [Simple.mkSItem 1%N None 2 (40 # 1) (80 # 1) (Some (64 # 10)) (Some (5 # 1));
     Simple.mkSItem 2%N (Some "M") 1 (15 # 1) (15 # 1) None None]
    "pending" (Some "paypal") "pending"
    (Simple.mkPayAmount (Some (95 # 1)) (Some (599 # 100)) (Some (64 # 10))
                        (Some (5 # 1)) (Some (10239 # 100)))
    (Some "standard") (Some (599 # 100)) (Simple.mkTotals 0 0 0 0 0).

(** A product whose variant carries a price adjustment below the base price. *)
Definition clearance : Product :=
  simpleProduct (stock 5 0 false)
    [mkVariant "OLD" (stock 5 0 false) (Some (-150 # 1))].

(** A document that passes the validation, with one line item whose
    discount is above its subtotal and free shipping. *)
Definition overDiscounted : Simple.SOrder :=
  Simple.mkSOrder (Some "ORD-000003-003") 7%N
    [Simple.mkSItem 1%N None 1 (10 # 1) (10 # 1) None (Some (25 # 1))]
    "pending" (Some "cod") "pending"
    (Simple.mkPayAmount None None None None None)
    (Some "pickup") (Some 0%Q) (Simple.mkTotals 0 0 0 0 0).

(** ** Measures for the order lifecycle *)

(** How far along its life an order is. *)
Definition statusRank (s : string) : nat :=
  if String.eqb s "pending" then 0
  else if String.eqb s "confirmed" then 1
  else if String.eqb s "processing" then 2
  else if String.eqb s "ready_for_shipment" then 3
  else if String.eqb s "shipped" then 4
  else if String.eqb s "out_for_delivery" then 5
  else if String.eqb s "delivered" then 6
  else if String.eqb s "refunded" then 7
  else if String.eqb s "cancelled" then 7
  else 0.

(** A history of statuses in which every step is one [updateOrderStatus]
    accepts. *)
Fixpoint chainAllowed (l : list string) : bool :=
  match l with
  | a :: r =>
      match r with
      | b :: _ => transitionAllowed a b && chainAllowed r
      | [] => true
      end
  | [] => true
  end.

(** ** Helper methods of the second controller *)

(** [Math.round]: the nearest integer, a half going up. *)
Definition MathRound (x : Q) : Z := Qfloor (x + (1 # 2)).

(** The property names every object literal inherits. *)
Definition inheritedKeys : list string :=
  ["constructor"; "toString"; "toLocaleString"; "valueOf"; "hasOwnProperty";
   "isPrototypeOf"; "propertyIsEnumerable"; "__proto__"; "__defineGetter__";
   "__defineSetter__"; "__lookupGetter__"; "__lookupSetter__"].

Inductive Lookup (A : Type) :=
| Own (v : A)
| Inherited
| Missing.

Arguments Own {A} v.
Arguments Inherited {A}.
Arguments Missing {A}.

(** [table[key]] on an object literal used as a table: an own entry, a
    member inherited from the prototype, or [undefined]. *)
Definition objectGet {A : Type} (table : list (string * A)) (key : string)
    : Lookup A :=
  match List.find (fun kv => String.eqb (fst kv) key) table with
  | Some kv => Own (snd kv)
  | None => if includes inheritedKeys key then Inherited else Missing
  end.

Module SimpleHelpers.

Definition baseRates : list (string * Q) :=
  [("standard", 599 # 100); ("express", 1299 # 100); ("overnight", 2499 # 100)].

(** [calculateShipping(address, method, itemCount)]; [None] stands for the
    [NaN] that arithmetic on an inherited member gives. *)
Definition calculateShipping (country method : string) (itemCount : Z)
    : option Q :=
  match objectGet baseRates method with
  | Inherited => None
  | found =>
      let base := match found with Own r => r | _ => 599 # 100 end in
      let cost1 := if String.eqb country "US" then base
                   else (base + (1599 # 100))%Q in
      let cost := (cost1 + inject_Z (itemCount - 1) * (150 # 100))%Q in
      Some (inject_Z (MathRound (cost * 100)) / 100)%Q
  end.

Definition taxRates : list (string * Q) :=
  [("US", 8 # 100); ("CA", 13 # 100); ("EU", 21 # 100); ("UK", 20 # 100)].

(** [calculateTax(address, subtotal, items)]. *)
Definition calculateTax (country : string) (subtotal : Q) : option Q :=
  match objectGet taxRates country with
  | Inherited => None
  | found =>
      let rate := match found with Own r => r | _ => 0%Q end in
      Some (inject_Z (MathRound (subtotal * rate * 100)) / 100)%Q
  end.

Record DemoCoupon := mkDemoCoupon {
  dc_type : string;
  dc_value : Q;
  dc_minPurchase : option Q
}.

Definition coupons : list (string * DemoCoupon) :=
  [("WELCOME10", mkDemoCoupon "percentage" 10 (Some 0%Q));
   ("SAVE20", mkDemoCoupon "fixed" 20 (Some (100 # 1)));
   ("FREESHIP", mkDemoCoupon "shipping" 100 None)].

(** [applyCoupon(code, userId, subtotal)]: the discount, 0 when the code is
    not in the table or the subtotal is below the coupon's minimum. *)
Definition applyCoupon (code : string) (subtotal : Q) : Q :=
  match objectGet coupons code with
  | Own coupon =>
      if match dc_minPurchase coupon with
         | Some m => negb (Qle_bool m subtotal)
         | None => false
         end
      then 0%Q
      else if String.eqb (dc_type coupon) "percentage"
      then (inject_Z (MathRound (subtotal * (dc_value coupon / 100) * 100)) / 100)%Q
      else if String.eqb (dc_type coupon) "fixed"
      then MathMin (dc_value coupon) subtotal
      else 0%Q
  | _ => 0%Q
  end.

(** The amounts [createOrder] of the second controller derives from the
    items' subtotal and count: shipping, tax, discount and grand total;
    [None] when shipping or tax is [NaN]. *)
Definition orderTotals (country method : string) (totalItems : Z)
    (subtotal : Q) (couponCode : option string) : option Simple.Totals :=
  match calculateShipping country method totalItems,
        calculateTax country subtotal with
  | Some shippingCost, Some tax =>
      let discount := if truthyS couponCode
                      then applyCoupon (default "" couponCode) subtotal
                      else 0%Q in
      Some (Simple.mkTotals subtotal shippingCost tax discount
              (subtotal + shippingCost + tax - discount)%Q)
  | _, _ => None
  end.

End SimpleHelpers.

(** ** The cart (cart controller) *)

(** A string field of a request body or of a stored document: absent
    ([undefined]), [null], or a string. *)
Inductive JsString :=
| Undefined
| Null
| Str (s : string).

(** The field when it holds a string; [undefined] and [null] hold none. *)
Definition textOf (v : JsString) : option string :=
  match v with
  | Str s => Some s
  | Undefined | Null => None
  end.

(** [a === b] on such fields. *)
Definition strictEq (a b : JsString) : bool :=
  match a, b with
  | Undefined, Undefined => true
  | Null, Null => true
  | Str x, Str y => String.eqb x y
  | _, _ => false
  end.

(** A cart line.  [ci_sku] is the [variantSku] as it was given when the line
    was pushed (the Cart model is not among the sources; it is taken to
    store the field as it comes). *)
Record CartItem := mkCartItem {
  ci_id : ObjectId;
  ci_product : ObjectId;
  ci_sku : JsString;
  ci_quantity : Z;
  ci_price : option Q
}.

(** [item.variantSku] where only its text matters. *)
Definition ci_variantSku (item : CartItem) : option string :=
  textOf (ci_sku item).

Inductive CartError :=
| ProductIdRequired
| QuantityNotPositive
| NoSuchProduct
| NoSuchVariant
| OutOfStock (available : Z)
| CartNotFound
| ItemNotInCart
| CouponCodeRequired
| CartIsEmpty
| InvalidCoupon
| CartFailure.

Definition cartStatus (e : CartError) : Z :=
  match e with
  | NoSuchProduct | CartNotFound | ItemNotInCart => 404
  | CartFailure => 500
  | _ => 400
  end.

(** [arr.findIndex(f)]: the position of the first element [f] accepts. *)
Fixpoint findIndex {A : Type} (f : A -> bool) (l : list A) : option nat :=
  match l with
  | [] => None
  | x :: r => if f x then Some 0%nat else option_map S (findIndex f r)
  end.

Definition addQuantity (q : Z) (item : CartItem) : CartItem :=
  mkCartItem (ci_id item) (ci_product item) (ci_sku item)
             (ci_quantity item + q) (ci_price item).

(** [calculateItemPrice(product, variant)]. *)
Definition calculateItemPrice (now : Z) (product : Product)
    (variant : option Variant) : Q :=
  let price0 :=
    match variant with
    | Some v => if truthyQ (priceAdjustment v)
                then (base (price product) + orZero (priceAdjustment v))%Q
                else base (price product)
    | None => base (price product)
    end in
  match sale (price product) with
  | Some s =>
      if saleActive now s then
        if String.eqb (sale_type s) "percentage"
        then (price0 * (1 - sale_amount s / 100))%Q
        else if String.eqb (sale_type s) "fixed"
        then MathMax 0 (price0 - sale_amount s)
        else price0
      else price0
  | None => price0
  end.

Section CartLines.

(** How a stored id prints ([item.product.toString()]), and the id the
    models make of the product id of a request, if it is one (the cast that
    [Product.findById] and the cart's schema apply).  The Cart model is not
    among the sources. *)
Variable idString : ObjectId -> string.
Variable castId : string -> option ObjectId.

(** [item.product.toString() === productId && item.variantSku === variantSku]:
    the stored id is printed and compared with the request's string as it
    came, and the variantSku values are compared strictly. *)
Definition sameLine (productId : string) (variantSku : JsString)
    (item : CartItem) : bool :=
  String.eqb (idString (ci_product item)) productId &&
  strictEq (ci_sku item) variantSku.

(** The step shared by [addToCart] and [mergeGuestCart]: the quantity goes
    to the first line that matches, or the new line is pushed; [None] when
    the new line cannot be stored because its product id is no id. *)
Definition mergeLine (productId : string) (variantSku : JsString) (q : Z)
    (newLine : option CartItem) (items : list CartItem)
    : option (list CartItem) :=
  match findIndex (sameLine productId variantSku) items with
  | Some i => Some (alter (addQuantity q) i items)
  | None => option_map (fun line => (items ++ [line])%list) newLine
  end.

(** [addToCart]: a product id is required and the quantity must be a
    positive integer; the product and the variant must exist and have the
    stock (or allow backorders); the item is merged into the line that
    matches, or pushed; a missing cart is created.  A product id that is no
    id makes [findById] throw. *)
Definition addToCart (now : Z) (products : gmap N Product)
    (cart : option (list CartItem)) (productId : option string)
    (variantSku : JsString) (quantity : Z) (newId : ObjectId)
    : CartError + list CartItem :=
  if negb (truthyS productId) then inl ProductIdRequired
  else if quantity <=? 0 then inl QuantityNotPositive
  else
    match castId (default "" productId) with
    | None => inl CartFailure
    | Some pid =>
        match products !! pid with
        | None => inl NoSuchProduct
        | Some product =>
            match selectVariant product (textOf variantSku) with
            | inl _ => inl NoSuchVariant
            | inr variant =>
                if (availableStock product variant <? quantity) &&
                   negb (allowBackorders (inventory product))
                then inl (OutOfStock (availableStock product variant))
                else
                  match mergeLine (default "" productId) variantSku quantity
                          (Some (mkCartItem newId pid variantSku quantity
                                   (Some (calculateItemPrice now product
                                                             variant))))
                          (default [] cart) with
                  | Some items => inr items
                  | None => inl CartFailure
                  end
            end
        end
    end.

Record GuestItem := mkGuestItem {
  g_productId : option string;
  g_variantSku : JsString;
  g_quantity : Z;
  g_newId : ObjectId
}.

(** The merge loop of [mergeGuestCart] and the save after it: an entry
    without a product id or with quantity 0 is skipped; the others are
    merged line by line.  A pushed line whose product id is no id fails the
    save, and nothing is stored ([None]). *)
Definition mergeGuestItems (guest : list GuestItem) (items : list CartItem)
    : option (list CartItem) :=
  fold_left (fun acc g =>
    match acc with
    | None => None
    | Some lines =>
        if negb (truthyS (g_productId g)) || (g_quantity g =? 0)
        then Some lines
        else
          mergeLine (default "" (g_productId g)) (g_variantSku g)
            (g_quantity g)
            (option_map (fun pid => mkCartItem (g_newId g) pid (g_variantSku g)
                                               (g_quantity g) None)
                        (castId (default "" (g_productId g))))
            lines
    end) guest (Some items).

End CartLines.

(** [removeFromCart]: the item with the id is spliced out; a cart left empty
    is deleted. *)
Definition removeFromCart (cart : option (list CartItem)) (itemId : ObjectId)
    : CartError + option (list CartItem) :=
  match cart with
  | None => inl CartNotFound
  | Some items =>
      match findIndex (fun item => N.eqb (ci_id item) itemId) items with
      | None => inl ItemNotInCart
      | Some i =>
          match delete i items with
          | [] => inr None
          | rest => inr (Some rest)
          end
      end
  end.

Definition setQuantity (q : Z) (item : CartItem) : CartItem :=
  mkCartItem (ci_id item) (ci_product item) (ci_sku item) q (ci_price item).

(** [updateCartItem]: the new quantity must be positive and the item and
    its product must exist; the stock of the variant, or of the product when
    the line has no variant or the product no longer carries it, must cover
    the new quantity unless backorders are allowed. *)
Definition updateCartItem (products : gmap N Product)
    (cart : option (list CartItem)) (itemId : ObjectId) (quantity : Z)
    : CartError + list CartItem :=
  if quantity <=? 0 then inl QuantityNotPositive
  else
    match cart with
    | None => inl CartNotFound
    | Some items =>
        match findIndex (fun item => N.eqb (ci_id item) itemId) items with
        | None => inl ItemNotInCart
        | Some i =>
            match items !! i with
            | None => inl ItemNotInCart
            | Some item =>
                match products !! ci_product item with
                | None => inl NoSuchProduct
                | Some product =>
                    let variant :=
                      if truthyS (ci_variantSku item)
                      then findVariant product (default "" (ci_variantSku item))
                      else None in
                    if (availableStock product variant <? quantity) &&
                       negb (allowBackorders (inventory product))
                    then inl (OutOfStock (availableStock product variant))
                    else inr (alter (setQuantity quantity) i items)
                end
            end
        end
    end.

Definition itemCount (items : list CartItem) : Z :=
  fold_left (fun sum item => sum + ci_quantity item) items 0.

(** A cart line as [calculateCartTotals] sees it: the stored price, the
    quantity, and the product document when the cart was populated and the
    product still exists. *)
Record PricedItem := mkPricedItem {
  pi_price : option Q;
  pi_quantity : Z;
  pi_product : option Product;
  pi_variant : option Variant
}.

Record CartTotals := mkCartTotals {
  ct_subtotal : Q;
  ct_tax : Q;
  ct_shipping : Q;
  ct_discount : Q;
  ct_total : Q
}.

(** [item.price || this.calculateItemPrice(item.product, item.variant)];
    without a stored price and without a product document the call throws
    ([None]). *)
Definition linePrice (now : Z) (item : PricedItem) : option Q :=
  if truthyQ (pi_price item) then Some (orZero (pi_price item))
  else match pi_product item with
       | Some product => Some (calculateItemPrice now product (pi_variant item))
       | None => None
       end.

Definition cartSubtotal (now : Z) (items : list PricedItem) : option Q :=
  fold_left (fun sum item =>
    match sum, linePrice now item with
    | Some s, Some itemPrice => Some (s + itemPrice * inject_Z (pi_quantity item))%Q
    | _, _ => None
    end) items (Some 0%Q).

(** [calculateCartTotals(items, discount)]: tax of 8%, shipping free from 50
    and 5.99 below, every amount rounded to two decimals on its own. *)
Definition calculateCartTotals (now : Z) (items : list PricedItem)
    (discount : Q) : option CartTotals :=
  match cartSubtotal now items with
  | Some subtotal =>
      let tax := (subtotal * (8 # 100))%Q in
      let shipping := if Qle_bool (50 # 1) subtotal then 0%Q else 599 # 100 in
      let total := (subtotal + tax + shipping - discount)%Q in
      Some (mkCartTotals (toFixed 2 subtotal) (toFixed 2 tax)
              (toFixed 2 shipping) (toFixed 2 discount) (toFixed 2 total))
  | None => None
  end.

(** An entry of the [outOfStock] and [lowStock] lists. *)
Record StockNote := mkStockNote {
  sn_productId : ObjectId;
  sn_name : string;
  sn_variant : JsString;
  sn_requested : Z;
  sn_available : Z
}.

Record Availability := mkAvailability {
  allAvailable : bool;
  outOfStock : list StockNote;
  lowStock : list StockNote
}.

(** The stock [checkCartAvailability] compares a line with: a variant the
    product does not carry counts as 0. *)
Definition lineStock (product : Product) (item : CartItem) : Z :=
  if truthyS (ci_variantSku item) then
    match findVariant product (default "" (ci_variantSku item)) with
    | Some v => quantity (v_inventory v) - reserved (v_inventory v)
    | None => 0
    end
  else quantity (inventory product) - reserved (inventory product).

Definition stockNote (product : Product) (item : CartItem) (available : Z)
    : StockNote :=
  mkStockNote (ci_product item) (p_name product) (ci_sku item)
              (ci_quantity item) available.

(** One round of the loop of [checkCartAvailability]: a line whose product
    is gone is passed over; a line with no stock is noted as out of stock
    with 0 available, one with less stock than its quantity as low on
    stock. *)
Definition availabilityStep (products : gmap N Product) (av : Availability)
    (item : CartItem) : Availability :=
  match products !! ci_product item with
  | None => av
  | Some product =>
      if lineStock product item <=? 0 then
        mkAvailability false (outOfStock av ++ [stockNote product item 0])
                       (lowStock av)
      else if lineStock product item <? ci_quantity item then
        mkAvailability false (outOfStock av)
          (lowStock av ++ [stockNote product item (lineStock product item)])
      else av
  end.

Definition checkCartAvailability (products : gmap N Product)
    (items : list CartItem) : Availability :=
  fold_left (availabilityStep products) items (mkAvailability true [] []).

(** A line is covered when its product is gone or has stock for it. *)
Definition covered (products : gmap N Product) (item : CartItem) : bool :=
  match products !! ci_product item with
  | None => true
  | Some product =>
      (0 <? lineStock product item) &&
      (ci_quantity item <=? lineStock product item)
  end.

(** The coupon table of [validateCoupon]. *)
Definition cartCoupons : list (string * CartCoupon) :=
  [("WELCOME10", mkCartCoupon "WELCOME10" "percentage" 10 0);
   ("SAVE20", mkCartCoupon "SAVE20" "fixed" 20 (100 # 1));
   ("FREESHIP", mkCartCoupon "FREESHIP" "shipping" 100 0)].

(** [validateCoupon(code, userId)]: the table entry for the code in upper
    case. *)
Definition validateCoupon (code : string) : Lookup CartCoupon :=
  objectGet cartCoupons (toUpperCase code).

(** [cart.coupon]; the code and the type are [undefined] ([None]) when the
    table lookup gave an inherited member instead of a coupon. *)
Record AppliedCoupon := mkAppliedCoupon {
  ac_code : option string;
  ac_discount : Q;
  ac_type : option string
}.

(** The cart line as [applyCoupon] reads it, without [populate]: the product
    is only an id. *)
Definition unpopulated (item : CartItem) : PricedItem :=
  mkPricedItem (ci_price item) (ci_quantity item) None None.

(** [applyCoupon] of the cart: a code, a cart with items and a truthy table
    entry are required; the discount is computed on the rounded subtotal of
    the stored prices and kept with the cart.  An inherited member of the
    table is truthy too: it has no [minPurchase] and no [discountType], so
    [calculateDiscount] gives 0 for it. *)
Definition applyCartCoupon (now : Z) (couponCode : option string)
    (cart : option (list CartItem)) : CartError + AppliedCoupon :=
  if negb (truthyS couponCode) then inl CouponCodeRequired
  else
    match cart with
    | None | Some [] => inl CartIsEmpty
    | Some items =>
        match validateCoupon (default "" couponCode) with
        | Missing => inl InvalidCoupon
        | found =>
            match calculateCartTotals now (map unpopulated items) 0 with
            | Some totals =>
                match found with
                | Own coupon =>
                    inr (mkAppliedCoupon (Some (cc_code coupon))
                           (calculateDiscount coupon (ct_subtotal totals))
                           (Some (cc_discountType coupon)))
                | _ => inr (mkAppliedCoupon None 0 None)
                end
            | None => inl CartFailure
            end
        end
    end.

(** What the cart tells lines apart by: the product id and the variantSku
    as it was given. *)
Definition lineKey (item : CartItem) : ObjectId * JsString :=
  (ci_product item, ci_sku item).


(** The quantities [mergeGuestCart] takes over: those of the entries that
    name a product. *)
Definition mergedQuantity (guest : list GuestItem) : Z :=
  fold_right Z.add 0
    (map (fun g => if truthyS (g_productId g) then g_quantity g else 0)
         guest).

(** ** Writing, voting on and reporting reviews (review controller) *)

Inductive ReviewError :=
| RatingOutOfRange
| CommentTooShort
| NoProduct
| AlreadyReviewed
| NoReview
| ApprovedNotEditable
| AlreadyVoted
| ReasonRequired
| AlreadyReported.

Definition reviewStatusCode (e : ReviewError) : Z :=
  match e with
  | NoProduct | NoReview => 404
  | _ => 400
  end.

Record Report := mkReport {
  report_user : ObjectId;
  report_reason : string;
  report_details : string
}.

(** A review document with the fields the user-facing handlers touch, around
    the fields the rating aggregate reads. *)
Record ReviewDoc := mkReviewDoc {
  doc_review : Review;
  doc_comment : string;
  verifiedPurchase : bool;
  helpfulCount : Z;
  unhelpfulCount : Z;
  helpfulVotes : list ObjectId;
  unhelpfulVotes : list ObjectId;
  reports : list Report
}.

(** The white space of [String.prototype.trim] among the ASCII characters. *)
Definition isSpace (c : ascii) : bool :=
  let n := nat_of_ascii c in
  (Nat.eqb n 32 || (Nat.leb 9 n && Nat.leb n 13))%bool.

Fixpoint trimStart (l : list ascii) : list ascii :=
  match l with
  | c :: r => if isSpace c then trimStart r else l
  | [] => []
  end.

(** [s.trim()]. *)
Definition trim (s : string) : string :=
  string_of_list_ascii
    (rev (trimStart (rev (trimStart (list_ascii_of_string s))))).

(** [!comment || comment.trim().length < 10], for ASCII text: the length
    counts the bytes of the string, which are the characters JavaScript
    counts as long as the text is ASCII, and [trim] takes off the ASCII
    white space. *)
Definition commentTooShort (comment : option string) : bool :=
  negb (truthyS comment) ||
  (Z.of_nat (String.length (trim (default "" comment))) <? 10).

(** [Order.exists({ user, 'items.product': productId, status: 'delivered' })]. *)
Definition hasPurchased (orders : list Order) (userId productId : ObjectId)
    : bool :=
  existsb (fun o => N.eqb (order_user o) userId &&
                    existsb (fun it => N.eqb (item_product it) productId)
                            (order_items o) &&
                    String.eqb (order_status o) "delivered") orders.

(** [Review.findOne({ user: userId, product: productId })]. *)
Definition reviewOf (reviews : list Review) (userId productId : ObjectId)
    : option Review :=
  List.find (fun r => N.eqb (review_user r) userId &&
                      N.eqb (review_product r) productId) reviews.

(** [createReview]: the rating must lie between 1 and 5 and the trimmed
    comment have 10 characters; the product must exist and the user must not
    have reviewed it; the review is stored as pending with the rating cut to
    an integer by [parseInt], marked as a verified purchase when a delivered
    order of the user holds the product.  A purchase is not required. *)
Definition createReview (products : gmap N Product) (orders : list Order)
    (reviews : list Review) (userId productId : ObjectId)
    (rating : option Q) (comment : option string) (newId : ObjectId)
    : ReviewError + (ReviewDoc * list Review) :=
  if negb (truthyQ rating) || negb (Qle_bool 1 (orZero rating))
     || negb (Qle_bool (orZero rating) 5)
  then inl RatingOutOfRange
  else if commentTooShort comment then inl CommentTooShort
  else
    match products !! productId with
    | None => inl NoProduct
    | Some _ =>
        match reviewOf reviews userId productId with
        | Some _ => inl AlreadyReviewed
        | None =>
            let review :=
              mkReviewDoc
                (mkReview newId userId productId "pending"
                          (Qfloor (orZero rating)))
                (trim (default "" comment))
                (hasPurchased orders userId productId) 0 0 [] [] [] in
            inr (review, (reviews ++ [doc_review review])%list)
        end
    end.

(** The answer of [canReviewProduct], without the product summary and the
    days since the purchase. *)
Record CanReview := mkCanReview {
  canReview : bool;
  cr_reason : option string;
  cr_hasPurchased : bool
}.

Definition canReviewProduct (products : gmap N Product) (orders : list Order)
    (reviews : list Review) (userId productId : ObjectId)
    : ReviewError + CanReview :=
  match products !! productId with
  | None => inl NoProduct
  | Some _ =>
      match reviewOf reviews userId productId with
      | Some _ => inr (mkCanReview false (Some "already_reviewed") false)
      | None =>
          inr (mkCanReview true None (hasPurchased orders userId productId))
      end
  end.

(** The fields of a review that the body of [updateReview] may name. *)
Record ReviewUpdates := mkReviewUpdates {
  u_rating : option Z;
  u_comment : option string;
  u_status : option string;
  u_user : option ObjectId;
  u_product : option ObjectId
}.

(** [Object.keys(updates).forEach(...)]: every field named in the body is
    assigned, apart from [_id]. *)
Definition assignUpdates (u : ReviewUpdates) (r : Review) : Review :=
  mkReview (review_id r)
           (default (review_user r) (u_user u))
           (default (review_product r) (u_product u))
           (default (review_status r) (u_status u))
           (default (review_rating r) (u_rating u)).

(** [updateReview]: the author's own review, unless it is approved, takes
    the fields of the body and goes back to pending.  A rating is checked
    only when it is truthy, and a comment likewise. *)
Definition updateReview (reviews : list Review) (userId reviewId : ObjectId)
    (updates : ReviewUpdates) : ReviewError + (Review * list Review) :=
  match List.find (fun r => N.eqb (review_id r) reviewId &&
                            N.eqb (review_user r) userId) reviews with
  | None => inl NoReview
  | Some review =>
      if String.eqb (review_status review) "approved"
      then inl ApprovedNotEditable
      else if truthyZ (u_rating updates) &&
              ((default 0 (u_rating updates) <? 1) ||
               (5 <? default 0 (u_rating updates)))
      then inl RatingOutOfRange
      else if truthyS (u_comment updates) &&
              (Z.of_nat (String.length (trim (default "" (u_comment updates))))
               <? 10)
      then inl CommentTooShort
      else
        let review' := setReviewStatus (assignUpdates updates review) "pending" in
        inr (review', saveReview review' reviews)
  end.

Definition setVotes (r : ReviewDoc) (hc uc : Z) (hv uv : list ObjectId)
    : ReviewDoc :=
  mkReviewDoc (doc_review r) (doc_comment r) (verifiedPurchase r) hc uc hv uv
              (reports r).

(** [markHelpful]: a user who is in neither list of voters is added to one
    of them, and its counter goes up by one. *)
Definition markHelpful (review : option ReviewDoc) (userId : ObjectId)
    (helpful : bool) : ReviewError + ReviewDoc :=
  match review with
  | None => inl NoReview
  | Some r =>
      if existsb (N.eqb userId) (helpfulVotes r) ||
         existsb (N.eqb userId) (unhelpfulVotes r)
      then inl AlreadyVoted
      else if helpful
      then inr (setVotes r (helpfulCount r + 1) (unhelpfulCount r)
                         (helpfulVotes r ++ [userId]) (unhelpfulVotes r))
      else inr (setVotes r (helpfulCount r) (unhelpfulCount r + 1)
                         (helpfulVotes r) (unhelpfulVotes r ++ [userId]))
  end.

(** The stored review after a vote request: a refused request stores
    nothing. *)
Definition castVote (r : ReviewDoc) (vote : ObjectId * bool) : ReviewDoc :=
  match markHelpful (Some r) (fst vote) (snd vote) with
  | inr r' => r'
  | inl _ => r
  end.

(** The first vote a user cast in a run of requests. *)
Definition firstVote (userId : ObjectId) (votes : list (ObjectId * bool))
    : option bool :=
  option_map snd (List.find (fun v => N.eqb (fst v) userId) votes).

(** [reportReview]: a reason is required; a user reports a review once; with
    the third report the review is flagged. *)
Definition reportReview (review : option ReviewDoc) (userId : ObjectId)
    (reason details : option string) : ReviewError + ReviewDoc :=
  if negb (truthyS reason) then inl ReasonRequired
  else
    match review with
    | None => inl NoReview
    | Some r =>
        if existsb (fun rep => N.eqb (report_user rep) userId) (reports r)
        then inl AlreadyReported
        else
          let reports' :=
            (reports r ++ [mkReport userId (default "" reason)
                                    (default "" details)])%list in
          let review' :=
            if (3 <=? length reports')%nat
            then setReviewStatus (doc_review r) "flagged"
            else doc_review r in
          inr (mkReviewDoc review' (doc_comment r) (verifiedPurchase r)
                 (helpfulCount r) (unhelpfulCount r) (helpfulVotes r)
                 (unhelpfulVotes r) reports')
    end.

(** The stored review after a report request. *)
Definition fileReport (r : ReviewDoc)
    (request : ObjectId * option string * option string) : ReviewDoc :=
  match reportReview (Some r) (fst (fst request)) (snd (fst request))
                     (snd request) with
  | inr r' => r'
  | inl _ => r
  end.

(** No user has two reviews of one product. *)
Definition oneReviewEach (reviews : list Review) : Prop :=
  NoDup (map (fun r => (review_user r, review_product r)) reviews).

(** ** Return requests (order controller) *)

Inductive ReturnError :=
| NoItemsSelected
| ReturnReasonRequired
| NoSuchOrder
| NotReturnable
| ItemNotInOrder (itemId : string)
| AlreadyReturned (itemId : string)
| MoreThanPurchased (itemId : string).

Definition returnStatusCode (e : ReturnError) : Z :=
  match e with
  | NoSuchOrder => 404
  | _ => 400
  end.

Record ReturnRec := mkReturnRec {
  ret_itemId : ObjectId;
  ret_quantity : Z;
  ret_reason : string;
  ret_status : string
}.

(** An entry of the request: the id of the line item as the body spells it,
    and the quantity. *)
Record ReturnItem := mkReturnItem {
  rt_itemId : string;
  rt_quantity : Z
}.

(** The part of an order document [requestReturn] reads and writes: the
    owner, the line items under their ids, and the returns. *)
Record ReturnsDoc := mkReturnsDoc {
  rd_user : ObjectId;
  rd_items : list (ObjectId * OrderItem);
  rd_returns : list ReturnRec
}.

Section Returns.

(** How a stored id prints ([r.itemId.toString()]), and the id the model
    makes of an id string of a request, if it is one (the cast that
    [order.items.id()] and the push to [order.returns] apply).  The model
    behind this controller is not among the sources. *)
Variable idString : ObjectId -> string.
Variable castId : string -> option ObjectId.

(** [order.items.id(itemId)]: the line item whose id is the cast of the
    string. *)
Definition itemById (order : ReturnsDoc) (itemId : string)
    : option OrderItem :=
  match castId itemId with
  | Some i =>
      option_map snd (List.find (fun p => N.eqb (fst p) i) (rd_items order))
  | None => None
  end.

(** [r.itemId.toString() === returnItem.itemId && r.status !== 'rejected']:
    a return of the item, by the request's spelling of the id, that has not
    been rejected. *)
Definition openReturn (itemId : string) (r : ReturnRec) : bool :=
  String.eqb (idString (ret_itemId r)) itemId &&
  negb (String.eqb (ret_status r) "rejected").

(** The validation loop: the first item that is not in the order, has a
    return that was not rejected, or asks for more than was bought stops the
    request. *)
Fixpoint validateReturn (order : ReturnsDoc) (items : list ReturnItem)
    : option ReturnError :=
  match items with
  | [] => None
  | returnItem :: rest =>
      match itemById order (rt_itemId returnItem) with
      | None => Some (ItemNotInOrder (rt_itemId returnItem))
      | Some orderItem =>
          if existsb (openReturn (rt_itemId returnItem)) (rd_returns order)
          then Some (AlreadyReturned (rt_itemId returnItem))
          else if item_quantity orderItem <? rt_quantity returnItem
          then Some (MoreThanPurchased (rt_itemId returnItem))
          else validateReturn order rest
      end
  end.

(** The returns pushed for the items of a request, each under the cast of
    its id; an id that is no id is left out (the validation loop lets none
    through). *)
Definition newReturns (reason : string) (items : list ReturnItem)
    : list ReturnRec :=
  omap (fun returnItem =>
          option_map (fun i => mkReturnRec i (rt_quantity returnItem) reason
                                           "requested")
                     (castId (rt_itemId returnItem)))
       items.

(** [requestReturn]: items and a reason are required, the order must be the
    user's and returnable ([canReturn] is the value of the order's virtual
    of that name, which the model defines); when every item passes the
    validation, one return is stored per item. *)
Definition requestReturn (order : option ReturnsDoc) (canReturn : bool)
    (userId : ObjectId) (items : list ReturnItem) (reason : option string)
    : ReturnError + list ReturnRec :=
  match items with
  | [] => inl NoItemsSelected
  | _ =>
      if negb (truthyS reason) then inl ReturnReasonRequired
      else
        match order with
        | None => inl NoSuchOrder
        | Some o =>
            if negb (N.eqb (rd_user o) userId) then inl NoSuchOrder
            else if negb canReturn then inl NotReturnable
            else
              match validateReturn o items with
              | Some e => inl e
              | None =>
                  inr (rd_returns o ++ newReturns (default "" reason) items)%list
              end
        end
  end.

End Returns.

(** The items that have a return which was not rejected. *)
Definition openReturns (returns : list ReturnRec) : list ObjectId :=
  map ret_itemId
      (List.filter (fun r => negb (String.eqb (ret_status r) "rejected"))
                   returns).

(** ** Saving a cart line for later (cart controller, user model) *)

(** [user.addToWishlist(productId)] on the products of the wishlist: a
    product already on the list is not added again. *)
Definition addToWishlist (wishlist : list ObjectId) (productId : ObjectId)
    : list ObjectId :=
  if existsb (fun p => N.eqb p productId) wishlist then wishlist
  else wishlist ++ [productId].

(** [user.removeFromWishlist(productId)]. *)
Definition removeFromWishlist (wishlist : list ObjectId) (productId : ObjectId)
    : list ObjectId :=
  List.filter (fun p => negb (N.eqb p productId)) wishlist.

(** [saveForLater]: the product of the cart line goes to the wishlist of the
    user, when the user is found, and the line is spliced out of the cart; a
    cart left empty is deleted. *)
Definition saveForLater (cart : option (list CartItem))
    (wishlist : option (list ObjectId)) (itemId : ObjectId)
    : CartError + (option (list CartItem) * option (list ObjectId)) :=
  match cart with
  | None => inl CartNotFound
  | Some items =>
      match findIndex (fun item => N.eqb (ci_id item) itemId) items with
      | None => inl ItemNotInCart
      | Some i =>
          match items !! i with
          | None => inl ItemNotInCart
          | Some item =>
              let wishlist' :=
                option_map (fun w => addToWishlist w (ci_product item))
                           wishlist in
              match delete i items with
              | [] => inr (None, wishlist')
              | rest => inr (Some rest, wishlist')
              end
          end
      end
  end.

(** ** Sample ids *)

(** A way ids may print, and a cast that reads it in either letter case: the
    id 26 prints as "0x1a" and is read from "0x1a" and from "0x1A". *)
Definition hexId (i : ObjectId) : string := HexString.of_N i.

Definition readHexId (s : string) : option ObjectId := Some (HexString.to_N s).

(** * Properties *)

(** ** Inventory reservation *)








(** ** The stock invariant *)







(** Decides the invariant on a concrete product. *)
Ltac check_stock :=
  unfold stockInvariant, inventoryOk; simpl;
  split; [lia | repeat constructor; simpl; lia].

(** ** Cancellation gives the reservation back *)

Lemma inventoryStep_alter action st pid s q :
  inventoryStep action st pid s q = alter (updateInventory q s action) pid st.
Proof. unfold inventoryStep. now rewrite alter_alt. Qed.

Lemma release_reserve_inventory q inv :
  applyAction "release" q (applyAction "reserve" q inv) = inv.
Proof. destruct inv. unfold applyAction. simpl. f_equal. lia. Qed.

Lemma release_reserve_commute q1 q2 inv :
  applyAction "release" q1 (applyAction "reserve" q2 inv)
  = applyAction "reserve" q2 (applyAction "release" q1 inv).
Proof. destruct inv. unfold applyAction. simpl. f_equal. lia. Qed.

Lemma updateVariant_cancel s f g vs :
  (forall inv, f (g inv) = inv) ->
  updateVariant s f (updateVariant s g vs) = vs.
Proof.
  intros Hfg. induction vs as [|x r IH]; simpl; [reflexivity|].
  destruct (String.eqb (sku x) s) eqn:E; simpl; rewrite E.
  - rewrite Hfg. now destruct x.
  - now rewrite IH.
Qed.

Lemma updateVariant_commute s1 s2 f g vs :
  (forall inv, f (g inv) = g (f inv)) ->
  updateVariant s1 f (updateVariant s2 g vs)
  = updateVariant s2 g (updateVariant s1 f vs).
Proof.
  intros Hfg. induction vs as [|x r IH]; simpl; [reflexivity|].
  destruct (String.eqb (sku x) s2) eqn:E2, (String.eqb (sku x) s1) eqn:E1;
    simpl; rewrite ?E1, ?E2; simpl; rewrite ?Hfg, ?IH; reflexivity.
Qed.

Lemma release_reserve_product q s p :
  updateInventory q s "release" (updateInventory q s "reserve" p) = p.
Proof.
  unfold updateInventory, setInventory, setVariants.
  destruct p as [n pr tx w inv vs rt].
  destruct s as [s|]; [destruct (String.eqb s "")|]; simpl;
    rewrite ?release_reserve_inventory; try reflexivity.
  rewrite updateVariant_cancel; [reflexivity|].
  apply release_reserve_inventory.
Qed.

Lemma release_reserve_product_commute q1 s1 q2 s2 p :
  updateInventory q1 s1 "release" (updateInventory q2 s2 "reserve" p)
  = updateInventory q2 s2 "reserve" (updateInventory q1 s1 "release" p).
Proof.
  unfold updateInventory, setInventory, setVariants.
  destruct p as [n pr tx w inv vs rt].
  destruct s1 as [s1|]; [destruct (String.eqb s1 "")|];
    (destruct s2 as [s2|]; [destruct (String.eqb s2 "")|]); simpl;
    rewrite ?release_reserve_commute; try reflexivity.
  f_equal. apply updateVariant_commute. intros. apply release_reserve_commute.
Qed.

Lemma itemsInventory_cons action it r st :
  itemsInventory action (it :: r) st
  = itemsInventory action r
      (inventoryStep action st (item_product it) (item_variantSku it)
                     (item_quantity it)).
Proof. reflexivity. Qed.

Lemma release_step_past_reserves its st pid s q :
  inventoryStep "release" (itemsInventory "reserve" its st) pid s q
  = itemsInventory "reserve" its (inventoryStep "release" st pid s q).
Proof.
  revert st. induction its as [|it r IH]; intros st; [reflexivity|].
  rewrite !itemsInventory_cons, IH. f_equal.
  rewrite !inventoryStep_alter, alter_alter.
  case_decide as Hk.
  - subst. rewrite alter_alter_eq. apply alter_ext. intros x _. simpl.
    apply release_reserve_product_commute.
  - reflexivity.
Qed.

(** Releasing the items of an order after they were reserved gives back the
    product store as it was. *)
Lemma release_after_reserve its st :
  itemsInventory "release" its (itemsInventory "reserve" its st) = st.
Proof.
  revert st. induction its as [|it r IH]; intros st; [reflexivity|].
  rewrite !itemsInventory_cons, release_step_past_reserves.
  rewrite !inventoryStep_alter, alter_alter_eq, (alter_id _ st); [apply IH|].
  intros x _. simpl. apply release_reserve_product.
Qed.

Lemma reserveItems_map its st :
  reserveItems (map toUpdate its) st = itemsInventory "reserve" its st.
Proof.
  revert st. induction its as [|it r IH]; intros st; [reflexivity|].
  unfold reserveItems, itemsInventory in *. simpl. apply IH.
Qed.

(** The item loop builds the stored items and the reservation list side by
    side. *)
Lemma createOrder_items_updates now products reqs acc acc' :
  createOrder_items now products reqs acc = inr acc' ->
  acc_productUpdates acc = map toUpdate (acc_orderItems acc) ->
  acc_productUpdates acc' = map toUpdate (acc_orderItems acc').
Proof.
  revert acc. induction reqs as [|item rest IH]; simpl; intros acc.
  - now intros [= <-].
  - destruct (products !! productId item) as [product|]; [|discriminate].
    destruct (selectVariant product (variantSku item)) as [e|variant];
      [discriminate|].
    destruct (checkAvailability product variant (req_quantity item));
      [discriminate|].
    intros Hrun Hacc. apply (IH _ Hrun). simpl.
    rewrite map_app, Hacc. reflexivity.
Qed.

(** What a successful [createOrder] is made of. *)
Lemma createOrder_inversion calculateShipping createPayment now products
    coupons orders userId req c :
  createOrder calculateShipping createPayment now products coupons orders
              userId req = inr c ->
  exists acc cs,
    createOrder_items now products (items req) (mkItemsAcc [] 0 0 0 []) = inr acc /\
    createOrder_coupon now coupons orders userId (couponCode req)
                       (acc_subtotal acc) = inr cs /\
    order_items (created_order c) = acc_orderItems acc /\
    created_products c = reserveItems (acc_productUpdates acc) products /\
    order_status (created_order c) = "pending" /\
    pay_amount (order_payment (created_order c))
    = createOrder_totals cs
        (calculateShipping (acc_totalWeight acc) (acc_totalItems acc)
                           (shippingMethod req)).
Proof.
  unfold createOrder. destruct (items req) as [|i0 rest] eqn:Hreq; [discriminate|].
  rewrite <- Hreq.
  destruct (String.eqb (shippingMethod req) ""); [discriminate|].
  destruct (String.eqb (paymentMethod req) ""); [discriminate|].
  destruct (createOrder_items now products (items req) _) as [e|acc];
    [discriminate|].
  destruct (createOrder_coupon _ _ _ _ _ _) as [e|cs] eqn:Hc; [discriminate|].
  intros [= <-]. exists acc, cs. simpl. repeat split; auto.
Qed.

Lemma canCancel_statuses o :
  canCancel o = true ->
  order_status o = "pending" \/ order_status o = "confirmed" \/
  order_status o = "processing".
Proof.
  unfold canCancel, includes. simpl. rewrite !orb_true_iff, !String.eqb_eq.
  intuition congruence.
Qed.

Lemma canCancel_transition o :
  canCancel o = true -> transitionAllowed (order_status o) "cancelled" = true.
Proof.
  intros H. destruct (canCancel_statuses o H) as [E|[E|E]]; rewrite E;
    reflexivity.
Qed.

Lemma refundIfCaptured_status o reason :
  order_status (fst (refundIfCaptured o reason)) = order_status o /\
  order_items (fst (refundIfCaptured o reason)) = order_items o.
Proof.
  unfold refundIfCaptured.
  destruct (String.eqb (pay_status (order_payment o)) "captured"); now split.
Qed.

Lemma cancelled_refuses o :
  order_status o = "cancelled" -> refusesCancellation o.
Proof.
  intros E. split.
  - intros reason st. unfold cancelOrder, canCancel. now rewrite E.
  - intros role notes tracking st. unfold updateOrderStatus.
    destruct (negb (String.eqb role "admin") && negb (String.eqb role "superadmin"));
      [eauto|].
    rewrite E. simpl. eauto.
Qed.

(** C4.  An order placed by [createOrder] and cancelled while it can still be
    cancelled leaves the product store exactly as it was before the order:
    every item's reserved counter is back at its earlier value.  This holds
    for the customer's [cancelOrder] and for the admin's transition to
    [cancelled] alike, and the order that results refuses both cancellation
    paths, so no item is released a second time. *)
Theorem cancel_restores_reserved :
  forall (calculateShipping : Q -> Z -> string -> Q) (createPayment : Q -> string)
         (now : Z) (products : gmap N Product) (coupons : list Coupon)
         (orders : list Order) (userId : ObjectId) (req : OrderReq)
         (c : Created) (o : Order),
    createOrder calculateShipping createPayment now products coupons orders
                userId req = inr c ->
    order_items o = order_items (created_order c) ->
    canCancel o = true ->
    (forall reason, exists u,
        cancelOrder (Some o) reason (created_products c) = inr u /\
        upd_products u = products /\
        order_status (upd_order u) = "cancelled" /\
        refusesCancellation (upd_order u)) /\
    (forall role notes tracking,
        role = "admin" \/ role = "superadmin" ->
        exists u,
          updateOrderStatus role (Some o) "cancelled" notes tracking
                            (created_products c) = inr u /\
          upd_products u = products /\
          order_status (upd_order u) = "cancelled" /\
          refusesCancellation (upd_order u)).
Proof.
  intros calculateShipping createPayment now products coupons orders userId
         req c o Hcreate Hitems Hcan.
  assert (Hstore : created_products c
                   = itemsInventory "reserve" (order_items o) products).
  { destruct (createOrder_inversion _ _ _ _ _ _ _ _ _ Hcreate)
      as (acc & cs & Hi & _ & Hit & Hprod & _).
    rewrite Hprod, Hitems, Hit, <- reserveItems_map. f_equal.
    now apply (createOrder_items_updates _ _ _ _ _ Hi). }
  split.
  - intros reason. unfold cancelOrder. rewrite Hcan. simpl.
    set (o1 := addNote (setStatus o "cancelled") _).
    pose proof (refundIfCaptured_status o1 "customer_cancelled") as [Hs Hi].
    destruct (refundIfCaptured o1 "customer_cancelled") as [o2 effects].
    simpl in Hs, Hi. eexists. split; [reflexivity|]. simpl.
    split; [rewrite Hstore; apply release_after_reserve|].
    split; [exact Hs|]. apply cancelled_refuses. exact Hs.
  - intros role notes tracking Hrole. unfold updateOrderStatus.
    assert (Hadm : negb (String.eqb role "admin") && negb (String.eqb role "superadmin") = false)
      by (destruct Hrole as [-> | ->]; reflexivity).
    rewrite Hadm, (canCancel_transition o Hcan). simpl.
    set (o1 := match notes with Some _ => _ | None => _ end).
    assert (Ho1 : order_status o1 = "cancelled" /\ order_items o1 = order_items o).
    { subst o1. destruct notes as [n|]; [destruct (String.eqb n "")|]; now split. }
    destruct Ho1 as [Hs1 Hi1].
    pose proof (refundIfCaptured_status o1 "order_cancelled") as [Hs Hi].
    destruct (refundIfCaptured o1 "order_cancelled") as [o2 effects].
    simpl in Hs, Hi. eexists. split; [reflexivity|]. simpl.
    split; [rewrite Hi1, Hstore; apply release_after_reserve|].
    rewrite Hs1 in Hs. split; [exact Hs|]. apply cancelled_refuses. exact Hs.
Qed.

Lemma cancel_restores_reserved_witness :
  exists c,
    createOrder flatShipping intentId 0 catalog [save20] [] 7%N basket = inr c /\
    canCancel (created_order c) = true /\
    exists u,
      cancelOrder (Some (created_order c)) "ordered twice" (created_products c)
      = inr u /\
      upd_products u = catalog.
Proof.
  eexists. split; [reflexivity|]. split; [reflexivity|].
  destruct (cancel_restores_reserved flatShipping intentId 0 catalog [save20] []
              7%N basket _ _ eq_refl eq_refl eq_refl) as [H _].
  destruct (H "ordered twice") as (u & Hu & Hp & _).
  exists u. split; [exact Hu | exact Hp].
Defined.

(** ** Cancellation: permission, release, refund *)


(** The second controller's [cancelOrder] never asks for a refund: it reads
    the payment status after overwriting it. *)
Lemma second_cancelOrder_never_refunds order products r :
  Simple.cancelOrder (Some order) products = inr r ->
  Simple.c_effects r = [] /\
  Simple.o_paymentStatus (Simple.c_order r) = "cancelled".
Proof.
  unfold Simple.cancelOrder.
  destruct (negb (includes ["pending"; "confirmed"] (Simple.o_status order)));
    [discriminate|].
  intros [= <-]. simpl. split; reflexivity.
Qed.

(** C5, at the failing input.  The second controller cancels a confirmed
    order whose payment is completed: the items are restocked, but no refund is
    requested and the payment status ends as [cancelled] rather than
    [refunded]. *)
Theorem second_cancelOrder_skips_refund :
  exists r,
    Simple.cancelOrder (Some paidOrder) stockroom = inr r /\
    Simple.o_status (Simple.c_order r) = "cancelled" /\
    Simple.c_products r = <[1%N := Simple.mkSProduct 10 0 []]> ∅ /\
    Simple.c_effects r = [] /\
    Simple.o_paymentStatus (Simple.c_order r) = "cancelled".
Proof.
  eexists. split; [reflexivity|]. repeat split; reflexivity.
Qed.

(** ** The stock invariant over the order handlers *)












(** An order that names one inventory record in two lines gets through the
    availability check, which compares each line with the store as the
    request found it, and reserves the sum: two lines of 2 units of a
    product with quantity 3 and no backorders leave its reserved count at 4.
    The statement above is about orders whose lines address different
    records. *)
Lemma createOrder_repeated_line_reserves_the_sum :
  stockInvariant tshirt /\
  exists c p',
    createOrder flatShipping intentId 0 catalog [] [] 7%N
      (mkOrderReq [mkItemReq 1%N None 2; mkItemReq 1%N None 2]
                  "standard" "card" None) = inr c /\
    created_products c !! 1%N = Some p' /\
    allowBackorders (inventory p') = false /\
    quantity (inventory p') = 3 /\ reserved (inventory p') = 4.
Proof.
  split; [check_stock|].
  eexists. eexists. split; [reflexivity|]. split; [reflexivity|].
  repeat split; reflexivity.
Qed.

(** ** Coupon validation *)

Lemma find_all_false {A} (f : A -> bool) (l : list A) :
  (forall x, In x l -> f x = false) -> List.find f l = None.
Proof.
  induction l as [|a r IH]; simpl; intros H; [reflexivity|].
  rewrite (H a (or_introl eq_refl)). apply IH. intros x Hx. apply H. now right.
Qed.

Lemma truthyQ_orZero m :
  ~ (m == 0)%Q -> truthyQ (Some m) = true /\ orZero (Some m) = m.
Proof.
  intros Hm. unfold truthyQ, orZero.
  destruct (Qeq_bool m 0) eqn:E; [|now split].
  apply Qeq_bool_iff in E. contradiction.
Qed.

Lemma truthyZ_limit l : l <> 0 -> truthyZ (Some l) = true.
Proof. intros H. unfold truthyZ. now apply negb_true_iff, Z.eqb_neq. Qed.

(** C6, counterexample.  A code that matches no coupon, and the code of a
    coupon whose validity window has closed, are not rejected: the coupon
    stage lets the order through without a discount, and [createOrder]
    answers with the created order. *)
Lemma invalid_coupon_not_rejected :
  findCoupon 10 couponBook "BOGUS" = None /\
  createOrder_coupon 10 couponBook [] 7%N (Some "BOGUS") (90 # 1)
  = inr (mkCouponStage None 0 (90 # 1)) /\
  findCoupon 10 couponBook "OLD10" = None /\
  createOrder_coupon 10 couponBook [] 7%N (Some "OLD10") (90 # 1)
  = inr (mkCouponStage None 0 (90 # 1)) /\
  exists c,
    createOrder flatShipping intentId 10 catalog couponBook [] 7%N
      (mkOrderReq [mkItemReq 2%N None 1] "standard" "card" (Some "BOGUS"))
    = inr c /\
    order_discounts (created_order c) = [] /\
    created_coupon c = None.
Proof.
  repeat split; try reflexivity.
  eexists. split; [reflexivity|]. split; reflexivity.
Qed.

(** C6, as the code has it.  A code given with the order that matches no
    coupon which is active and inside its validity window is passed over:
    the order goes on without a coupon and without a discount.  For the
    coupon that is found, the request is refused with status 400 when its
    usage limit is set and reached, when its per-user limit is set and the
    caller's earlier orders with that code have reached it, or when its
    minimum purchase is set and the subtotal is below it.  A fixed 20 coupon
    with minimum purchase 100 is refused on a subtotal of 90. *)
Theorem coupon_validation :
  forall (now : Z) (coupons : list Coupon) (orders : list Order)
         (userId : ObjectId) (cc : string) (subtotal : Q),
    cc <> "" ->
    ((forall cp, In cp coupons -> code cp = toUpperCase cc ->
        isActive cp = false \/ now < startDate cp \/
        exists e, endDate cp = Some e /\ e < now) ->
     createOrder_coupon now coupons orders userId (Some cc) subtotal
     = inr (mkCouponStage None 0 subtotal)) /\
    (forall coupon,
        findCoupon now coupons cc = Some coupon ->
        (exists l, usageLimit coupon = Some l /\ l <> 0 /\ l <= usedCount coupon) \/
        (exists l, userUsageLimit coupon = Some l /\ l <> 0 /\
                   l <= userUsageCount orders userId (toUpperCase cc)) \/
        (exists m, minimumPurchase coupon = Some m /\ ~ (m == 0)%Q /\
                   (subtotal < m)%Q) ->
        exists e,
          createOrder_coupon now coupons orders userId (Some cc) subtotal = inl e /\
          httpStatus e = 400) /\
    createOrder_coupon 0 [save20] [] userId (Some "SAVE20") (90 # 1)
    = inl (MinimumPurchaseRequired (100 # 1)).
Proof.
  intros now coupons orders userId cc subtotal Hcc.
  apply String.eqb_neq in Hcc.
  split; [|split; [|reflexivity]].
  - intros Hnone. unfold createOrder_coupon. rewrite Hcc.
    unfold findCoupon. rewrite find_all_false; [reflexivity|].
    intros cp Hin. unfold couponMatches.
    destruct (String.eqb (code cp) (toUpperCase cc)) eqn:Ec; [|reflexivity].
    apply String.eqb_eq in Ec.
    destruct (Hnone cp Hin Ec) as [Hact|[Hstart|(e & He & Hend)]].
    + rewrite Hact. reflexivity.
    + apply Z.leb_gt in Hstart. rewrite Hstart. now rewrite andb_false_r.
    + rewrite He. apply Z.leb_gt in Hend. rewrite Hend. now rewrite andb_false_r.
  - intros coupon Hfound Hfail. unfold createOrder_coupon.
    rewrite Hcc, Hfound.
    destruct (truthyZ (usageLimit coupon) &&
              (default 0 (usageLimit coupon) <=? usedCount coupon)) eqn:E1;
      [eexists; split; reflexivity|].
    destruct (truthyZ (userUsageLimit coupon) &&
              (default 0 (userUsageLimit coupon) <=?
               userUsageCount orders userId (toUpperCase cc))) eqn:E2;
      [eexists; split; reflexivity|].
    destruct (truthyQ (minimumPurchase coupon) &&
              negb (Qle_bool (orZero (minimumPurchase coupon)) subtotal)) eqn:E3;
      [eexists; split; reflexivity|].
    exfalso. destruct Hfail as [(l & Hl & Hnz & Hle)|[(l & Hl & Hnz & Hle)|(m & Hm & Hnz & Hlt)]].
    + rewrite Hl, (truthyZ_limit l Hnz) in E1.
      apply Z.leb_le in Hle. simpl in E1. congruence.
    + rewrite Hl, (truthyZ_limit l Hnz) in E2.
      apply Z.leb_le in Hle. simpl in E2. congruence.
    + rewrite Hm in E3. destruct (truthyQ_orZero m Hnz) as [Ht Ho].
      rewrite Ht, Ho in E3. simpl in E3. apply negb_false_iff in E3.
      apply Qle_bool_iff in E3. lra.
Qed.

Lemma coupon_validation_witness :
  createOrder_coupon 10 couponBook [] 7%N (Some "old10") (90 # 1)
  = inr (mkCouponStage None 0 (90 # 1)) /\
  exists e,
    createOrder_coupon 10 couponBook [] 7%N (Some "save20") (90 # 1) = inl e /\
    httpStatus e = 400.
Proof.
  assert (Hcc : forall s : string, String.eqb s "" = false -> s <> "").
  { intros s H. now apply String.eqb_neq. }
  split.
  - refine (proj1 (coupon_validation 10 couponBook [] 7%N "old10" (90 # 1)
                     (Hcc "old10" eq_refl)) _).
    intros cp [<-|[<-|[]]]; simpl; [discriminate|].
    intros _. right. right. exists 5. split; [reflexivity|lia].
  - refine (proj1 (proj2 (coupon_validation 10 couponBook [] 7%N "save20" (90 # 1)
                            (Hcc "save20" eq_refl))) save20 eq_refl _).
    right. right. exists (100 # 1)%Q. split; [reflexivity|].
    split; [intros H; vm_compute in H; discriminate | reflexivity].
Defined.

(** ** Discount computation *)

Lemma MathMin_Qmin a b : (MathMin a b == Qmin a b)%Q.
Proof.
  unfold MathMin. destruct (Qle_bool a b) eqn:E.
  - apply Qle_bool_iff in E. now rewrite Q.min_l.
  - assert (H : (b <= a)%Q).
    { destruct (Qlt_le_dec b a) as [H|H]; [now apply Qlt_le_weak|].
      apply Qle_bool_iff in H. congruence. }
    now rewrite Q.min_r.
Qed.

Lemma MathMax_Qmax a b : (MathMax a b == Qmax a b)%Q.
Proof.
  unfold MathMax. destruct (Qle_bool a b) eqn:E.
  - apply Qle_bool_iff in E. now rewrite Q.max_r.
  - assert (H : (b <= a)%Q).
    { destruct (Qlt_le_dec b a) as [H|H]; [now apply Qlt_le_weak|].
      apply Qle_bool_iff in H. congruence. }
    now rewrite Q.max_l.
Qed.

Lemma MathMax_floor x : (0 <= MathMax 0 x)%Q.
Proof. rewrite MathMax_Qmax. apply Q.le_max_l. Qed.

(** Taking a discount off and flooring at zero deducts the smaller of the
    discount and the amount. *)
Lemma floor_deducts_min s v : (MathMax 0 (s - v) == s - Qmin v s)%Q.
Proof.
  rewrite MathMax_Qmax.
  destruct (Q.min_spec v s) as [[H ->]|[H ->]];
    destruct (Q.max_spec 0 (s - v)) as [[H' ->]|[H' ->]]; lra.
Qed.

(** What the coupon stage returns when it applies a coupon. *)
Lemma createOrder_coupon_applied now coupons orders userId cc subtotal cs coupon :
  createOrder_coupon now coupons orders userId cc subtotal = inr cs ->
  cs_coupon cs = Some coupon ->
  cs_couponDiscount cs = couponDiscountOf coupon subtotal /\
  cs_subtotal cs
  = (if String.eqb (appliesTo coupon) "shipping" then subtotal
     else MathMax 0 (subtotal - couponDiscountOf coupon subtotal)).
Proof.
  unfold createOrder_coupon.
  destruct cc as [c|]; [|intros [= <-]; discriminate].
  destruct (String.eqb c ""); [intros [= <-]; discriminate|].
  destruct (findCoupon now coupons c) as [cp|]; [|intros [= <-]; discriminate].
  repeat match goal with
         | |- context [if ?b then inl _ else _] => destruct b; [discriminate|]
         end.
  intros [= <-]. simpl. intros [= <-]. split; reflexivity.
Qed.

(** C7, at the failing input.  One shirt of 100 is ordered with the fixed
    coupon of 150.  The coupon takes 100 off the subtotal, which is stored
    as 0, and the total is the shipping cost of 10; but the discount stored
    under [payment.amount] and in the order's discount entry is 150, not
    [min(150, 100)].  The sibling computations give the minimum on the same
    amounts: the fixed branch of the shipping discount, and the cart's
    [calculateDiscount]. *)
Theorem fixed_coupon_recorded_in_full :
  exists c acc,
    createOrder flatShipping intentId 0 catalog [take150] [] 7%N oneShirt
    = inr c /\
    createOrder_items 0 catalog (items oneShirt) (mkItemsAcc [] 0 0 0 [])
    = inr acc /\
    (acc_subtotal acc == 100 # 1)%Q /\
    (amt_subtotal (pay_amount (order_payment (created_order c))) == 0)%Q /\
    (amt_total (pay_amount (order_payment (created_order c))) == 10 # 1)%Q /\
    (amt_discount (pay_amount (order_payment (created_order c))) == 150 # 1)%Q /\
    map disc_code (order_discounts (created_order c)) = ["TAKE150"] /\
    Forall (fun d => (disc_amount d == 150 # 1)%Q)
           (order_discounts (created_order c)) /\
    ~ (amt_discount (pay_amount (order_payment (created_order c)))
       == Qmin (150 # 1) (100 # 1))%Q /\
    (shippingDiscountOf (Some shipping150) (100 # 1) == Qmin (150 # 1) (100 # 1))%Q /\
    (calculateDiscount (mkCartCoupon "TAKE150" "fixed" (150 # 1) 0) (100 # 1)
     == Qmin (150 # 1) (100 # 1))%Q.
Proof.
  eexists. eexists. split; [reflexivity|]. split; [reflexivity|].
  split; [vm_compute; reflexivity|].
  split; [vm_compute; reflexivity|].
  split; [vm_compute; reflexivity|].
  split; [vm_compute; reflexivity|].
  split; [reflexivity|].
  split; [repeat constructor; vm_compute; reflexivity|].
  split; [intros H; vm_compute in H; discriminate|].
  split; vm_compute; reflexivity.
Qed.

(** ** Status transitions *)

Lemma includes_In l x : includes l x = true <-> In x l.
Proof.
  unfold includes. rewrite existsb_exists. split.
  - intros (y & Hy & E). apply String.eqb_eq in E. now subst.
  - intros H. exists x. split; [exact H | apply String.eqb_refl].
Qed.

Lemma find_in_tablePairs t from to :
  match List.find (fun kv => String.eqb (fst kv) from) t with
  | Some kv => includes (snd kv) to
  | None => false
  end = true ->
  In (from, to) (tablePairs t).
Proof.
  induction t as [|[k l] r IH]; simpl; [discriminate|].
  destruct (String.eqb k from) eqn:E; simpl.
  - apply String.eqb_eq in E. subst k. rewrite includes_In. intros H.
    apply in_or_app. left. now apply in_map.
  - intros H. apply in_or_app. right. now apply IH.
Qed.

(** The lookup in the table accepts exactly the pairs the table lists. *)
Lemma transitionAllowed_pairs from to :
  transitionAllowed from to = true <-> In (from, to) (tablePairs validTransitions).
Proof.
  split.
  - apply find_in_tablePairs.
  - simpl. intros H.
    repeat (destruct H as [H|H]; [injection H as <- <-; reflexivity|]).
    destruct H.
Qed.

(** The controller's table is the specified chain and cancellations plus the
    direct step from shipped to delivered. *)
Lemma table_is_spec_plus_shortcut x :
  In x (tablePairs validTransitions)
  <-> In x (specTransitions ++ [("shipped", "delivered")]).
Proof. simpl. tauto. Qed.

Lemma updateOrderStatus_accepted role found status notes tracking products u :
  updateOrderStatus role found status notes tracking products = inr u ->
  exists o,
    found = Some o /\
    (role = "admin" \/ role = "superadmin") /\
    transitionAllowed (order_status o) status = true /\
    order_status (upd_order u) = status.
Proof.
  unfold updateOrderStatus.
  destruct (negb (String.eqb role "admin") && negb (String.eqb role "superadmin"))
    eqn:Hrole; [discriminate|].
  destruct found as [o|]; [|discriminate].
  destruct (transitionAllowed (order_status o) status) eqn:Et; [|discriminate].
  simpl. set (o2 := match notes with Some _ => _ | None => _ end).
  assert (Ho2 : order_status o2 = status).
  { subst o2. destruct notes as [n|]; [destruct (String.eqb n "")|]; reflexivity. }
  intros H. exists o. split; [reflexivity|]. split.
  { apply andb_false_iff in Hrole.
    rewrite !negb_false_iff, !String.eqb_eq in Hrole. exact Hrole. }
  split; [exact Et|]. revert H.
  destruct (String.eqb status "cancelled"); [|destruct (String.eqb status "shipped")];
    intros H.
  - pose proof (refundIfCaptured_status o2 "order_cancelled") as [Hs _].
    destruct (refundIfCaptured o2 "order_cancelled") as [o3 effects].
    injection H as <-. simpl in *. congruence.
  - injection H as <-. simpl.
    destruct (truthyS (ship_tracking (order_shipping o2))); exact Ho2.
  - destruct (String.eqb status "delivered"); injection H as <-; exact Ho2.
Qed.

(** C8, counterexample.  The step from shipped straight to delivered is not
    in the table as the specification words it, and the controller accepts
    it: the order's status becomes delivered. *)
Lemma shipped_to_delivered_accepted :
  ~ In ("shipped", "delivered") specTransitions /\
  transitionAllowed "shipped" "delivered" = true /\
  exists u,
    updateOrderStatus "admin" (Some shippedOrder) "delivered" None "TRK2" catalog
    = inr u /\
    order_status (upd_order u) = "delivered".
Proof.
  split; [|split; [reflexivity|]].
  - simpl. intros H.
    repeat (destruct H as [H|H]; [discriminate H|]). exact H.
  - eexists. split; reflexivity.
Qed.

(** C8, as the code has it.  [updateOrderStatus] changes the status only
    along the chain pending, confirmed, processing, ready_for_shipment,
    shipped, out_for_delivery, delivered, refunded, along the direct step
    from shipped to delivered, and to cancelled from pending, confirmed or
    processing.  Any other request is answered with an error and no order is
    saved, so the status stays as it was; for an admin the error is
    [InvalidTransition] with status 400, as for the request to move a
    shipped order back to processing. *)
Theorem status_transition_table :
  forall (role : string) (found : option Order) (status : string)
         (notes : option string) (tracking : string)
         (products : gmap N Product),
    (forall u,
        updateOrderStatus role found status notes tracking products = inr u ->
        exists o,
          found = Some o /\
          In (order_status o, status)
             (specTransitions ++ [("shipped", "delivered")]) /\
          order_status (upd_order u) = status) /\
    (forall o,
        found = Some o ->
        ~ In (order_status o, status)
             (specTransitions ++ [("shipped", "delivered")]) ->
        (exists e,
            updateOrderStatus role found status notes tracking products = inl e) /\
        orderAfter found
          (updateOrderStatus role found status notes tracking products) = found /\
        (role = "admin" \/ role = "superadmin" ->
         updateOrderStatus role found status notes tracking products
         = inl (InvalidTransition (order_status o) status) /\
         httpStatus (InvalidTransition (order_status o) status) = 400)) /\
    (forall o u,
        found = Some o ->
        updateOrderStatus role found "cancelled" notes tracking products = inr u ->
        order_status o = "pending" \/ order_status o = "confirmed" \/
        order_status o = "processing") /\
    updateOrderStatus "admin" (Some shippedOrder) "processing" notes tracking
                      products
    = inl (InvalidTransition "shipped" "processing").
Proof.
  intros role found status notes tracking products.
  split; [|split; [|split; [|reflexivity]]].
  - intros u Hu.
    destruct (updateOrderStatus_accepted _ _ _ _ _ _ _ Hu)
      as (o & Hf & _ & Ht & Hs).
    exists o. split; [exact Hf|]. split; [|exact Hs].
    now apply table_is_spec_plus_shortcut, transitionAllowed_pairs.
  - intros o -> Hout.
    assert (Ht : transitionAllowed (order_status o) status = false).
    { destruct (transitionAllowed (order_status o) status) eqn:E; [|reflexivity].
      exfalso. apply Hout.
      now apply table_is_spec_plus_shortcut, transitionAllowed_pairs. }
    unfold updateOrderStatus. rewrite Ht. simpl. split; [|split].
    + destruct (negb (String.eqb role "admin") && negb (String.eqb role "superadmin"));
        eauto.
    + now destruct (negb (String.eqb role "admin") && negb (String.eqb role "superadmin")).
    + intros [-> | ->]; split; reflexivity.
  - intros o u -> Hu.
    destruct (updateOrderStatus_accepted _ _ _ _ _ _ _ Hu)
      as (o' & Hf & _ & Ht & _).
    injection Hf as <-.
    apply transitionAllowed_pairs in Ht. simpl in Ht.
    repeat (destruct Ht as [Ht|Ht]; [inversion Ht; intuition congruence |]).
    destruct Ht.
Qed.

Lemma status_transition_table_witness :
  (exists e,
      updateOrderStatus "support" (Some shippedOrder) "pending" None "TRK2" catalog
      = inl e) /\
  updateOrderStatus "admin" (Some shippedOrder) "pending" None "TRK2" catalog
  = inl (InvalidTransition "shipped" "pending").
Proof.
  assert (Hout : ~ In (order_status shippedOrder, "pending")
                      (specTransitions ++ [("shipped", "delivered")])).
  { simpl. intros H.
    repeat (destruct H as [H|H]; [discriminate H|]). exact H. }
  split.
  - exact (proj1 (proj1 (proj2 (status_transition_table "support"
             (Some shippedOrder) "pending" None "TRK2" catalog))
             shippedOrder eq_refl Hout)).
  - exact (proj1 (proj2 (proj2 (proj1 (proj2 (status_transition_table "admin"
             (Some shippedOrder) "pending" None "TRK2" catalog))
             shippedOrder eq_refl Hout)) (or_introl eq_refl))).
Defined.

(** ** The rating aggregate *)

Lemma toFixed_1_nearest x :
  toFixed 1 x = Qmake (Qfloor (x * 10 + (1 # 2))) 10 /\
  (Qabs (toFixed 1 x - x) <= 1 # 20)%Q.
Proof.
  split; [reflexivity|].
  change (toFixed 1 x) with (Qmake (Qfloor (x * 10 + (1 # 2))) 10).
  set (n := Qfloor (x * 10 + (1 # 2))).
  pose proof (Qfloor_le (x * 10 + (1 # 2))) as Hlo.
  pose proof (Qlt_floor (x * 10 + (1 # 2))) as Hhi.
  fold n in Hlo, Hhi. rewrite inject_Z_plus in Hhi.
  rewrite (Qmake_Qdiv n 10).
  change (inject_Z (Z.pos 10)) with (10 # 1)%Q.
  change (inject_Z 1) with 1%Q in Hhi.
  set (m := inject_Z n) in *.
  assert (E : (m / (10 # 1) == m * (1 # 10))%Q) by field.
  rewrite E. apply Qabs_Qle_condition. split; lra.
Qed.

Lemma totalRating_sum rs : totalRating rs = sumRatings rs.
Proof.
  unfold totalRating, sumRatings.
  assert (H : forall a, fold_left (fun sum r => sum + review_rating r) rs a
                        = a + fold_right Z.add 0 (map review_rating rs)).
  { induction rs as [|r rest IH]; simpl; intros a; [lia|]. rewrite IH. lia. }
  rewrite H. lia.
Qed.

Lemma lookup_tally d r k :
  tally d r !! k
  = if decide (review_rating r = k) then Some (default 0 (d !! k) + 1)
    else d !! k.
Proof.
  unfold tally. rewrite lookup_insert.
  case_decide as E; [now rewrite E | reflexivity].
Qed.

Lemma countRating_cons k r rs :
  countRating k (r :: rs)
  = (if decide (review_rating r = k) then 1 else 0) + countRating k rs.
Proof.
  unfold countRating. simpl.
  destruct (Z.eqb_spec (review_rating r) k); case_decide; try contradiction;
    simpl; lia.
Qed.

Lemma tally_fold rs d k :
  default 0 (fold_left tally rs d !! k) = default 0 (d !! k) + countRating k rs /\
  (is_Some (d !! k) -> is_Some (fold_left tally rs d !! k)).
Proof.
  revert d. induction rs as [|r rest IH]; intros d.
  - unfold countRating. simpl. split; [lia|auto].
  - simpl. destruct (IH (tally d r)) as [IHv IHs].
    rewrite lookup_tally in IHv, IHs. rewrite countRating_cons.
    case_decide; simpl in *.
    + split; [lia|]. intros _. apply IHs. eauto.
    + split; [lia | exact IHs].
Qed.

Lemma aggregate_recomputed rs : recomputedFrom (aggregate rs) rs.
Proof.
  unfold recomputedFrom, aggregate.
  cbn [ratings_count ratings_average ratings_distribution].
  split; [reflexivity|]. split; [|split].
  - eexists. apply toFixed_1_nearest.
  - rewrite totalRating_sum. apply toFixed_1_nearest.
  - intros k Hk. destruct (tally_fold rs emptyDistribution k) as [Hv Hs].
    assert (He : emptyDistribution !! k = Some 0).
    { assert (k = 1 \/ k = 2 \/ k = 3 \/ k = 4 \/ k = 5) as Hc by lia.
      destruct Hc as [->|[->|[->|[->| ->]]]]; reflexivity. }
    rewrite He in Hv, Hs. destruct (Hs (ex_intro _ 0 eq_refl)) as [v Hv'].
    rewrite Hv' in Hv |- *. simpl in Hv. now subst v.
Qed.

Lemma updateProductRating_some reviews products pid p :
  approvedReviews reviews pid <> [] ->
  products !! pid = Some p ->
  updateProductRating reviews products pid
  = <[pid := setRatings p (aggregate (approvedReviews reviews pid))]> products.
Proof.
  unfold updateProductRating. intros Hne Hp.
  destruct (approvedReviews reviews pid) as [|r rs]; [contradiction|].
  now rewrite Hp.
Qed.

(** The review that was just approved is among the approved reviews of its
    product. *)
Lemma approved_after_save reviews reviewId r :
  List.find (fun x => N.eqb (review_id x) reviewId) reviews = Some r ->
  approvedReviews (saveReview (setReviewStatus r "approved") reviews)
                  (review_product r) <> [].
Proof.
  intros Hfind. apply find_some in Hfind as [Hin Hid].
  assert (Hmem : In (setReviewStatus r "approved")
                    (approvedReviews (saveReview (setReviewStatus r "approved") reviews)
                                     (review_product r))).
  { unfold approvedReviews. apply filter_In. split.
    - unfold saveReview. apply in_map_iff. exists r. split; [|exact Hin].
      simpl. now rewrite N.eqb_refl.
    - simpl. now rewrite N.eqb_refl. }
  intros E. rewrite E in Hmem. destruct Hmem.
Qed.

(** C9, counterexample.  Deleting the only approved review of a product
    leaves the product's aggregate as it was: one review with five stars is
    still recorded although no approved review remains. *)
Lemma last_review_deleted_keeps_rating :
  exists reviews' products' p',
    deleteReview 7%N 1%N onlyReview ratedCatalog = inr (reviews', products') /\
    approvedReviews reviews' 1%N = [] /\
    products' !! 1%N = Some p' /\
    ratings_count (ratings p') = 1 /\
    ratings_distribution (ratings p') !! 5 = Some 1 /\
    ~ recomputedFrom (ratings p') (approvedReviews reviews' 1%N).
Proof.
  eexists _, _, _. split; [reflexivity|].
  split; [reflexivity|]. split; [reflexivity|].
  split; [reflexivity|]. split; [reflexivity|].
  intros [Hcount _]. vm_compute in Hcount. discriminate.
Qed.

(** C9, as the code has it.  After a review is approved, the rating
    aggregate of its product is the full recomputation over the reviews of
    that product that are approved at that moment: their count, their mean
    rounded to one decimal, and the distribution over the ratings 1 to 5.
    After an approved review is deleted the same holds as long as an
    approved review of the product remains. *)
Theorem rating_recomputed_in_full :
  forall (reviews : list Review) (products : gmap N Product)
         (reviewId : ObjectId) (r : Review) (p : Product),
    products !! review_product r = Some p ->
    (forall role reviews' products',
        List.find (fun x => N.eqb (review_id x) reviewId) reviews = Some r ->
        moderateReview role reviewId "approve" reviews products
        = inr (reviews', products') ->
        exists p',
          products' !! review_product r = Some p' /\
          recomputedFrom (ratings p') (approvedReviews reviews' (review_product r))) /\
    (forall userId reviews' products',
        List.find (fun x => N.eqb (review_id x) reviewId &&
                            N.eqb (review_user x) userId) reviews = Some r ->
        review_status r = "approved" ->
        deleteReview userId reviewId reviews products = inr (reviews', products') ->
        approvedReviews reviews' (review_product r) <> [] ->
        exists p',
          products' !! review_product r = Some p' /\
          recomputedFrom (ratings p') (approvedReviews reviews' (review_product r))).
Proof.
  intros reviews products reviewId r p Hp. split.
  - intros role reviews' products' Hfind. unfold moderateReview.
    destruct (negb (String.eqb role "admin") && negb (String.eqb role "superadmin"));
      [discriminate|].
    simpl. rewrite Hfind.
    destruct (negb (String.eqb (review_status r) "pending")); [discriminate|].
    intros [= <- <-]. simpl.
    rewrite (updateProductRating_some _ _ _ p (approved_after_save _ _ _ Hfind) Hp).
    rewrite lookup_insert_eq. eexists. split; [reflexivity|].
    apply aggregate_recomputed.
  - intros userId reviews' products' Hfind Happ. unfold deleteReview.
    rewrite Hfind, Happ. simpl. intros [= <- <-] Hne.
    rewrite (updateProductRating_some _ _ _ p Hne Hp).
    rewrite lookup_insert_eq. eexists. split; [reflexivity|].
    apply aggregate_recomputed.
Qed.

Lemma rating_recomputed_in_full_witness :
  exists reviews' products' p',
    moderateReview "admin" 2%N "approve" reviewQueue catalog
    = inr (reviews', products') /\
    products' !! 1%N = Some p' /\
    recomputedFrom (ratings p') (approvedReviews reviews' 1%N) /\
    ratings_average (ratings p') = 43 # 10 /\
    ratings_count (ratings p') = 3.
Proof.
  destruct (proj1 (rating_recomputed_in_full reviewQueue catalog 2%N
                     (mkReview 2%N 8%N 1%N "pending" 4) tshirt eq_refl)
                  "admin" _ _ eq_refl eq_refl) as (p' & Hp' & Hrec).
  eexists _, _, p'. split; [reflexivity|]. split; [exact Hp'|].
  split; [exact Hrec|].
  vm_compute in Hp'. injection Hp' as <-. split; reflexivity.
Defined.

(** C10.  When the product has no approved review, [updateProductRating]
    returns before any write: the product store is returned as it was, so
    the stored average, count and distribution of the product keep their
    earlier values.  This is what happens when the last approved review of a
    product is deleted. *)
Theorem no_approved_review_no_write :
  forall (reviews : list Review) (products : gmap N Product) (pid : ObjectId),
    (approvedReviews reviews pid = [] ->
     updateProductRating reviews products pid = products /\
     forall p, products !! pid = Some p ->
       exists p',
         updateProductRating reviews products pid !! pid = Some p' /\
         ratings_average (ratings p') = ratings_average (ratings p) /\
         ratings_count (ratings p') = ratings_count (ratings p) /\
         ratings_distribution (ratings p') = ratings_distribution (ratings p)) /\
    (forall userId reviewId r,
       List.find (fun x => N.eqb (review_id x) reviewId &&
                           N.eqb (review_user x) userId) reviews = Some r ->
       approvedReviews
         (List.filter (fun x => negb (N.eqb (review_id x) reviewId)) reviews)
         (review_product r) = [] ->
       deleteReview userId reviewId reviews products
       = inr (List.filter (fun x => negb (N.eqb (review_id x) reviewId)) reviews,
              products)).
Proof.
  intros reviews products pid. split.
  - intros Hnone.
    assert (Hsame : updateProductRating reviews products pid = products).
    { unfold updateProductRating. now rewrite Hnone. }
    split; [exact Hsame|].
    intros p Hp. exists p. rewrite Hsame. auto.
  - intros userId reviewId r Hfind Hlast. unfold deleteReview.
    rewrite Hfind. unfold updateProductRating. rewrite Hlast.
    now destruct (String.eqb (review_status r) "approved").
Qed.

Lemma no_approved_review_no_write_witness :
  updateProductRating [mkReview 2%N 8%N 1%N "pending" 4] ratedCatalog 1%N
  = ratedCatalog /\
  deleteReview 7%N 1%N onlyReview ratedCatalog = inr ([], ratedCatalog).
Proof.
  split.
  - exact (proj1 (proj1 (no_approved_review_no_write
                    [mkReview 2%N 8%N 1%N "pending" 4] ratedCatalog 1%N)
                  eq_refl)).
  - exact (proj2 (no_approved_review_no_write onlyReview ratedCatalog 1%N)
                 7%N 1%N (mkReview 1%N 7%N 1%N "approved" 5) eq_refl eq_refl).
Defined.

(** ** Order totals *)

Lemma createOrder_coupon_none now coupons orders userId cc subtotal cs :
  createOrder_coupon now coupons orders userId cc subtotal = inr cs ->
  cs_coupon cs = None ->
  cs_couponDiscount cs = 0%Q /\ cs_subtotal cs = subtotal.
Proof.
  unfold createOrder_coupon.
  destruct cc as [c|]; [|now intros [= <-]].
  destruct (String.eqb c ""); [now intros [= <-]|].
  destruct (findCoupon now coupons c) as [cp|]; [|now intros [= <-]].
  repeat match goal with
         | |- context [if ?b then inl _ else _] => destruct b; [discriminate|]
         end.
  intros [= <-]. discriminate.
Qed.

Lemma createOrder_coupon_subtotal now coupons orders userId cc subtotal cs :
  createOrder_coupon now coupons orders userId cc subtotal = inr cs ->
  (0 <= subtotal)%Q -> (0 <= cs_subtotal cs)%Q.
Proof.
  intros Hcs Hsub. destruct (cs_coupon cs) as [coupon|] eqn:Hc.
  - destruct (createOrder_coupon_applied _ _ _ _ _ _ _ _ Hcs Hc) as [_ ->].
    destruct (String.eqb (appliesTo coupon) "shipping");
      [exact Hsub | apply MathMax_floor].
  - destruct (createOrder_coupon_none _ _ _ _ _ _ _ Hcs Hc) as [_ ->].
    exact Hsub.
Qed.

Lemma sumOver_sumOf f its : (Simple.sumOver f its == sumOf f its)%Q.
Proof.
  unfold Simple.sumOver, sumOf.
  assert (H : forall a, (fold_left (fun sum item => sum + f item) its a
                         == a + fold_right Qplus 0 (map f its))%Q).
  { induction its as [|it r IH]; simpl; intros a; [lra|]. rewrite IH. lra. }
  rewrite H. lra.
Qed.

Lemma sumOf_bounds its :
  Forall itemInRange its ->
  (0 <= sumOf (fun it => orZero (Simple.i_tax it)) its)%Q /\
  (sumOf (fun it => orZero (Simple.i_discountAmount it)) its
   <= sumOf Simple.i_subtotal its)%Q.
Proof.
  unfold sumOf.
  induction 1 as [|it r (Hs & Ht & Hd) _ [IHt IHd]]; simpl; split; lra.
Qed.

Lemma orZero_Some v : (orZero (Some v) == v)%Q.
Proof.
  unfold orZero. destruct (Qeq_bool v 0) eqn:E; [|reflexivity].
  apply Qeq_bool_eq in E. now rewrite E.
Qed.

(** The hook rebuilds the totals from the line items and the shipping cost
    alone. *)
Lemma preSave_totals o :
  let t := Simple.o_totals (Simple.preSave o) in
  (Simple.t_grandTotal t
   == Simple.t_items t + Simple.t_shipping t + Simple.t_tax t
      - Simple.t_discount t)%Q /\
  (Simple.t_items t == sumOf Simple.i_subtotal (Simple.o_items o))%Q /\
  (Simple.t_tax t
   == sumOf (fun it => orZero (Simple.i_tax it)) (Simple.o_items o))%Q /\
  (Simple.t_discount t
   == sumOf (fun it => orZero (Simple.i_discountAmount it)) (Simple.o_items o))%Q /\
  Simple.t_shipping t = orZero (Simple.o_shippingCost o) /\
  Simple.o_items (Simple.preSave o) = Simple.o_items o.
Proof.
  cbv zeta. unfold Simple.preSave.
  cbn [Simple.o_totals Simple.t_grandTotal Simple.t_items Simple.t_shipping
       Simple.t_tax Simple.t_discount Simple.o_items].
  split; [reflexivity|].
  split; [apply sumOver_sumOf|]. split; [apply sumOver_sumOf|].
  split; [apply sumOver_sumOf|]. split; reflexivity.
Qed.

(** What the validation has checked of the shipping cost. *)
Lemma validate_shippingCost o :
  Simple.validate o = true ->
  exists cost, Simple.o_shippingCost o = Some cost /\ (0 <= cost)%Q.
Proof.
  unfold Simple.validate. rewrite !andb_true_iff.
  intros [[_ Hcost] _].
  destruct (Simple.o_shippingCost o) as [cost|]; [|discriminate].
  exists cost. split; [reflexivity|]. now apply Qle_bool_iff.
Qed.

Lemma validate_preSave o : Simple.validate (Simple.preSave o) = Simple.validate o.
Proof. reflexivity. Qed.

(** C1, counterexample.  An order of one unit of a variant whose price
    adjustment outweighs the base price is stored with a negative total, and
    a document that passes the validation with a line item whose discount is
    above its subtotal is saved with a negative grand total.  In the order
    of two items (items' subtotal 700) with the fixed coupon of 20 and
    shipping 10, the stored amounts are subtotal 680, shipping 10, tax 54.40,
    discount 20 and total 744.40: the stored total is not the stored subtotal
    plus shipping plus tax minus the discount (724.40); it is the items'
    subtotal plus shipping plus tax minus the discount. *)
Lemma stored_total_without_discount :
  (exists c,
     createOrder flatShipping intentId 0 (<[3%N := clearance]> catalog) [] []
       7%N (mkOrderReq [mkItemReq 3%N (Some "OLD") 1] "standard" "card" None)
     = inr c /\
     (amt_total (pay_amount (order_payment (created_order c))) < 0)%Q) /\
  (exists o',
     Simple.save overDiscounted = Some o' /\
     (Simple.t_grandTotal (Simple.o_totals o') < 0)%Q) /\
  (exists c acc,
     createOrder flatShipping intentId 0 catalog [save20] [] 7%N basket = inr c /\
     createOrder_items 0 catalog (items basket) (mkItemsAcc [] 0 0 0 []) = inr acc /\
     let a := pay_amount (order_payment (created_order c)) in
     (acc_subtotal acc == 700 # 1)%Q /\
     (amt_subtotal a == 680 # 1)%Q /\ (amt_shipping a == 10 # 1)%Q /\
     (amt_tax a == 544 # 10)%Q /\ (amt_discount a == 20 # 1)%Q /\
     (amt_total a == 7444 # 10)%Q /\
     ~ (amt_total a
        == amt_subtotal a + amt_shipping a + amt_tax a - amt_discount a)%Q /\
     (amt_total a
      == acc_subtotal acc + amt_shipping a + amt_tax a - amt_discount a)%Q).
Proof.
  split; [|split].
  - eexists. split; [reflexivity|]. vm_compute. reflexivity.
  - eexists. split; [reflexivity|]. vm_compute. reflexivity.
  - do 2 eexists. split; [reflexivity|]. split; [reflexivity|]. cbv zeta.
    repeat split; try (vm_compute; reflexivity).
    intros H. vm_compute in H. discriminate.
Qed.

(** C1, as the code has it.  [createOrder] stores its amounts without
    rounding.  The stored total is the stored subtotal plus the stored
    shipping plus the stored tax; the tax is 8% of the stored subtotal; the
    stored subtotal is net of the coupon (the items' subtotal less the
    coupon's discount, floored at 0; the items' subtotal itself without a
    coupon or with a coupon on shipping), and the stored shipping is the
    quoted cost less the shipping discount, floored at 0; the recorded
    discount is the sum of the two discounts and is not taken off the stored
    amounts again.  So, with the items' subtotal and the quoted shipping cost
    (not negative) in the equation, the total equals subtotal + shipping + tax
    - discount when there is no coupon, or a coupon on the subtotal whose
    discount is within the items' subtotal.  The stored shipping is never
    negative, and the total is not negative when the items' subtotal is not.
    In the Order model a save that passes the validation rebuilds the totals
    from the stored line items and the shipping cost:
    [grandTotal = items + shipping + tax - discount] holds on what is stored,
    items, tax and discount being the sums over the line items and shipping
    the stored cost, which is not negative; the line items are left as they
    are and a further save changes nothing; the grand total is not negative
    when no line item has a negative subtotal or tax or a discount above its
    subtotal.  The save of [cancelOrder] rebuilds the totals in the same
    way. *)
Theorem order_totals_consistent :
  (forall (calculateShipping : Q -> Z -> string -> Q) (createPayment : Q -> string)
          (now : Z) (products : gmap N Product) (coupons : list Coupon)
          (orders : list Order) (userId : ObjectId) (req : OrderReq)
          (c : Created),
      createOrder calculateShipping createPayment now products coupons orders
                  userId req = inr c ->
      exists acc cs,
        createOrder_items now products (items req) (mkItemsAcc [] 0 0 0 []) = inr acc /\
        createOrder_coupon now coupons orders userId (couponCode req)
                           (acc_subtotal acc) = inr cs /\
        let quote := calculateShipping (acc_totalWeight acc) (acc_totalItems acc)
                                       (shippingMethod req) in
        let shippingDiscount := shippingDiscountOf (cs_coupon cs) quote in
        let a := pay_amount (order_payment (created_order c)) in
        (amt_total a == amt_subtotal a + amt_shipping a + amt_tax a)%Q /\
        (amt_tax a == amt_subtotal a * (8 # 100))%Q /\
        (amt_shipping a == Qmax 0 (quote - shippingDiscount))%Q /\
        (amt_discount a == cs_couponDiscount cs + shippingDiscount)%Q /\
        (cs_coupon cs = None ->
         (amt_subtotal a == acc_subtotal acc)%Q /\ (amt_discount a == 0)%Q) /\
        (forall coupon, cs_coupon cs = Some coupon ->
           cs_couponDiscount cs = couponDiscountOf coupon (acc_subtotal acc) /\
           (appliesTo coupon = "shipping" ->
            (amt_subtotal a == acc_subtotal acc)%Q) /\
           (appliesTo coupon <> "shipping" ->
            (amt_subtotal a == Qmax 0 (acc_subtotal acc - cs_couponDiscount cs))%Q /\
            (shippingDiscount == 0)%Q)) /\
        ((0 <= quote)%Q ->
         (cs_coupon cs = None \/
          exists coupon, cs_coupon cs = Some coupon /\
                         appliesTo coupon <> "shipping" /\
                         (cs_couponDiscount cs <= acc_subtotal acc)%Q) ->
         (amt_total a == acc_subtotal acc + quote + amt_tax a - amt_discount a)%Q) /\
        (0 <= amt_shipping a)%Q /\
        ((0 <= acc_subtotal acc)%Q -> (0 <= amt_total a)%Q)) /\
  (forall o o' : Simple.SOrder,
      Simple.save o = Some o' ->
      let t := Simple.o_totals o' in
      (Simple.t_grandTotal t
       == Simple.t_items t + Simple.t_shipping t + Simple.t_tax t
          - Simple.t_discount t)%Q /\
      (Simple.t_items t == sumOf Simple.i_subtotal (Simple.o_items o'))%Q /\
      (Simple.t_tax t
       == sumOf (fun it => orZero (Simple.i_tax it)) (Simple.o_items o'))%Q /\
      (Simple.t_discount t
       == sumOf (fun it => orZero (Simple.i_discountAmount it)) (Simple.o_items o'))%Q /\
      (exists cost, Simple.o_shippingCost o' = Some cost /\ (0 <= cost)%Q /\
                    (Simple.t_shipping t == cost)%Q) /\
      Simple.o_items o' = Simple.o_items o /\
      Simple.save o' = Some o' /\
      (Forall itemInRange (Simple.o_items o) -> (0 <= Simple.t_grandTotal t)%Q)) /\
  (forall (found : option Simple.SOrder) (products : gmap N Simple.SProduct)
          (r : Simple.Cancelled),
      Simple.cancelOrder found products = inr r ->
      exists order,
        found = Some order /\
        Simple.o_items (Simple.c_order r) = Simple.o_items order /\
        let t := Simple.o_totals (Simple.c_order r) in
        (Simple.t_grandTotal t
         == sumOf Simple.i_subtotal (Simple.o_items order)
            + orZero (Simple.o_shippingCost order)
            + sumOf (fun it => orZero (Simple.i_tax it)) (Simple.o_items order)
            - sumOf (fun it => orZero (Simple.i_discountAmount it))
                    (Simple.o_items order))%Q).
Proof.
  split; [|split].
  - intros calculateShipping createPayment now products coupons orders userId
           req c Hcreate.
    destruct (createOrder_inversion _ _ _ _ _ _ _ _ _ Hcreate)
      as (acc & cs & Hi & Hcs & _ & _ & _ & Ha).
    exists acc, cs. split; [exact Hi|]. split; [exact Hcs|].
    cbv zeta. rewrite Ha. unfold createOrder_totals.
    cbn [amt_total amt_subtotal amt_shipping amt_tax amt_discount].
    set (quote := calculateShipping (acc_totalWeight acc) (acc_totalItems acc)
                                    (shippingMethod req)).
    pose proof (MathMax_floor (quote - shippingDiscountOf (cs_coupon cs) quote))
      as Hship.
    pose proof (MathMax_Qmax 0 (quote - shippingDiscountOf (cs_coupon cs) quote))
      as Hmax.
    split; [reflexivity|]. split; [reflexivity|]. split; [exact Hmax|].
    split; [reflexivity|].
    split; [|split; [|split; [|split; [exact Hship|]]]].
    + intros Hnone.
      destruct (createOrder_coupon_none _ _ _ _ _ _ _ Hcs Hnone) as [-> ->].
      rewrite Hnone. simpl. split; lra.
    + intros coupon Hsome.
      destruct (createOrder_coupon_applied _ _ _ _ _ _ _ _ Hcs Hsome) as [Hd Hs].
      split; [exact Hd|]. rewrite Hs, Hsome. split.
      * intros Happ. rewrite Happ. reflexivity.
      * intros Happ. apply String.eqb_neq in Happ. simpl. rewrite Happ.
        split; [|reflexivity]. rewrite Hd. apply MathMax_Qmax.
    + intros Hquote [Hnone | (coupon & Hsome & Happ & Hle)].
      * destruct (createOrder_coupon_none _ _ _ _ _ _ _ Hcs Hnone) as [-> ->].
        rewrite Hnone in *. simpl in *.
        rewrite Hmax, Q.max_r by lra. lra.
      * destruct (createOrder_coupon_applied _ _ _ _ _ _ _ _ Hcs Hsome) as [Hd Hs].
        apply String.eqb_neq in Happ.
        rewrite Hs, Hsome in *. simpl in *. rewrite Happ in *.
        rewrite Hmax, Q.max_r by lra.
        rewrite <- Hd, MathMax_Qmax, Q.max_r by lra. lra.
    + intros Hsub.
      pose proof (createOrder_coupon_subtotal _ _ _ _ _ _ _ Hcs Hsub) as Hnn.
      unfold taxRate. nra.
  - intros o o'. unfold Simple.save.
    destruct (Simple.validate o) eqn:Hv; [|discriminate]. intros [= <-].
    destruct (preSave_totals o) as (Hg & Hi & Ht & Hd & Hs & Hitems).
    cbv zeta. rewrite Hitems.
    destruct (validate_shippingCost o Hv) as (cost & Hcost & Hnn).
    split; [exact Hg|]. split; [exact Hi|]. split; [exact Ht|].
    split; [exact Hd|].
    assert (Hsc : (Simple.t_shipping (Simple.o_totals (Simple.preSave o)) == cost)%Q).
    { rewrite Hs, Hcost. apply orZero_Some. }
    split; [exists cost; repeat split; [exact Hcost | exact Hnn | exact Hsc] |].
    split; [reflexivity|].
    split; [rewrite validate_preSave, Hv; reflexivity|].
    intros Hrange. destruct (sumOf_bounds _ Hrange) as [Htax Hdisc].
    rewrite Hg, Hi, Ht, Hd, Hsc. lra.
  - intros found products r. unfold Simple.cancelOrder.
    destruct found as [order|]; [|discriminate].
    destruct (negb (includes ["pending"; "confirmed"] (Simple.o_status order)));
      [discriminate|].
    intros [= <-]. exists order. split; [reflexivity|].
    cbn [Simple.c_order]. split; [reflexivity|]. cbv zeta.
    match goal with
    | |- context [Simple.preSave ?x] =>
        destruct (preSave_totals x) as (Hg & Hi & Ht & Hd & Hs & _)
    end.
    rewrite Hg, Hi, Ht, Hd, Hs. reflexivity.
Qed.

Lemma order_totals_consistent_witness :
  (exists c,
      createOrder flatShipping intentId 0 catalog [save20] [] 7%N basket = inr c /\
      (0 <= amt_total (pay_amount (order_payment (created_order c))))%Q) /\
  (exists o',
      Simple.save draftOrder = Some o' /\
      (0 <= Simple.t_grandTotal (Simple.o_totals o'))%Q /\
      (Simple.t_grandTotal (Simple.o_totals o') == 10239 # 100)%Q) /\
  (exists r,
      Simple.cancelOrder (Some paidOrder) stockroom = inr r /\
      Simple.o_items (Simple.c_order r) = Simple.o_items paidOrder).
Proof.
  destruct order_totals_consistent as (Hcreate & Hsave & Hcancel).
  split; [|split].
  - eexists. split; [reflexivity|].
    destruct (Hcreate flatShipping intentId 0 catalog [save20] [] 7%N basket _
                      eq_refl)
      as (acc & cs & Hi & _ & _ & _ & _ & _ & _ & _ & _ & _ & Hnn).
    apply Hnn. vm_compute in Hi. injection Hi as <-.
    vm_compute. intros H; discriminate.
  - eexists. split; [reflexivity|]. split.
    + refine (proj2 (proj2 (proj2 (proj2 (proj2 (proj2 (proj2
                (Hsave draftOrder _ eq_refl))))))) _).
      repeat constructor; vm_compute; intros H; discriminate.
    + vm_compute. reflexivity.
  - eexists. split; [reflexivity|].
    destruct (Hcancel (Some paidOrder) stockroom _ eq_refl)
      as (order & Hfound & Hitems & _).
    injection Hfound as <-. exact Hitems.
Defined.

(** * Further properties of the code *)

(** ** The order lifecycle *)

Lemma transition_raises_rank from to :
  transitionAllowed from to = true -> (statusRank from < statusRank to)%nat.
Proof.
  intros H. apply transitionAllowed_pairs in H. simpl in H.
  repeat (destruct H as [H|H]; [injection H as <- <-; vm_compute; lia|]).
  destruct H.
Qed.

Lemma statusRank_bound s : (statusRank s <= 7)%nat.
Proof.
  unfold statusRank.
  repeat match goal with |- context [if ?b then _ else _] => destruct b end; lia.
Qed.

Lemma chain_ranks s l :
  chainAllowed (s :: l) = true ->
  Forall (fun t => (statusRank s < statusRank t)%nat) l /\
  (statusRank s + length l <= 7)%nat.
Proof.
  revert s. induction l as [|t r IH]; intros s H.
  - split; [constructor|]. pose proof (statusRank_bound s). simpl. lia.
  - change (transitionAllowed s t && chainAllowed (t :: r) = true) in H.
    apply andb_true_iff in H as [Hst Hr].
    apply transition_raises_rank in Hst. destruct (IH t Hr) as [Hall Hlen].
    split.
    + constructor; [exact Hst|].
      eapply Forall_impl; [exact Hall|]. simpl. intros a Ha. lia.
    + simpl. lia.
Qed.

(** X1.  The order lifecycle only moves forward: every transition
    [updateOrderStatus] accepts raises the rank of the status, so a history
    of accepted transitions never visits a status twice and has at most
    eight statuses; cancelled and refunded orders accept no transition. *)
Theorem lifecycle_moves_forward :
  forall l : list string,
    chainAllowed l = true ->
    NoDup l /\ (length l <= 8)%nat /\
    (forall to, transitionAllowed "cancelled" to = false) /\
    (forall to, transitionAllowed "refunded" to = false).
Proof.
  intros l H. split; [|split; [|split; reflexivity]].
  - induction l as [|s r IH]; [constructor|].
    destruct (chain_ranks s r H) as [Hall _]. constructor.
    + intros Hin. rewrite Forall_forall in Hall.
      specialize (Hall s Hin). lia.
    + apply IH. destruct r; [reflexivity|].
      change (transitionAllowed s s0 && chainAllowed (s0 :: r) = true) in H.
      now apply andb_true_iff in H as [_ H].
  - destruct l as [|s r]; [simpl; lia|].
    destruct (chain_ranks s r H) as [_ Hlen]. simpl. lia.
Qed.

Lemma lifecycle_moves_forward_witness :
  NoDup ["pending"; "confirmed"; "processing"; "ready_for_shipment"; "shipped";
         "delivered"; "refunded"].
Proof.
  exact (proj1 (lifecycle_moves_forward
                  ["pending"; "confirmed"; "processing"; "ready_for_shipment";
                   "shipped"; "delivered"; "refunded"] eq_refl)).
Defined.

(** ** What a created order holds *)

Lemma createOrder_items_appends now products reqs acc acc' :
  createOrder_items now products reqs acc = inr acc' ->
  acc_productUpdates acc' = (acc_productUpdates acc ++ reqs)%list /\
  length (acc_orderItems acc') = (length (acc_orderItems acc) + length reqs)%nat.
Proof.
  revert acc. induction reqs as [|item rest IH]; simpl; intros acc.
  - intros [= <-]. rewrite app_nil_r. split; [reflexivity|lia].
  - destruct (products !! productId item) as [product|]; [|discriminate].
    destruct (selectVariant product (variantSku item)) as [e|variant];
      [discriminate|].
    destruct (checkAvailability product variant (req_quantity item));
      [discriminate|].
    intros Hrun. destruct (IH _ Hrun) as [Hu Hl]. simpl in Hu, Hl.
    rewrite Hu, Hl, <- app_assoc, length_app. simpl.
    split; [now destruct item | lia].
Qed.

(** X2.  An order that [createOrder] accepts lists exactly the requested
    items, in the order of the request, each with the requested product,
    variant and quantity, and it starts in status pending. *)
Theorem created_order_lists_request :
  forall (calculateShipping : Q -> Z -> string -> Q) (createPayment : Q -> string)
         (now : Z) (products : gmap N Product) (coupons : list Coupon)
         (orders : list Order) (userId : ObjectId) (req : OrderReq)
         (c : Created),
    createOrder calculateShipping createPayment now products coupons orders
                userId req = inr c ->
    map toUpdate (order_items (created_order c)) = items req /\
    items req <> [] /\
    order_user (created_order c) = userId /\
    order_status (created_order c) = "pending".
Proof.
  intros calculateShipping createPayment now products coupons orders userId
         req c Hcreate.
  destruct (createOrder_inversion _ _ _ _ _ _ _ _ _ Hcreate)
    as (acc & cs & Hi & _ & Hit & _ & Hst & _).
  destruct (createOrder_items_appends _ _ _ _ _ Hi) as [Hu _].
  rewrite Hit, <- (createOrder_items_updates _ _ _ _ _ Hi eq_refl), Hu.
  split; [reflexivity|]. split; [|split; [|exact Hst]].
  - unfold createOrder in Hcreate. now destruct (items req).
  - unfold createOrder in Hcreate.
    destruct (items req); [discriminate|].
    repeat match type of Hcreate with
           | (if ?b then _ else _) = _ => destruct b; [discriminate|]
           | match ?x with inl _ => _ | inr _ => _ end = _ =>
               destruct x; [discriminate|]
           end.
    now injection Hcreate as <-.
Qed.

Lemma created_order_lists_request_witness :
  exists c,
    createOrder flatShipping intentId 0 catalog [save20] [] 7%N basket = inr c /\
    map toUpdate (order_items (created_order c)) = items basket.
Proof.
  eexists. split; [reflexivity|].
  exact (proj1 (created_order_lists_request flatShipping intentId 0 catalog
                  [save20] [] 7%N basket _ eq_refl)).
Defined.

(** ** Coupon codes *)

Lemma upperAscii_idempotent c : upperAscii (upperAscii c) = upperAscii c.
Proof.
  destruct c as [[] [] [] [] [] [] [] []]; reflexivity.
Qed.

Lemma toUpperCase_idempotent s : toUpperCase (toUpperCase s) = toUpperCase s.
Proof.
  induction s as [|c r IH]; simpl; [reflexivity|].
  now rewrite upperAscii_idempotent, IH.
Qed.

(** X3.  [createOrder] matches coupon codes without regard to letter case:
    two non-empty codes that agree in upper case give the same outcome of the
    coupon stage.  A coupon stored under a code that is not in upper case is
    never found, whatever code the request carries. *)
Theorem coupon_code_ignores_case :
  forall (now : Z) (coupons : list Coupon) (orders : list Order)
         (userId : ObjectId) (subtotal : Q),
    (forall cc cc',
        cc <> "" -> cc' <> "" -> toUpperCase cc = toUpperCase cc' ->
        createOrder_coupon now coupons orders userId (Some cc) subtotal
        = createOrder_coupon now coupons orders userId (Some cc') subtotal) /\
    (forall cc coupon,
        findCoupon now coupons cc = Some coupon ->
        toUpperCase (code coupon) = code coupon).
Proof.
  intros now coupons orders userId subtotal. split.
  - intros cc cc' Hcc Hcc' Hup. unfold createOrder_coupon, findCoupon.
    apply String.eqb_neq in Hcc, Hcc'. now rewrite Hcc, Hcc', Hup.
  - intros cc coupon Hfind. unfold findCoupon in Hfind.
    apply find_some in Hfind as [_ Hm]. unfold couponMatches in Hm.
    repeat (apply andb_true_iff in Hm as [Hm _]).
    apply String.eqb_eq in Hm. rewrite Hm. apply toUpperCase_idempotent.
Qed.

Lemma coupon_code_ignores_case_witness :
  createOrder_coupon 0 [save20] [] 7%N (Some "Save20") (150 # 1)
  = createOrder_coupon 0 [save20] [] 7%N (Some "sAVE20") (150 # 1).
Proof.
  refine (proj1 (coupon_code_ignores_case 0 [save20] [] 7%N (150 # 1))
                "Save20" "sAVE20" _ _ eq_refl); discriminate.
Defined.

(** X4.  What [createOrder] records about a coupon is consistent: with a
    coupon the order carries one discount entry whose amount is the discount
    stored under [payment.amount], under the coupon's code, and the saved
    coupon has its use count raised by one; without a coupon the order
    carries no discount entry, the stored discount is zero and no coupon is
    saved. *)
Theorem created_order_coupon_record :
  forall (calculateShipping : Q -> Z -> string -> Q) (createPayment : Q -> string)
         (now : Z) (products : gmap N Product) (coupons : list Coupon)
         (orders : list Order) (userId : ObjectId) (req : OrderReq)
         (c : Created),
    createOrder calculateShipping createPayment now products coupons orders
                userId req = inr c ->
    match created_coupon c with
    | Some saved =>
        exists coupon d,
          In coupon coupons /\
          saved = useCoupon coupon /\
          usedCount saved = usedCount coupon + 1 /\
          order_discounts (created_order c) = [d] /\
          disc_code d = code coupon /\
          disc_amount d = amt_discount (pay_amount (order_payment (created_order c)))
    | None =>
        order_discounts (created_order c) = [] /\
        (amt_discount (pay_amount (order_payment (created_order c))) == 0)%Q
    end.
Proof.
  intros calculateShipping createPayment now products coupons orders userId
         req c Hcreate.
  unfold createOrder in Hcreate.
  destruct (items req); [discriminate|].
  destruct (String.eqb (shippingMethod req) ""); [discriminate|].
  destruct (String.eqb (paymentMethod req) ""); [discriminate|].
  destruct (createOrder_items _ _ _ _) as [e|acc]; [discriminate|].
  destruct (createOrder_coupon _ _ _ _ _ _) as [e|cs] eqn:Hcs; [discriminate|].
  injection Hcreate as <-. cbn [created_coupon created_order order_discounts
    order_payment pay_amount].
  destruct (cs_coupon cs) as [coupon|] eqn:Hc; cbn [option_map].
  - unfold createOrder_totals. rewrite Hc. cbn [amt_discount].
    eexists coupon, _. split; [|repeat split; reflexivity].
    unfold createOrder_coupon in Hcs.
    destruct (couponCode req) as [cc|]; [|injection Hcs as <-; discriminate].
    destruct (String.eqb cc ""); [injection Hcs as <-; discriminate|].
    destruct (findCoupon now coupons cc) as [cp|] eqn:Hf;
      [|injection Hcs as <-; discriminate].
    repeat match type of Hcs with
           | (if ?b then inl _ else _) = _ => destruct b; [discriminate|]
           end.
    injection Hcs as <-. simpl in Hc. injection Hc as <-.
    unfold findCoupon in Hf. now apply find_some in Hf as [Hin _].
  - split; [reflexivity|].
    unfold createOrder_totals, shippingDiscountOf. rewrite Hc.
    cbn [amt_discount].
    assert (Hz : cs_couponDiscount cs = 0%Q).
    { unfold createOrder_coupon in Hcs.
      destruct (couponCode req) as [cc|]; [|now injection Hcs as <-].
      destruct (String.eqb cc ""); [now injection Hcs as <-|].
      destruct (findCoupon now coupons cc) as [cp|];
        [|now injection Hcs as <-].
      repeat match type of Hcs with
             | (if ?b then inl _ else _) = _ => destruct b; [discriminate|]
             end.
      injection Hcs as <-. discriminate. }
    rewrite Hz. reflexivity.
Qed.

Lemma created_order_coupon_record_witness :
  exists c,
    createOrder flatShipping intentId 0 catalog [save20] [] 7%N basket = inr c /\
    match created_coupon c with
    | Some saved =>
        exists coupon d,
          In coupon [save20] /\
          saved = useCoupon coupon /\
          usedCount saved = usedCount coupon + 1 /\
          order_discounts (created_order c) = [d] /\
          disc_code d = code coupon /\
          disc_amount d = amt_discount (pay_amount (order_payment (created_order c)))
    | None =>
        order_discounts (created_order c) = [] /\
        (amt_discount (pay_amount (order_payment (created_order c))) == 0)%Q
    end.
Proof.
  eexists. split; [reflexivity|].
  exact (created_order_coupon_record flatShipping intentId 0 catalog
           [save20] [] 7%N basket _ eq_refl).
Defined.

(** ** The second controller's stock and amounts *)

Lemma stockStep_alter d st item :
  Simple.stockStep d st item
  = alter (fun p =>
      if truthyS (Simple.i_variantSku item) then
        Simple.mkSProduct (Simple.meta_stock p) (Simple.meta_reserved p)
          (Simple.incVariantStock (default "" (Simple.i_variantSku item))
             (d * Simple.i_quantity item) (Simple.s_variants p))
      else
        Simple.mkSProduct (Simple.meta_stock p + d * Simple.i_quantity item)
          (Simple.meta_reserved p - d * Simple.i_quantity item)
          (Simple.s_variants p))
      (Simple.i_product item) st.
Proof.
  unfold Simple.stockStep. rewrite alter_alt.
  destruct (st !! Simple.i_product item) as [p|] eqn:Hp; [|reflexivity].
  destruct (truthyS (Simple.i_variantSku item)); [|reflexivity].
  destruct (existsb _ (Simple.s_variants p)) eqn:E; [reflexivity|].
  assert (Hsame : forall s dq vs,
             existsb (fun v => String.eqb (Simple.v_sku v) s) vs = false ->
             Simple.incVariantStock s dq vs = vs).
  { intros s dq vs. induction vs as [|v r IH]; simpl; [reflexivity|].
    destruct (String.eqb (Simple.v_sku v) s); [discriminate|].
    simpl. intros H. now rewrite IH. }
  rewrite (Hsame _ _ _ E). symmetry. apply insert_id. rewrite Hp. now destruct p.
Qed.

Lemma incVariantStock_commute s1 d1 s2 d2 vs :
  Simple.incVariantStock s1 d1 (Simple.incVariantStock s2 d2 vs)
  = Simple.incVariantStock s2 d2 (Simple.incVariantStock s1 d1 vs).
Proof.
  induction vs as [|v r IH]; simpl; [reflexivity|].
  destruct (String.eqb (Simple.v_sku v) s2) eqn:E2,
           (String.eqb (Simple.v_sku v) s1) eqn:E1;
    simpl; rewrite ?E1, ?E2; simpl; rewrite ?IH; try reflexivity.
  do 2 f_equal. lia.
Qed.

Lemma incVariantStock_cancel s d d' vs :
  d + d' = 0 ->
  Simple.incVariantStock s d (Simple.incVariantStock s d' vs) = vs.
Proof.
  intros Hd. induction vs as [|v r IH]; simpl; [reflexivity|].
  destruct (String.eqb (Simple.v_sku v) s) eqn:E; simpl; rewrite E.
  - destruct v. simpl. do 2 f_equal. lia.
  - now rewrite IH.
Qed.

Lemma restock_step_past_reserves its st item :
  Simple.stockStep 1 (Simple.reserveStock its st) item
  = Simple.reserveStock its (Simple.stockStep 1 st item).
Proof.
  revert st. unfold Simple.reserveStock.
  induction its as [|it r IH]; intros st; [reflexivity|].
  simpl. rewrite IH. f_equal.
  rewrite !stockStep_alter, alter_alter. case_decide as Hk; [|reflexivity].
  rewrite Hk, alter_alter_eq. apply alter_ext. intros p _. simpl.
  destruct (truthyS (Simple.i_variantSku item)),
           (truthyS (Simple.i_variantSku it)); simpl;
    try reflexivity; f_equal; try lia.
  apply incVariantStock_commute.
Qed.

(** X5.  In the second controller restocking is the exact inverse of
    reserving: after [reserveStock] and then [restockItems] over the same
    items, every product document has the stock, the reserved count and the
    variant stocks it had before, whatever the items are. *)
Theorem restock_undoes_reserve :
  forall (its : list Simple.SItem) (st : gmap N Simple.SProduct),
    Simple.restockItems its (Simple.reserveStock its st) = st.
Proof.
  induction its as [|it r IH]; intros st; [reflexivity|].
  change (Simple.restockItems (it :: r) (Simple.reserveStock (it :: r) st))
    with (Simple.restockItems r
            (Simple.stockStep 1
               (Simple.reserveStock r (Simple.stockStep (-1) st it)) it)).
  rewrite restock_step_past_reserves, IH.
  rewrite !stockStep_alter, alter_alter_eq. apply alter_id.
  intros p _. simpl. destruct p as [stock reserved vs].
  destruct (truthyS (Simple.i_variantSku it)); simpl.
  - f_equal. apply incVariantStock_cancel. lia.
  - f_equal; lia.
Qed.

Lemma MathRound_bounds x :
  (inject_Z (MathRound x) <= x + (1 # 2))%Q /\
  (x - (1 # 2) < inject_Z (MathRound x))%Q.
Proof.
  unfold MathRound.
  pose proof (Qfloor_le (x + (1 # 2))) as Hlo.
  pose proof (Qlt_floor (x + (1 # 2))) as Hhi.
  rewrite inject_Z_plus in Hhi. change (inject_Z 1) with 1%Q in Hhi.
  split; lra.
Qed.

Lemma MathRound_nonneg x : (0 <= x)%Q -> 0 <= MathRound x.
Proof.
  intros Hx. unfold MathRound.
  change 0 with (Qfloor 0). apply Qfloor_resp_le. lra.
Qed.

Lemma MathRound_integer k x : (x == inject_Z k)%Q -> MathRound x = k.
Proof.
  intros Hx. unfold MathRound. rewrite Hx.
  unfold Qfloor, Qplus, inject_Z. simpl.
  change (Z.pos (1 * 2)) with 2. symmetry.
  apply Z.div_unique with (r := 1); lia.
Qed.

(** A rounded amount of cents, read as an amount. *)
Lemma cents_nonneg x : (0 <= x)%Q -> (0 <= inject_Z (MathRound x) / 100)%Q.
Proof.
  intros Hx. apply MathRound_nonneg in Hx.
  assert (H : (0 <= inject_Z (MathRound x))%Q).
  { change 0%Q with (inject_Z 0). now rewrite <- Zle_Qle. }
  assert (E : (inject_Z (MathRound x) / 100 == inject_Z (MathRound x) * (1 # 100))%Q)
    by field.
  rewrite E. lra.
Qed.

Lemma objectGet_Own {A} (t : list (string * A)) k v :
  objectGet t k = Own v -> In (k, v) t.
Proof.
  unfold objectGet.
  destruct (List.find _ t) as [[k' v']|] eqn:F.
  - intros [= <-]. apply find_some in F as [Hin E]. simpl in E.
    apply String.eqb_eq in E. now subst.
  - destruct (includes inheritedKeys k); discriminate.
Qed.

Lemma objectGet_inherited {A} (t : list (string * A)) k :
  objectGet t k = Inherited -> includes inheritedKeys k = true.
Proof.
  unfold objectGet. destruct (List.find _ t); [discriminate|].
  now destruct (includes inheritedKeys k).
Qed.

Lemma percent_of_small_rate s v :
  (0 <= s)%Q -> (0 <= v)%Q -> (v <= 50)%Q ->
  (0 <= inject_Z (MathRound (s * (v / 100) * 100)) / 100 <= s)%Q.
Proof.
  intros Hs Hv Hv'.
  assert (Ey : (s * (v / 100) * 100 == s * v)%Q) by field.
  set (y := (s * (v / 100) * 100)%Q) in *. clearbody y.
  assert (Hy : (0 <= y)%Q) by nra.
  split; [now apply cents_nonneg|].
  destruct (MathRound_bounds y) as [Hlo _].
  assert (E : (inject_Z (MathRound y) / 100 == inject_Z (MathRound y) * (1 # 100))%Q)
    by field.
  rewrite E.
  destruct (Qlt_le_dec y (1 # 2)) as [Hsmall|Hbig].
  - assert (Hn : MathRound y <= 0).
    { assert (Hlt : (inject_Z (MathRound y) < inject_Z 1)%Q)
        by (change (inject_Z 1) with 1%Q; lra).
      rewrite <- Zlt_Qlt in Hlt. lia. }
    assert (Hq : (inject_Z (MathRound y) <= 0)%Q).
    { change 0%Q with (inject_Z 0). now rewrite <- Zle_Qle. }
    lra.
  - assert (Hp : (0 <= s * (50 - v))%Q) by nra. nra.
Qed.

Lemma applyCoupon_range code subtotal :
  (0 <= subtotal)%Q ->
  (0 <= SimpleHelpers.applyCoupon code subtotal <= subtotal)%Q.
Proof.
  intros Hs. unfold SimpleHelpers.applyCoupon.
  destruct (objectGet SimpleHelpers.coupons code) as [c| |] eqn:E;
    [|lra|lra].
  apply objectGet_Own in E. simpl in E.
  destruct E as [E|[E|[E|[]]]]; injection E as _ <-;
    cbn [SimpleHelpers.dc_minPurchase SimpleHelpers.dc_type
         SimpleHelpers.dc_value].
  - destruct (negb (Qle_bool 0 subtotal)); [lra|].
    change (String.eqb "percentage" "percentage") with true. cbv iota.
    apply percent_of_small_rate; lra.
  - destruct (negb (Qle_bool (100 # 1) subtotal)); [lra|].
    change (String.eqb "fixed" "percentage") with false.
    change (String.eqb "fixed" "fixed") with true. cbv iota.
    rewrite MathMin_Qmin.
    destruct (Q.min_spec (20 # 1) subtotal) as [[H ->]|[H ->]]; lra.
  - change (String.eqb "shipping" "percentage") with false.
    change (String.eqb "shipping" "fixed") with false. cbv iota. lra.
Qed.

(** X6.  The second controller's coupon discount never exceeds the subtotal
    and is never negative: for every code and every subtotal that is not
    negative, [applyCoupon] returns an amount between 0 and the subtotal; a
    code that is not in the coupon table yields 0, and so does the fixed
    coupon SAVE20 on a subtotal below its minimum of 100. *)
Theorem second_coupon_within_subtotal :
  forall (code : string) (subtotal : Q),
    (0 <= subtotal)%Q ->
    (0 <= SimpleHelpers.applyCoupon code subtotal <= subtotal)%Q /\
    ((forall c, ~ In (code, c) SimpleHelpers.coupons) ->
     SimpleHelpers.applyCoupon code subtotal = 0%Q) /\
    ((subtotal < 100 # 1)%Q ->
     SimpleHelpers.applyCoupon "SAVE20" subtotal = 0%Q).
Proof.
  intros code subtotal Hs. split; [now apply applyCoupon_range|]. split.
  - intros Hnone. unfold SimpleHelpers.applyCoupon.
    destruct (objectGet SimpleHelpers.coupons code) as [c| |] eqn:E;
      [|reflexivity|reflexivity].
    apply objectGet_Own in E. destruct (Hnone c E).
  - intros Hlow. unfold SimpleHelpers.applyCoupon.
    change (objectGet SimpleHelpers.coupons "SAVE20")
      with (Own (SimpleHelpers.mkDemoCoupon "fixed" 20 (Some (100 # 1)))).
    cbn [SimpleHelpers.dc_minPurchase].
    destruct (Qle_bool (100 # 1) subtotal) eqn:E; [|reflexivity].
    apply Qle_bool_iff in E. lra.
Qed.

Lemma second_coupon_within_subtotal_witness :
  (0 <= SimpleHelpers.applyCoupon "WELCOME10" (1995 # 100)
   <= 1995 # 100)%Q.
Proof.
  refine (proj1 (second_coupon_within_subtotal "WELCOME10" (1995 # 100) _)).
  vm_compute. discriminate.
Defined.

Lemma cents_exact k x :
  (x * 100 == inject_Z k)%Q -> (inject_Z (MathRound (x * 100)) / 100 == x)%Q.
Proof.
  intros H. rewrite (MathRound_integer k _ H), <- H. field.
Qed.

Lemma shipping_quote_value country method itemCount :
  includes inheritedKeys method = false ->
  exists q,
    SimpleHelpers.calculateShipping country method itemCount = Some q /\
    (q == (if String.eqb method "express" then 1299 # 100
           else if String.eqb method "overnight" then 2499 # 100
           else 599 # 100)
          + (if String.eqb country "US" then 0 else 1599 # 100)
          + inject_Z (itemCount - 1) * (150 # 100))%Q /\
    (1 <= itemCount -> (599 # 100 <= q)%Q).
Proof.
  assert (Hbase : forall b : Z,
    let cost := ((if String.eqb country "US" then b # 100
                  else (b # 100) + (1599 # 100))
                 + inject_Z (itemCount - 1) * (150 # 100))%Q in
    (inject_Z (MathRound (cost * 100)) / 100 == cost)%Q).
  { intros b cost. subst cost.
    destruct (String.eqb country "US").
    - apply (cents_exact (b + 150 * (itemCount - 1))).
      rewrite inject_Z_plus, inject_Z_mult.
      rewrite (Qmake_Qdiv b 100). change (inject_Z (Z.pos 100)) with (100 # 1)%Q.
      change (inject_Z 150) with (150 # 1)%Q. field.
    - apply (cents_exact (b + 1599 + 150 * (itemCount - 1))).
      rewrite !inject_Z_plus, inject_Z_mult.
      rewrite (Qmake_Qdiv b 100). change (inject_Z (Z.pos 100)) with (100 # 1)%Q.
      change (inject_Z 150) with (150 # 1)%Q.
      change (inject_Z 1599) with (1599 # 1)%Q. field. }
  assert (Hitems : 1 <= itemCount -> (0 <= inject_Z (itemCount - 1))%Q).
  { intros H. change 0%Q with (inject_Z 0). rewrite <- Zle_Qle. lia. }
  unfold SimpleHelpers.calculateShipping, objectGet.
  cbn [List.find SimpleHelpers.baseRates fst snd].
  rewrite (String.eqb_sym "standard"), (String.eqb_sym "express"),
          (String.eqb_sym "overnight").
  intros Hown. rewrite Hown.
  destruct (String.eqb method "standard") eqn:Es.
  { apply String.eqb_eq in Es. subst method. cbn [String.eqb Ascii.eqb Bool.eqb].
    eexists. split; [reflexivity|]. rewrite (Hbase 599).
    split; [destruct (String.eqb country "US"); lra|].
    intros H. specialize (Hitems H). destruct (String.eqb country "US"); nra. }
  destruct (String.eqb method "express") eqn:Ee.
  { eexists. split; [reflexivity|]. rewrite (Hbase 1299).
    split; [destruct (String.eqb country "US"); lra|].
    intros H. specialize (Hitems H). destruct (String.eqb country "US"); nra. }
  destruct (String.eqb method "overnight") eqn:Eo.
  { eexists. split; [reflexivity|]. rewrite (Hbase 2499).
    split; [destruct (String.eqb country "US"); lra|].
    intros H. specialize (Hitems H). destruct (String.eqb country "US"); nra. }
  eexists. split; [reflexivity|]. rewrite (Hbase 599).
  split; [destruct (String.eqb country "US"); lra|].
  intros H. specialize (Hitems H). destruct (String.eqb country "US"); nra.
Qed.

Lemma calculateShipping_inherited country method itemCount :
  includes inheritedKeys method = true ->
  SimpleHelpers.calculateShipping country method itemCount = None.
Proof.
  unfold SimpleHelpers.calculateShipping, objectGet.
  cbn [List.find SimpleHelpers.baseRates fst snd].
  rewrite (String.eqb_sym "standard"), (String.eqb_sym "express"),
          (String.eqb_sym "overnight").
  intros Hinh. rewrite Hinh.
  destruct (String.eqb method "standard") eqn:Es.
  { apply String.eqb_eq in Es. subst. discriminate. }
  destruct (String.eqb method "express") eqn:Ee.
  { apply String.eqb_eq in Ee. subst. discriminate. }
  destruct (String.eqb method "overnight") eqn:Eo.
  { apply String.eqb_eq in Eo. subst. discriminate. }
  reflexivity.
Qed.

(** X7.  The second controller's shipping quote is exact and linear: for a
    method and a country it is the base rate of the method (the standard
    rate of 5.99 when the method is not in the table), plus 15.99 outside
    the US, plus 1.50 for every item after the first; rounding to cents
    never changes it.  For at least one item it is at least 5.99.  There is
    a quote unless the method is the name of a member every object
    inherits. *)
Theorem shipping_quote_linear :
  forall (country method : string) (itemCount : Z),
    (includes inheritedKeys method = false ->
     exists q,
       SimpleHelpers.calculateShipping country method itemCount = Some q /\
       (q == (if String.eqb method "express" then 1299 # 100
              else if String.eqb method "overnight" then 2499 # 100
              else 599 # 100)
             + (if String.eqb country "US" then 0 else 1599 # 100)
             + inject_Z (itemCount - 1) * (150 # 100))%Q /\
       (1 <= itemCount -> (599 # 100 <= q)%Q)) /\
    (includes inheritedKeys method = true ->
     SimpleHelpers.calculateShipping country method itemCount = None).
Proof.
  intros country method itemCount.
  split; [apply shipping_quote_value | apply calculateShipping_inherited].
Qed.

Lemma shipping_quote_linear_witness :
  exists q,
    SimpleHelpers.calculateShipping "DE" "pigeon" 3 = Some q /\
    (q == 2498 # 100)%Q.
Proof.
  destruct (proj1 (shipping_quote_linear "DE" "pigeon" 3) eq_refl)
    as (q & Hq & Hval & _).
  exists q. split; [exact Hq|]. rewrite Hval. reflexivity.
Defined.

Lemma calculateShipping_inversion country method itemCount q :
  SimpleHelpers.calculateShipping country method itemCount = Some q ->
  includes inheritedKeys method = false.
Proof.
  intros H. destruct (includes inheritedKeys method) eqn:E; [|reflexivity].
  rewrite (calculateShipping_inherited _ _ _ E) in H. discriminate.
Qed.

Lemma calculateTax_nonneg country subtotal tax :
  SimpleHelpers.calculateTax country subtotal = Some tax ->
  (0 <= subtotal)%Q -> (0 <= tax)%Q.
Proof.
  unfold SimpleHelpers.calculateTax. intros H Hs.
  destruct (objectGet SimpleHelpers.taxRates country) as [r| |] eqn:E;
    [|discriminate|]; injection H as <-; apply cents_nonneg.
  - apply objectGet_Own in E. simpl in E.
    destruct E as [E|[E|[E|[E|[]]]]]; injection E as _ <-; nra.
  - nra.
Qed.

(** X8.  The second controller never computes a total that is zero or
    negative: for a subtotal that is not negative and at least one item,
    whenever the amounts exist, the tax is not negative, the discount lies
    between 0 and the subtotal, the shipping cost is at least 5.99, and the
    grand total, which is subtotal + shipping + tax - discount, is at least
    the shipping cost. *)
Theorem second_order_total_positive :
  forall (country method : string) (totalItems : Z) (subtotal : Q)
         (couponCode : option string) (t : Simple.Totals),
    SimpleHelpers.orderTotals country method totalItems subtotal couponCode
    = Some t ->
    (0 <= subtotal)%Q ->
    1 <= totalItems ->
    (Simple.t_grandTotal t
     == Simple.t_items t + Simple.t_shipping t + Simple.t_tax t
        - Simple.t_discount t)%Q /\
    Simple.t_items t = subtotal /\
    (0 <= Simple.t_tax t)%Q /\
    (0 <= Simple.t_discount t <= subtotal)%Q /\
    (599 # 100 <= Simple.t_shipping t)%Q /\
    (Simple.t_shipping t <= Simple.t_grandTotal t)%Q.
Proof.
  intros country method totalItems subtotal couponCode t Htot Hs Hn.
  unfold SimpleHelpers.orderTotals in Htot.
  destruct (SimpleHelpers.calculateShipping country method totalItems)
    as [shippingCost|] eqn:Hship; [|discriminate].
  destruct (SimpleHelpers.calculateTax country subtotal) as [tax|] eqn:Htax;
    [|discriminate].
  injection Htot as <-.
  cbn [Simple.t_grandTotal Simple.t_items Simple.t_shipping Simple.t_tax
       Simple.t_discount].
  pose proof (calculateTax_nonneg _ _ _ Htax Hs) as Htaxnn.
  destruct (shipping_quote_value country method totalItems
              (calculateShipping_inversion _ _ _ _ Hship))
    as (q & Hq & _ & Hfloor).
  rewrite Hship in Hq. injection Hq as <-. specialize (Hfloor Hn).
  assert (Hd : (0 <= (if truthyS couponCode
                      then SimpleHelpers.applyCoupon (default "" couponCode) subtotal
                      else 0) <= subtotal)%Q).
  { destruct (truthyS couponCode); [now apply applyCoupon_range | lra]. }
  repeat split; try reflexivity; lra.
Qed.

Lemma second_order_total_positive_witness :
  exists t,
    SimpleHelpers.orderTotals "US" "express" 2 (150 # 1) (Some "SAVE20") = Some t /\
    (Simple.t_shipping t <= Simple.t_grandTotal t)%Q.
Proof.
  eexists. split; [reflexivity|].
  refine (proj2 (proj2 (proj2 (proj2 (proj2
    (second_order_total_positive "US" "express" 2 (150 # 1) (Some "SAVE20") _
       eq_refl _ _)))))).
  - vm_compute. discriminate.
  - lia.
Defined.

(** ** The cart *)

Lemma MathMax_compat a b b' : (b == b')%Q -> (MathMax a b == MathMax a b')%Q.
Proof. intros H. rewrite !MathMax_Qmax. now rewrite H. Qed.

(** X9.  The cart and the checkout price a product alike: for every product,
    variant and moment, the unit price [calculateItemPrice] stores with a
    cart line equals the unit price [createOrder] charges. *)
Theorem cart_price_is_order_price :
  forall (now : Z) (product : Product) (variant : option Variant),
    (calculateItemPrice now product variant
     == finalPriceOf now product variant)%Q.
Proof.
  intros now product variant. unfold calculateItemPrice, finalPriceOf.
  set (price0 := match variant with Some _ => _ | None => _ end).
  assert (E : (price0 == basePriceOf product variant)%Q).
  { subst price0. unfold basePriceOf. destruct variant as [v|]; [|reflexivity].
    unfold truthyQ, orZero. destruct (priceAdjustment v) as [a|]; [|lra].
    destruct (Qeq_bool a 0); simpl; lra. }
  destruct (sale (price product)) as [s|]; [|exact E].
  destruct (saleActive now s); [|exact E].
  destruct (String.eqb (sale_type s) "percentage"); [now rewrite E|].
  destruct (String.eqb (sale_type s) "fixed"); [|exact E].
  apply MathMax_compat. now rewrite E.
Qed.

Lemma strictEq_eq a b : strictEq a b = true <-> a = b.
Proof.
  destruct a, b; simpl; try (split; [discriminate|discriminate]);
    try (split; reflexivity).
  rewrite String.eqb_eq. split; [now intros -> | now intros [= ->]].
Qed.

Lemma sameLine_spec idString productId sku item :
  sameLine idString productId sku item = true <->
  idString (ci_product item) = productId /\ ci_sku item = sku.
Proof.
  unfold sameLine. now rewrite andb_true_iff, String.eqb_eq, strictEq_eq.
Qed.

Lemma findIndex_Some {A} (f : A -> bool) l i :
  findIndex f l = Some i -> exists x, l !! i = Some x /\ f x = true.
Proof.
  revert i. induction l as [|a r IH]; simpl; intros i; [discriminate|].
  destruct (f a) eqn:E.
  - intros [= <-]. exists a. now split.
  - destruct (findIndex f r) as [j|]; [|discriminate].
    intros [= <-]. destruct (IH j eq_refl) as (x & Hx & Hf). now exists x.
Qed.

Lemma findIndex_None {A} (f : A -> bool) l :
  findIndex f l = None -> forall x, In x l -> f x = false.
Proof.
  induction l as [|a r IH]; simpl; intros H x; [intros []|].
  destruct (f a) eqn:E; [discriminate|].
  destruct (findIndex f r); [discriminate|].
  intros [<-|Hin]; [exact E | now apply IH].
Qed.

Lemma itemCount_shift items a :
  fold_left (fun sum item => sum + ci_quantity item) items a
  = a + itemCount items.
Proof.
  unfold itemCount. revert a.
  induction items as [|x r IH]; simpl; intros a; [lia|].
  rewrite (IH (a + ci_quantity x)), (IH (0 + ci_quantity x)). lia.
Qed.

Lemma itemCount_cons x r : itemCount (x :: r) = ci_quantity x + itemCount r.
Proof. unfold itemCount at 1. simpl. now rewrite itemCount_shift. Qed.

Lemma itemCount_app l1 l2 : itemCount (l1 ++ l2) = itemCount l1 + itemCount l2.
Proof.
  induction l1 as [|x r IH]; [unfold itemCount at 2; simpl; lia|].
  simpl. rewrite !itemCount_cons, IH. lia.
Qed.

Lemma alter_addQuantity q i items x :
  items !! i = Some x ->
  map lineKey (alter (addQuantity q) i items) = map lineKey items /\
  itemCount (alter (addQuantity q) i items) = itemCount items + q /\
  length (alter (addQuantity q) i items) = length items.
Proof.
  revert i. induction items as [|a r IH]; intros i; [discriminate|].
  destruct i as [|i]; simpl.
  - intros [= ->]. rewrite !itemCount_cons. simpl. repeat split; lia.
  - intros Hx. destruct (IH i Hx) as (Hk & Hc & Hl).
    change (list_alter (addQuantity q) i r) with (alter (addQuantity q) i r).
    rewrite !itemCount_cons, Hk, Hc, Hl. repeat split; lia.
Qed.

(** Merging a line adds the quantity and at most one line; the lines stay
    distinct when the new line is one the comparison would match. *)
Lemma mergeLine_spec idString productId sku q newLine items items' :
  mergeLine idString productId sku q newLine items = Some items' ->
  (forall line, newLine = Some line -> ci_quantity line = q) ->
  itemCount items' = itemCount items + q /\
  (length items <= length items' <= length items + 1)%nat /\
  ((forall line, newLine = Some line ->
                 sameLine idString productId sku line = true) ->
   (NoDup (map lineKey items) -> NoDup (map lineKey items')) /\
   exists item, In item items' /\
                sameLine idString productId sku item = true).
Proof.
  intros Hm Hq. unfold mergeLine in Hm.
  destruct (findIndex (sameLine idString productId sku) items) as [i|] eqn:F.
  - injection Hm as <-.
    destruct (findIndex_Some _ _ _ F) as (x & Hx & Hs).
    destruct (alter_addQuantity q i items x Hx) as (Hk & Hc & Hl).
    rewrite Hk, Hc, Hl. split; [reflexivity|]. split; [lia|].
    intros _. split; [auto|].
    exists (addQuantity q x). split.
    + apply list_elem_of_In. eapply list_elem_of_lookup_2.
      rewrite list_lookup_alter, Hx. now rewrite decide_True by reflexivity.
    + exact Hs.
  - destruct newLine as [line|]; [|discriminate]. injection Hm as <-.
    rewrite map_app, itemCount_app, length_app. simpl.
    rewrite itemCount_cons, (Hq line eq_refl).
    change (itemCount []) with 0.
    split; [lia|]. split; [lia|].
    intros Hcan. specialize (Hcan line eq_refl). split.
    + intros Hnd. apply NoDup_app. split; [exact Hnd|].
      split; [|apply NoDup_singleton].
      intros k Hk Hk'. apply list_elem_of_In in Hk, Hk'.
      destruct Hk' as [<-|[]]. apply in_map_iff in Hk as (x & Hkey & Hin).
      pose proof (findIndex_None _ _ F x Hin) as Hf.
      apply sameLine_spec in Hcan as [Hc1 Hc2].
      injection Hkey as Hp Hs.
      assert (Hx : sameLine idString productId sku x = true)
        by (apply sameLine_spec; split; congruence).
      congruence.
    + exists line. split; [apply in_or_app; right; now left | exact Hcan].
Qed.

(** X10.  [addToCart] merges the item into the first line whose product id
    prints as the request spells it and whose variantSku is identical to the
    request's, and pushes a line otherwise.  The quantity added is positive,
    the number of items in the cart grows by exactly that quantity, and the
    cart gains at most one line.  When the request spells the product id the
    way the stored id prints, lines that differ in product id or in
    variantSku stay that way and the cart has a line that matches the
    request.  (Another spelling of the id, or [null] for an absent
    variantSku, does not match the line it means.) *)
Theorem addToCart_keeps_lines_distinct :
  forall (idString : ObjectId -> string) (castId : string -> option ObjectId)
         (now : Z) (products : gmap N Product) (cart : option (list CartItem))
         (productId : option string) (variantSku : JsString)
         (quantity : Z) (newId : ObjectId) (items' : list CartItem),
    addToCart idString castId now products cart productId variantSku quantity
              newId = inr items' ->
    0 < quantity /\
    itemCount items' = itemCount (default [] cart) + quantity /\
    (length (default [] cart) <= length items'
     <= length (default [] cart) + 1)%nat /\
    exists s pid,
      productId = Some s /\ s <> "" /\ castId s = Some pid /\
      is_Some (products !! pid) /\
      (idString pid = s ->
       (NoDup (map lineKey (default [] cart)) -> NoDup (map lineKey items')) /\
       exists item, In item items' /\ idString (ci_product item) = s /\
                    ci_sku item = variantSku).
Proof.
  intros idString castId now products cart productId variantSku quantity newId
         items' Hadd.
  unfold addToCart in Hadd.
  destruct productId as [s|]; [|discriminate]. simpl in Hadd.
  destruct (String.eqb_spec s "") as [Hs|Hs]; [discriminate|]. simpl in Hadd.
  destruct (quantity <=? 0) eqn:Hq; [discriminate|]. apply Z.leb_gt in Hq.
  destruct (castId s) as [pid|] eqn:Hcast; [|discriminate].
  destruct (products !! pid) as [product|] eqn:Hp; [|discriminate].
  destruct (selectVariant product (textOf variantSku)) as [e|variant];
    [discriminate|].
  destruct (_ && _); [discriminate|].
  destruct (mergeLine idString s variantSku quantity _ (default [] cart))
    as [items|] eqn:Hm; [|discriminate].
  injection Hadd as <-.
  destruct (mergeLine_spec _ _ _ _ _ _ _ Hm) as (H1 & H2 & H3).
  { now intros line [= <-]. }
  split; [exact Hq|]. split; [exact H1|]. split; [exact H2|].
  exists s, pid. split; [reflexivity|]. split; [exact Hs|].
  split; [exact Hcast|]. split; [eauto|].
  intros Hcan. destruct H3 as (H4 & item & Hin & Hitem).
  { intros line [= <-]. apply sameLine_spec. now split. }
  split; [exact H4|]. exists item. split; [exact Hin|].
  now apply sameLine_spec in Hitem.
Qed.

Lemma findIndex_first {A} (f : A -> bool) l i :
  findIndex f l = Some i ->
  forall j x, (j < i)%nat -> l !! j = Some x -> f x = false.
Proof.
  revert i. induction l as [|a r IH]; simpl; intros i; [discriminate|].
  destruct (f a) eqn:E.
  - intros [= <-] j x Hj. lia.
  - destruct (findIndex f r) as [k|]; [|discriminate].
    intros [= <-] j x Hj. destruct j as [|j]; simpl.
    + now intros [= <-].
    + apply (IH k eq_refl). lia.
Qed.

Lemma itemCount_delete items i item :
  items !! i = Some item ->
  itemCount (delete i items) = itemCount items - ci_quantity item.
Proof.
  revert i. induction items as [|a r IH]; intros i; [discriminate|].
  destruct i as [|i]; simpl.
  - intros [= ->]. rewrite itemCount_cons. lia.
  - intros Hx. change (list_delete i r) with (delete i r).
    rewrite !itemCount_cons, (IH i Hx). lia.
Qed.

(** X11.  [removeFromCart] takes out exactly the first line with the given
    id: the lines left are the old ones without it, the number of items
    drops by its quantity, and a cart is never stored empty - it is deleted
    exactly when the removed line was its only one. *)
Theorem removeFromCart_removes_one_line :
  forall (cart : option (list CartItem)) (itemId : ObjectId)
         (r : option (list CartItem)),
    removeFromCart cart itemId = inr r ->
    exists items i item,
      cart = Some items /\
      items !! i = Some item /\ ci_id item = itemId /\
      (forall j x, (j < i)%nat -> items !! j = Some x -> ci_id x <> itemId) /\
      default [] r = delete i items /\
      r <> Some [] /\
      (r = None <-> items = [item]) /\
      itemCount (default [] r) = itemCount items - ci_quantity item.
Proof.
  intros cart itemId r H. unfold removeFromCart in H.
  destruct cart as [items|]; [|discriminate].
  destruct (findIndex _ items) as [i|] eqn:F; [|discriminate].
  destruct (findIndex_Some _ _ _ F) as (item & Hi & Hid).
  apply N.eqb_eq in Hid.
  exists items, i, item. split; [reflexivity|]. split; [exact Hi|].
  split; [exact Hid|]. split.
  { intros j x Hj Hx E. pose proof (findIndex_first _ _ _ F j x Hj Hx) as Hf.
    simpl in Hf. apply N.eqb_neq in Hf. contradiction. }
  pose proof (itemCount_delete items i item Hi) as Hc.
  assert (Hlen : length (delete i items) = (length items - 1)%nat).
  { apply lookup_lt_Some in Hi. rewrite length_delete; [lia|]. eauto using lookup_lt_is_Some_2. }
  destruct (delete i items) as [|a rest] eqn:D.
  - injection H as <-. simpl. repeat split; try congruence.
    intros _. destruct items as [|b [|c t]].
    + rewrite lookup_nil in Hi. discriminate.
    + destruct i; [now injection Hi as ->|]. discriminate.
    + simpl in Hlen. lia.
  - injection H as <-. simpl. repeat split; try congruence.
    intros ->. destruct i; simpl in D; discriminate.
Qed.

Lemma removeFromCart_removes_one_line_witness :
  exists items i item,
    Some [mkCartItem 1 7 Undefined 2 None; mkCartItem 2 8 Undefined 3 None] = Some items /\
    items !! i = Some item /\ ci_id item = 2%N /\
    (forall j x, (j < i)%nat -> items !! j = Some x -> ci_id x <> 2%N) /\
    default [] (Some [mkCartItem 1 7 Undefined 2 None]) = delete i items /\
    Some [mkCartItem 1 7 Undefined 2 None] <> Some [] /\
    (Some [mkCartItem 1 7 Undefined 2 None] = None <-> items = [item]) /\
    itemCount (default [] (Some [mkCartItem 1 7 Undefined 2 None]))
    = itemCount items - ci_quantity item.
Proof.
  exact (removeFromCart_removes_one_line
           (Some [mkCartItem 1 7 Undefined 2 None; mkCartItem 2 8 Undefined 3 None])
           2%N (Some [mkCartItem 1 7 Undefined 2 None]) eq_refl).
Defined.

Lemma mergedQuantity_cons g guest :
  mergedQuantity (g :: guest)
  = (if truthyS (g_productId g) then g_quantity g else 0)
    + mergedQuantity guest.
Proof. reflexivity. Qed.

Lemma mergeGuestItems_failed idString castId guest :
  fold_left (fun acc g =>
    match acc with
    | None => None
    | Some lines =>
        if negb (truthyS (g_productId g)) || (g_quantity g =? 0)
        then Some lines
        else
          mergeLine idString (default "" (g_productId g)) (g_variantSku g)
            (g_quantity g)
            (option_map (fun pid => mkCartItem (g_newId g) pid (g_variantSku g)
                                               (g_quantity g) None)
                        (castId (default "" (g_productId g))))
            lines
    end) guest None = None.
Proof. induction guest as [|g guest IH]; [reflexivity | exact IH]. Qed.

(** X12.  [mergeGuestCart] takes the guest quantities over as they are: when
    the merged cart is stored, the number of items has grown by the sum of
    the quantities of the guest entries that name a product, whatever their
    sign, and the cart has no fewer lines than before and at most one more
    per guest entry.  When every guest entry spells its product id the way
    the stored id prints, lines that differ in product id or in variantSku
    stay that way.  (Another spelling of an id, or [null] for an absent
    variantSku, does not match the line it means.) *)
Theorem mergeGuestCart_adds_guest_quantities :
  forall (idString : ObjectId -> string) (castId : string -> option ObjectId)
         (guest : list GuestItem) (items items' : list CartItem),
    mergeGuestItems idString castId guest items = Some items' ->
    itemCount items' = itemCount items + mergedQuantity guest /\
    (length items <= length items' <= length items + length guest)%nat /\
    ((forall g s pid, In g guest -> g_productId g = Some s ->
                      castId s = Some pid -> idString pid = s) ->
     NoDup (map lineKey items) -> NoDup (map lineKey items')).
Proof.
  intros idString castId guest. induction guest as [|g guest IH];
    intros items items' Hm.
  - injection Hm as <-. unfold mergedQuantity. simpl.
    split; [lia|]. split; [lia|]. auto.
  - unfold mergeGuestItems in Hm. cbn [fold_left] in Hm.
    rewrite mergedQuantity_cons. cbn [length].
    destruct (g_productId g) as [s|] eqn:Hs; simpl in Hm |- *.
    2:{ destruct (IH items items' Hm) as (H1 & H2 & H3).
        split; [lia|]. split; [lia|]. intros Hcan. apply H3.
        intros g' s' pid' Hin. apply Hcan. now right. }
    destruct (String.eqb_spec s "") as [E|E]; simpl in Hm |- *.
    { destruct (IH items items' Hm) as (H1 & H2 & H3).
      split; [lia|]. split; [lia|]. intros Hcan. apply H3.
      intros g' s' pid' Hin. apply Hcan. now right. }
    destruct (Z.eqb_spec (g_quantity g) 0) as [Hq|Hq].
    { destruct (IH items items' Hm) as (H1 & H2 & H3).
      split; [lia|]. split; [lia|]. intros Hcan. apply H3.
      intros g' s' pid' Hin. apply Hcan. now right. }
    destruct (mergeLine idString s (g_variantSku g) (g_quantity g) _ items)
      as [lines|] eqn:Hl.
    2:{ rewrite mergeGuestItems_failed in Hm. discriminate. }
    destruct (mergeLine_spec _ _ _ _ _ _ _ Hl) as (M1 & M2 & M3).
    { intros line Hline. destruct (castId s); [|discriminate].
      now injection Hline as <-. }
    destruct (IH lines items' Hm) as (H1 & H2 & H3).
    split; [lia|]. split; [lia|].
    intros Hcan Hnd. apply H3.
    + intros g' s' pid' Hin. apply Hcan. now right.
    + apply M3; [|exact Hnd].
      intros line Hline. destruct (castId s) as [pid|] eqn:Hc; [|discriminate].
      injection Hline as <-. apply sameLine_spec. split; [|reflexivity].
      apply (Hcan g s pid); [now left | exact Hs | exact Hc].
Qed.

Lemma mergeGuestCart_adds_guest_quantities_witness :
  itemCount [mkCartItem 1 7 Undefined 1 None; mkCartItem 13 9 Undefined 2 None]
  = itemCount [mkCartItem 1 7 Undefined 2 None]
    + mergedQuantity
        [mkGuestItem (Some "0x7") Undefined (-1) 11;
         mkGuestItem None Undefined 4 12;
         mkGuestItem (Some "0x9") Undefined 2 13] /\
  NoDup (map lineKey [mkCartItem 1 7 Undefined 1 None;
                      mkCartItem 13 9 Undefined 2 None]).
Proof.
  destruct (mergeGuestCart_adds_guest_quantities hexId readHexId
              [mkGuestItem (Some "0x7") Undefined (-1) 11;
               mkGuestItem None Undefined 4 12;
               mkGuestItem (Some "0x9") Undefined 2 13]
              [mkCartItem 1 7 Undefined 2 None]
              [mkCartItem 1 7 Undefined 1 None; mkCartItem 13 9 Undefined 2 None]
              eq_refl) as (H1 & _ & H2).
  split; [exact H1|]. apply H2.
  - intros g s pid [<-|[<-|[<-|[]]]]; intros [= <-] [= <-]; reflexivity.
  - simpl. apply NoDup_singleton.
Defined.

Lemma alter_setQuantity q i items x :
  items !! i = Some x ->
  map lineKey (alter (setQuantity q) i items) = map lineKey items /\
  itemCount (alter (setQuantity q) i items)
  = itemCount items - ci_quantity x + q.
Proof.
  revert i. induction items as [|a r IH]; intros i; [discriminate|].
  destruct i as [|i]; simpl.
  - intros [= ->]. rewrite !itemCount_cons. simpl. split; [reflexivity|lia].
  - intros Hx. destruct (IH i Hx) as (Hk & Hc).
    change (list_alter (setQuantity q) i r) with (alter (setQuantity q) i r).
    rewrite !itemCount_cons, Hk, Hc. split; [reflexivity|lia].
Qed.

(** X13.  An accepted [updateCartItem] sets the quantity of the first line
    with the given id and of no other line: the lines keep their products
    and variants, the new quantity is positive, and for a product without
    backorders it is covered by the free stock of the line's variant - or of
    the product itself when the line has no variant or the product no longer
    carries it. *)
Theorem updateCartItem_sets_one_quantity :
  forall (products : gmap N Product) (cart : option (list CartItem))
         (itemId : ObjectId) (q : Z) (items' : list CartItem),
    updateCartItem products cart itemId q = inr items' ->
    exists items i item product,
      cart = Some items /\
      items !! i = Some item /\ ci_id item = itemId /\
      products !! ci_product item = Some product /\
      0 < q /\
      items' !! i = Some (setQuantity q item) /\
      (forall j, j <> i -> items' !! j = items !! j) /\
      map lineKey items' = map lineKey items /\
      itemCount items' = itemCount items - ci_quantity item + q /\
      (allowBackorders (inventory product) = false ->
       q <= match findVariant product (default "" (ci_variantSku item)) with
                   | Some v => if truthyS (ci_variantSku item)
                               then quantity (v_inventory v) - reserved (v_inventory v)
                               else quantity (inventory product) - reserved (inventory product)
                   | None => quantity (inventory product) - reserved (inventory product)
                   end).
Proof.
  intros products cart itemId q items' H. unfold updateCartItem in H.
  destruct (q <=? 0) eqn:Hq; [discriminate|]. apply Z.leb_gt in Hq.
  destruct cart as [items|]; [|discriminate].
  destruct (findIndex _ items) as [i|] eqn:F; [|discriminate].
  destruct (findIndex_Some _ _ _ F) as (item & Hi & Hid).
  apply N.eqb_eq in Hid. rewrite Hi in H.
  destruct (products !! ci_product item) as [product|] eqn:Hp; [|discriminate].
  set (variant := if truthyS (ci_variantSku item) then _ else None) in H.
  destruct (_ && _) eqn:Hstock; [discriminate|]. injection H as <-.
  destruct (alter_setQuantity q i items item Hi) as (Hk & Hc).
  exists items, i, item, product.
  repeat split; try assumption.
  - rewrite list_lookup_alter, Hi. now rewrite decide_True by reflexivity.
  - intros j Hj. rewrite list_lookup_alter_ne by congruence. reflexivity.
  - intros Hb. rewrite Hb in Hstock. simpl in Hstock.
    rewrite andb_true_r in Hstock. apply Z.ltb_ge in Hstock.
    subst variant. unfold availableStock in Hstock.
    destruct (truthyS (ci_variantSku item));
      destruct (findVariant product _); exact Hstock.
Qed.

(** ** Cart totals, availability and coupons *)



Lemma cartSubtotal_shift now items :
  fold_left (fun sum item =>
    match sum, linePrice now item with
    | Some s, Some itemPrice => Some (s + itemPrice * inject_Z (pi_quantity item))%Q
    | _, _ => None
    end) items None = None.
Proof. induction items as [|x r IH]; simpl; [reflexivity | exact IH]. Qed.

Lemma cartSubtotal_priced now items s :
  cartSubtotal now items = Some s ->
  Forall (fun item => linePrice now item <> None) items.
Proof.
  unfold cartSubtotal. generalize (Some 0%Q). revert s.
  induction items as [|x r IH]; intros s acc H; [constructor|].
  simpl in H. destruct acc as [a|].
  - destruct (linePrice now x) as [p|] eqn:E.
    + constructor; [congruence | eapply IH; exact H].
    + rewrite (cartSubtotal_shift now r) in H. discriminate.
  - rewrite (cartSubtotal_shift now r) in H. discriminate.
Qed.



Lemma availabilityStep_spec products av item :
  allAvailable (availabilityStep products av item)
  = allAvailable av && covered products item /\
  (Forall (fun n => sn_available n = 0) (outOfStock av) ->
   Forall (fun n => sn_available n = 0)
          (outOfStock (availabilityStep products av item))) /\
  (Forall (fun n => 0 < sn_available n < sn_requested n) (lowStock av) ->
   Forall (fun n => 0 < sn_available n < sn_requested n)
          (lowStock (availabilityStep products av item))) /\
  (length (outOfStock (availabilityStep products av item))
   + length (lowStock (availabilityStep products av item))
   = length (outOfStock av) + length (lowStock av)
     + if covered products item then 0 else 1)%nat.
Proof.
  unfold availabilityStep, covered.
  destruct (products !! ci_product item) as [product|].
  2:{ rewrite andb_true_r. repeat split; auto; lia. }
  destruct (Z.leb_spec (lineStock product item) 0) as [H0|H0].
  - replace (0 <? lineStock product item) with false
      by (symmetry; apply Z.ltb_ge; lia).
    cbn [allAvailable outOfStock lowStock andb]. rewrite andb_false_r.
    repeat split; auto.
    + intros H. apply Forall_app. split; [exact H|]. now repeat constructor.
    + rewrite length_app. simpl. lia.
  - replace (0 <? lineStock product item) with true
      by (symmetry; apply Z.ltb_lt; lia).
    destruct (Z.ltb_spec (lineStock product item) (ci_quantity item)) as [H1|H1].
    + replace (ci_quantity item <=? lineStock product item) with false
        by (symmetry; apply Z.leb_gt; lia).
      cbn [allAvailable outOfStock lowStock andb]. rewrite andb_false_r.
      repeat split; auto.
      * intros H. apply Forall_app. split; [exact H|].
        repeat constructor; simpl; lia.
      * rewrite length_app. simpl. lia.
    + replace (ci_quantity item <=? lineStock product item) with true
        by (symmetry; apply Z.leb_le; lia).
      rewrite andb_true_r. repeat split; auto; simpl; lia.
Qed.

Lemma availability_loop products items av :
  let av' := fold_left (availabilityStep products) items av in
  allAvailable av' = allAvailable av && forallb (covered products) items /\
  (Forall (fun n => sn_available n = 0) (outOfStock av) ->
   Forall (fun n => sn_available n = 0) (outOfStock av')) /\
  (Forall (fun n => 0 < sn_available n < sn_requested n) (lowStock av) ->
   Forall (fun n => 0 < sn_available n < sn_requested n) (lowStock av')) /\
  (length (outOfStock av') + length (lowStock av')
   = length (outOfStock av) + length (lowStock av)
     + length (List.filter (fun item => negb (covered products item)) items))%nat.
Proof.
  revert av. induction items as [|x r IH]; intros av; cbn zeta.
  - simpl. rewrite andb_true_r. repeat split; auto; lia.
  - cbn [fold_left forallb List.filter].
    destruct (IH (availabilityStep products av x)) as (A & B & C & D).
    destruct (availabilityStep_spec products av x) as (A' & B' & C' & D').
    cbn zeta in A, B, C, D.
    rewrite A, A', andb_assoc, D, D'.
    repeat split; auto.
    destruct (covered products x); simpl; lia.
Qed.

(** X15.  [checkCartAvailability] reports the cart as available exactly
    when both of its lists are empty, which is when every line whose product
    still exists has stock, and enough of it; each line without cover gets
    one entry; an out-of-stock entry says 0 available whatever the stock is,
    and a low-stock entry names a positive stock below the requested
    quantity. *)
Theorem cart_availability_report :
  forall (products : gmap N Product) (items : list CartItem),
    let av := checkCartAvailability products items in
    (allAvailable av = true <->
     forall item product,
       In item items -> products !! ci_product item = Some product ->
       0 < lineStock product item /\ ci_quantity item <= lineStock product item) /\
    (allAvailable av = true <-> outOfStock av = [] /\ lowStock av = []) /\
    (length (outOfStock av) + length (lowStock av)
     = length (List.filter (fun item => negb (covered products item)) items))%nat /\
    Forall (fun n => sn_available n = 0) (outOfStock av) /\
    Forall (fun n => 0 < sn_available n < sn_requested n) (lowStock av).
Proof.
  intros products items av.
  destruct (availability_loop products items (mkAvailability true [] []))
    as (A & B & C & D).
  cbn zeta in A, B, C, D. fold (checkCartAvailability products items) in A, B, C, D.
  fold av in A, B, C, D. cbn [allAvailable outOfStock lowStock andb length] in *.
  assert (Hcov : forallb (covered products) items = true <->
                 forall item product,
                   In item items -> products !! ci_product item = Some product ->
                   0 < lineStock product item /\
                   ci_quantity item <= lineStock product item).
  { rewrite forallb_forall. unfold covered. split.
    - intros H item product Hin Hp. specialize (H item Hin). rewrite Hp in H.
      apply andb_true_iff in H as [H1 H2].
      apply Z.ltb_lt in H1. apply Z.leb_le in H2. now split.
    - intros H item Hin.
      destruct (products !! ci_product item) as [product|] eqn:Hp; [|reflexivity].
      destruct (H item product Hin Hp) as [H1 H2].
      apply andb_true_iff. split; [now apply Z.ltb_lt | now apply Z.leb_le]. }
  split; [rewrite A; exact Hcov|].
  split.
  { rewrite A. split.
    - intros H.
      assert (L : length (List.filter (fun item => negb (covered products item)) items)
                  = 0%nat).
      { clear -H. induction items as [|x r IH]; [reflexivity|].
        simpl in H. apply andb_true_iff in H as [H1 H2].
        simpl. rewrite H1. simpl. now apply IH. }
      rewrite L in D. split; apply length_zero_iff_nil; lia.
    - intros [H1 H2]. rewrite H1, H2 in D. simpl in D.
      clear -D. induction items as [|x r IH]; [reflexivity|].
      simpl in D |- *. destruct (covered products x); simpl in D |- *;
        [apply IH; exact D | discriminate]. }
  split; [exact D|]. split; [apply B | apply C]; constructor.
Qed.

(** A code in upper case is never the name of an inherited member. *)
Lemma upper_case_not_inherited code :
  includes inheritedKeys (toUpperCase code) = false.
Proof.
  destruct (includes inheritedKeys (toUpperCase code)) eqn:E; [|reflexivity].
  apply includes_In in E. pose proof (toUpperCase_idempotent code) as I.
  simpl in E.
  repeat (destruct E as [E|E]; [rewrite <- E in I; vm_compute in I; discriminate|]).
  destruct E.
Qed.

Lemma cartCoupons_entry k c :
  In (k, c) cartCoupons ->
  cc_code c = k /\ (0 <= cc_minPurchase c)%Q /\
  (c = mkCartCoupon "WELCOME10" "percentage" 10 0 \/
   c = mkCartCoupon "SAVE20" "fixed" 20 (100 # 1) \/
   c = mkCartCoupon "FREESHIP" "shipping" 100 0).
Proof.
  intros [E | [E | [E | [] ] ] ]; injection E as Ek Ec; subst k c;
    cbn [cc_code cc_minPurchase];
    (split; [reflexivity|]); (split; [lra|]); auto.
Qed.

Lemma calculateDiscount_range c k subtotal :
  In (k, c) cartCoupons ->
  (0 <= calculateDiscount c subtotal)%Q /\
  (calculateDiscount c subtotal <= Qmax 0 subtotal)%Q /\
  (subtotal < cc_minPurchase c -> calculateDiscount c subtotal == 0)%Q.
Proof.
  intros Hin. destruct (cartCoupons_entry k c Hin) as (_ & _ & Hc).
  pose proof (Q.le_max_l 0 subtotal) as M0.
  pose proof (Q.le_max_r 0 subtotal) as M1.
  unfold calculateDiscount.
  destruct (Qle_bool (cc_minPurchase c) subtotal) eqn:Hmin; simpl.
  2:{ repeat split; try lra. }
  apply Qle_bool_iff in Hmin.
  destruct Hc as [-> | [-> | ->] ]; cbn [cc_discountType cc_value cc_minPurchase] in *.
  - change (String.eqb "percentage" "percentage") with true. cbv iota.
    assert (E : (subtotal * (10 / 100) == subtotal * (1 # 10))%Q) by field.
    rewrite E. repeat split; lra.
  - change (String.eqb "fixed" "percentage") with false.
    change (String.eqb "fixed" "fixed") with true. cbv iota.
    rewrite MathMin_Qmin.
    pose proof (Q.le_min_r 20 subtotal) as m1.
    destruct (Q.min_spec 20 subtotal) as [[_ E]|[_ E]]; rewrite E in *;
      repeat split; lra.
  - change (String.eqb "shipping" "percentage") with false.
    change (String.eqb "shipping" "fixed") with false.
    change (String.eqb "shipping" "shipping") with true. cbv iota.
    repeat split; lra.
Qed.

Lemma linePrice_unpopulated now item :
  linePrice now (unpopulated item) <> None -> truthyQ (ci_price item) = true.
Proof.
  unfold linePrice, unpopulated. cbn [pi_price pi_product].
  destruct (truthyQ (ci_price item)); [reflexivity | congruence].
Qed.

(** X16.  A coupon the cart accepts is one of the three of the table, found
    under the code in upper case, and is recorded with the table's code and
    type: an inherited member of the table is never taken for a coupon.
    The cart has lines and each of them carries a stored price that is not
    0.  The discount is computed on the rounded subtotal, lies between 0
    and that subtotal, and is 0 - the coupon being accepted all the same -
    when the subtotal is below the coupon's minimum purchase. *)
Theorem cart_coupon_accepted :
  forall (now : Z) (couponCode : option string)
         (cart : option (list CartItem)) (a : AppliedCoupon),
    applyCartCoupon now couponCode cart = inr a ->
    exists code items coupon totals,
      couponCode = Some code /\ code <> "" /\
      cart = Some items /\ items <> [] /\
      In (toUpperCase code, coupon) cartCoupons /\
      ac_code a = Some (toUpperCase code) /\
      ac_type a = Some (cc_discountType coupon) /\
      Forall (fun item => truthyQ (ci_price item) = true) items /\
      calculateCartTotals now (map unpopulated items) 0 = Some totals /\
      ac_discount a = calculateDiscount coupon (ct_subtotal totals) /\
      (0 <= ac_discount a)%Q /\
      (ac_discount a <= Qmax 0 (ct_subtotal totals))%Q /\
      (ct_subtotal totals < cc_minPurchase coupon -> ac_discount a == 0)%Q.
Proof.
  intros now couponCode cart a H. unfold applyCartCoupon in H.
  destruct couponCode as [code|]; [|discriminate].
  simpl in H. destruct (String.eqb_spec code "") as [E|E]; [discriminate|].
  simpl in H. destruct cart as [[|x r]|]; try discriminate.
  set (items := x :: r) in *.
  unfold validateCoupon in H.
  destruct (objectGet cartCoupons (toUpperCase code)) as [coupon| |] eqn:G.
  - destruct (calculateCartTotals now (map unpopulated items) 0)
      as [totals|] eqn:T; [|discriminate].
    injection H as <-. apply objectGet_Own in G.
    destruct (cartCoupons_entry _ _ G) as (Hcode & _ & _).
    destruct (calculateDiscount_range coupon _ (ct_subtotal totals) G)
      as (D0 & D1 & D2).
    exists code, items, coupon, totals.
    cbn [ac_code ac_type ac_discount]. rewrite Hcode.
    repeat split; try assumption; try reflexivity; try discriminate.
    unfold calculateCartTotals in T.
    destruct (cartSubtotal now (map unpopulated items)) as [s|] eqn:S;
      [|discriminate].
    apply cartSubtotal_priced in S. apply Forall_forall. intros item Hin.
    rewrite Forall_forall in S. apply (linePrice_unpopulated now).
    apply S. apply list_elem_of_In, in_map, list_elem_of_In. exact Hin.
  - apply objectGet_inherited in G.
    rewrite upper_case_not_inherited in G. discriminate.
  - discriminate.
Qed.

Lemma cart_coupon_accepted_witness :
  exists code items coupon totals,
    Some "save20" = Some code /\ code <> "" /\
    Some [mkCartItem 1 7 Undefined 2 (Some (45 # 1))] = Some items /\ items <> [] /\
    In (toUpperCase code, coupon) cartCoupons /\
    Some "SAVE20" = Some (toUpperCase code) /\
    Some "fixed" = Some (cc_discountType coupon) /\
    Forall (fun item => truthyQ (ci_price item) = true) items /\
    calculateCartTotals 0 (map unpopulated items) 0 = Some totals /\
    0%Q = calculateDiscount coupon (ct_subtotal totals) /\
    (0 <= 0)%Q /\
    (0 <= Qmax 0 (ct_subtotal totals))%Q /\
    (ct_subtotal totals < cc_minPurchase coupon -> 0 == 0)%Q.
Proof.
  exact (cart_coupon_accepted 0 (Some "save20")
           (Some [mkCartItem 1 7 Undefined 2 (Some (45 # 1))])
           (mkAppliedCoupon (Some "SAVE20") 0 (Some "fixed")) eq_refl).
Defined.

Lemma addToCart_keeps_lines_distinct_witness :
  itemCount [mkCartItem 1 1 (Str "TS-RED") 3 (Some (10 # 1))] = 1 + 2 /\
  NoDup (map lineKey [mkCartItem 1 1 (Str "TS-RED") 3 (Some (10 # 1))]).
Proof.
  destruct (addToCart_keeps_lines_distinct hexId readHexId 0 catalog
              (Some [mkCartItem 1 1 (Str "TS-RED") 1 (Some (10 # 1))])
              (Some "0x1") (Str "TS-RED") 2 9
              [mkCartItem 1 1 (Str "TS-RED") 3 (Some (10 # 1))] eq_refl)
    as (_ & H1 & _ & s & pid & Hs & _ & Hc & _ & H2).
  split; [exact H1|].
  injection Hs as <-. injection Hc as <-.
  apply (proj1 (H2 eq_refl)). simpl. apply NoDup_singleton.
Defined.

Lemma updateCartItem_sets_one_quantity_witness :
  exists items i item product,
    Some [mkCartItem 1 1 (Str "TS-RED") 1 (Some (10 # 1))] = Some items /\
    items !! i = Some item /\ ci_id item = 1%N /\
    catalog !! ci_product item = Some product /\
    0 < 3 /\
    [mkCartItem 1 1 (Str "TS-RED") 3 (Some (10 # 1))] !! i
    = Some (setQuantity 3 item).
Proof.
  destruct (updateCartItem_sets_one_quantity catalog
              (Some [mkCartItem 1 1 (Str "TS-RED") 1 (Some (10 # 1))])
              1%N 3 [mkCartItem 1 1 (Str "TS-RED") 3 (Some (10 # 1))] eq_refl)
    as (items & i & item & product & H1 & H2 & H3 & H4 & H5 & H6 & _).
  exists items, i, item, product. repeat split; assumption.
Defined.

(** ** Votes and reports *)

Lemma existsb_eqb_In u l : existsb (N.eqb u) l = true <-> In u l.
Proof.
  rewrite existsb_exists. split.
  - intros (x & Hx & E). apply N.eqb_eq in E. now subst.
  - intros H. exists u. split; [exact H | apply N.eqb_refl].
Qed.

Lemma firstVote_cons x u b votes :
  firstVote x ((u, b) :: votes)
  = if N.eqb u x then Some b else firstVote x votes.
Proof. unfold firstVote. simpl. now destruct (N.eqb u x). Qed.

(** One vote request: a user who voted before changes nothing; another is
    appended to the list of the side voted for. *)
Lemma castVote_spec r u b :
  (In u (helpfulVotes r ++ unhelpfulVotes r) /\ castVote r (u, b) = r) \/
  (~ In u (helpfulVotes r ++ unhelpfulVotes r) /\
   castVote r (u, b)
   = if b
     then setVotes r (helpfulCount r + 1) (unhelpfulCount r)
                   (helpfulVotes r ++ [u]) (unhelpfulVotes r)
     else setVotes r (helpfulCount r) (unhelpfulCount r + 1)
                   (helpfulVotes r) (unhelpfulVotes r ++ [u])).
Proof.
  unfold castVote, markHelpful. cbn [fst snd].
  destruct (existsb (N.eqb u) (helpfulVotes r)) eqn:H1; simpl.
  { left. split; [|reflexivity]. apply in_or_app. left.
    now apply existsb_eqb_In. }
  destruct (existsb (N.eqb u) (unhelpfulVotes r)) eqn:H2; simpl.
  { left. split; [|reflexivity]. apply in_or_app. right.
    now apply existsb_eqb_In. }
  right. split; [|now destruct b].
  intros H. apply in_app_or in H as [H|H]; apply existsb_eqb_In in H; congruence.
Qed.

Lemma NoDup_snoc_side (hv uv : list N) u :
  NoDup (hv ++ uv) -> ~ In u (hv ++ uv) ->
  NoDup ((hv ++ [u]) ++ uv) /\ NoDup (hv ++ (uv ++ [u])).
Proof.
  intros Hnd Hu.
  assert (Hc : NoDup (u :: (hv ++ uv))).
  { apply NoDup_cons. split; [|exact Hnd]. now rewrite list_elem_of_In. }
  split.
  - assert (P : (hv ++ [u]) ++ uv ≡ₚ u :: (hv ++ uv)).
    { rewrite <- app_assoc. simpl. symmetry. apply Permutation_middle. }
    now rewrite P.
  - assert (P : hv ++ (uv ++ [u]) ≡ₚ u :: (hv ++ uv)).
    { rewrite app_assoc. symmetry. apply Permutation_cons_append. }
    now rewrite P.
Qed.

Lemma votes_loop votes r :
  NoDup (helpfulVotes r ++ unhelpfulVotes r) ->
  let r' := fold_left castVote votes r in
  NoDup (helpfulVotes r' ++ unhelpfulVotes r') /\
  helpfulCount r' - Z.of_nat (length (helpfulVotes r'))
  = helpfulCount r - Z.of_nat (length (helpfulVotes r)) /\
  unhelpfulCount r' - Z.of_nat (length (unhelpfulVotes r'))
  = unhelpfulCount r - Z.of_nat (length (unhelpfulVotes r)) /\
  (forall x, In x (helpfulVotes r') <->
             In x (helpfulVotes r) \/
             (~ In x (helpfulVotes r ++ unhelpfulVotes r) /\
              firstVote x votes = Some true)) /\
  (forall x, In x (unhelpfulVotes r') <->
             In x (unhelpfulVotes r) \/
             (~ In x (helpfulVotes r ++ unhelpfulVotes r) /\
              firstVote x votes = Some false)) /\
  doc_review r' = doc_review r /\ reports r' = reports r.
Proof.
  revert r. induction votes as [|[u b] votes IH]; intros r Hnd; cbn zeta.
  - simpl. repeat split; auto; try tauto.
    + intros [H|[_ H]]; [exact H | discriminate].
    + intros [H|[_ H]]; [exact H | discriminate].
  - cbn [fold_left].
    destruct (castVote_spec r u b) as [[Hin E]|[Hout E]]; rewrite E; clear E.
    + destruct (IH r Hnd) as (A & B & C & D & F & G & I). cbn zeta in *.
      repeat split; try assumption.
      * intros H. apply D in H as [H|[H1 H2]]; [now left|]. right.
        split; [exact H1|]. rewrite firstVote_cons.
        destruct (N.eqb_spec u x) as [->|_]; [contradiction | exact H2].
      * intros [H|[H1 H2]]; apply D; [now left|]. right. split; [exact H1|].
        rewrite firstVote_cons in H2.
        destruct (N.eqb_spec u x) as [->|_]; [contradiction | exact H2].
      * intros H. apply F in H as [H|[H1 H2]]; [now left|]. right.
        split; [exact H1|]. rewrite firstVote_cons.
        destruct (N.eqb_spec u x) as [->|_]; [contradiction | exact H2].
      * intros [H|[H1 H2]]; apply F; [now left|]. right. split; [exact H1|].
        rewrite firstVote_cons in H2.
        destruct (N.eqb_spec u x) as [->|_]; [contradiction | exact H2].
    + destruct (NoDup_snoc_side _ _ u Hnd Hout) as [Nh Nu].
      destruct b.
      * match goal with |- context [fold_left castVote votes ?r1] =>
          destruct (IH r1) as (A & B & C & D & F & G & I); [exact Nh|] end.
        cbn zeta in *. cbn [setVotes helpfulVotes unhelpfulVotes helpfulCount
                            unhelpfulCount doc_review reports] in *.
        rewrite length_app in B. simpl in B.
        repeat split; try assumption; try lia.
        -- intros H. apply D in H. rewrite firstVote_cons.
           destruct (N.eqb_spec u x) as [->|Hne].
           ++ right. now split.
           ++ rewrite !in_app_iff in *. simpl in *. intuition congruence.
        -- intros H. apply D. rewrite firstVote_cons in H.
           destruct (N.eqb_spec u x) as [->|Hne].
           ++ left. apply in_or_app. right. now left.
           ++ rewrite !in_app_iff in *. simpl in *. intuition congruence.
        -- intros H. apply F in H. rewrite firstVote_cons.
           destruct (N.eqb_spec u x) as [->|Hne].
           ++ rewrite !in_app_iff in *. simpl in *. intuition congruence.
           ++ rewrite !in_app_iff in *. simpl in *. intuition congruence.
        -- intros H. apply F. rewrite firstVote_cons in H.
           destruct (N.eqb_spec u x) as [->|Hne].
           ++ rewrite !in_app_iff in *. simpl in *. intuition congruence.
           ++ rewrite !in_app_iff in *. simpl in *. intuition congruence.
      * match goal with |- context [fold_left castVote votes ?r1] =>
          destruct (IH r1) as (A & B & C & D & F & G & I); [exact Nu|] end.
        cbn zeta in *. cbn [setVotes helpfulVotes unhelpfulVotes helpfulCount
                            unhelpfulCount doc_review reports] in *.
        rewrite length_app in C. simpl in C.
        repeat split; try assumption; try lia.
        -- intros H. apply D in H. rewrite firstVote_cons.
           destruct (N.eqb_spec u x) as [->|Hne].
           ++ rewrite !in_app_iff in *. simpl in *. intuition congruence.
           ++ rewrite !in_app_iff in *. simpl in *. intuition congruence.
        -- intros H. apply D. rewrite firstVote_cons in H.
           destruct (N.eqb_spec u x) as [->|Hne].
           ++ rewrite !in_app_iff in *. simpl in *. intuition congruence.
           ++ rewrite !in_app_iff in *. simpl in *. intuition congruence.
        -- intros H. apply F in H. rewrite firstVote_cons.
           destruct (N.eqb_spec u x) as [->|Hne].
           ++ right. now split.
           ++ rewrite !in_app_iff in *. simpl in *. intuition congruence.
        -- intros H. apply F. rewrite firstVote_cons in H.
           destruct (N.eqb_spec u x) as [->|Hne].
           ++ left. apply in_or_app. right. now left.
           ++ rewrite !in_app_iff in *. simpl in *. intuition congruence.
Qed.

(** X17.  A user's first vote on a review stands.  After any run of
    [markHelpful] requests on a review without votes, no user is counted
    twice or on both sides, each counter is the length of its list of
    voters, and a user is among the helpful (unhelpful) voters exactly when
    the first vote of that user in the run was helpful (unhelpful); the
    review itself and its reports are untouched. *)
Theorem first_vote_stands :
  forall (votes : list (ObjectId * bool)) (r : ReviewDoc),
    helpfulVotes r = [] -> unhelpfulVotes r = [] ->
    helpfulCount r = 0 -> unhelpfulCount r = 0 ->
    let r' := fold_left castVote votes r in
    NoDup (helpfulVotes r' ++ unhelpfulVotes r') /\
    helpfulCount r' = Z.of_nat (length (helpfulVotes r')) /\
    unhelpfulCount r' = Z.of_nat (length (unhelpfulVotes r')) /\
    (forall x, In x (helpfulVotes r') <-> firstVote x votes = Some true) /\
    (forall x, In x (unhelpfulVotes r') <-> firstVote x votes = Some false) /\
    doc_review r' = doc_review r /\ reports r' = reports r.
Proof.
  intros votes r Hh Hu Hc Hd.
  destruct (votes_loop votes r) as (A & B & C & D & F & G & I).
  { rewrite Hh, Hu. constructor. }
  cbn zeta in *. rewrite Hh, Hu, ?Hc, ?Hd in *. simpl in *.
  repeat split; try assumption; try lia.
  - intros H. apply D in H. tauto.
  - intros H. apply D. tauto.
  - intros H. apply F in H. tauto.
  - intros H. apply F. tauto.
Qed.

Lemma first_vote_stands_witness :
  let r' := fold_left castVote [(7%N, true); (8%N, false); (7%N, false)]
              (mkReviewDoc (mkReview 1 9 1 "approved" 5) "" true 0 0 [] [] []) in
  helpfulCount r' = Z.of_nat (length (helpfulVotes r')) /\
  (In 7%N (helpfulVotes r')
   <-> firstVote 7%N [(7%N, true); (8%N, false); (7%N, false)] = Some true).
Proof.
  destruct (first_vote_stands [(7%N, true); (8%N, false); (7%N, false)]
              (mkReviewDoc (mkReview 1 9 1 "approved" 5) "" true 0 0 [] [] [])
              eq_refl eq_refl eq_refl eq_refl) as (_ & H1 & _ & H2 & _).
  split; [exact H1 | exact (H2 7%N)].
Defined.

Lemma existsb_reporter u l :
  existsb (fun rep => N.eqb (report_user rep) u) l = true
  <-> In u (map report_user l).
Proof.
  rewrite existsb_exists, in_map_iff. split.
  - intros (x & Hx & E). apply N.eqb_eq in E. now exists x.
  - intros (x & E & Hx). exists x. split; [exact Hx | now apply N.eqb_eq].
Qed.

(** One report request: it is stored only with a reason and from a user who
    has not reported the review. *)
Lemma fileReport_spec r u reason details :
  (fileReport r (u, reason, details) = r) \/
  (~ In u (map report_user (reports r)) /\
   reports (fileReport r (u, reason, details))
   = (reports r ++ [mkReport u (default "" reason) (default "" details)])%list /\
   doc_review (fileReport r (u, reason, details))
   = (if (3 <=? S (length (reports r)))%nat
      then setReviewStatus (doc_review r) "flagged" else doc_review r) /\
   helpfulVotes (fileReport r (u, reason, details)) = helpfulVotes r /\
   unhelpfulVotes (fileReport r (u, reason, details)) = unhelpfulVotes r).
Proof.
  unfold fileReport, reportReview. cbn [fst snd].
  destruct (truthyS reason); simpl; [|now left].
  destruct (existsb _ (reports r)) eqn:E; [now left|].
  right. cbn [reports doc_review helpfulVotes unhelpfulVotes].
  rewrite length_app. simpl. rewrite Nat.add_1_r.
  repeat split; try reflexivity.
  intros H. apply existsb_reporter in H. congruence.
Qed.

Lemma reports_loop requests r :
  NoDup (map report_user (reports r)) ->
  let r' := fold_left fileReport requests r in
  NoDup (map report_user (reports r')) /\
  (length (reports r) <= length (reports r')
   <= length (reports r) + length requests)%nat /\
  (review_status (doc_review r') = "flagged" <->
   review_status (doc_review r) = "flagged" \/
   (length (reports r) < length (reports r') /\ 3 <= length (reports r'))%nat) /\
  (length (reports r') = length (reports r) -> doc_review r' = doc_review r).
Proof.
  revert r. induction requests as [|[[u reason] details] requests IH];
    intros r Hnd; cbn zeta.
  - simpl. repeat split; auto; try lia. intros [H|H]; [exact H | lia].
  - cbn [fold_left length].
    destruct (fileReport_spec r u reason details) as [E|(Hout & Er & Ed & _)].
    + rewrite E. destruct (IH r Hnd) as (A & B & C & D). cbn zeta in *.
      split; [exact A|]. split; [lia|]. split; [exact C | exact D].
    + set (r1 := fileReport r (u, reason, details)) in *.
      assert (Hnd1 : NoDup (map report_user (reports r1))).
      { rewrite Er, map_app. simpl. apply NoDup_app. split; [exact Hnd|].
        split; [|apply NoDup_singleton].
        intros x Hx Hx'. apply list_elem_of_In in Hx, Hx'.
        destruct Hx' as [<-|[]]. contradiction. }
      destruct (IH r1 Hnd1) as (A & B & C & D). cbn zeta in *.
      assert (L : length (reports r1) = S (length (reports r))).
      { rewrite Er, length_app. simpl. lia. }
      rewrite L in *.
      assert (S1 : review_status (doc_review r1) = "flagged" <->
                   review_status (doc_review r) = "flagged" \/
                   (3 <= S (length (reports r)))%nat).
      { rewrite Ed. destruct (Nat.leb_spec 3 (S (length (reports r)))) as [H|H].
        - simpl. split; [intros _; now right | reflexivity].
        - split; [now left | intros [H'|H']; [exact H' | lia]]. }
      split; [exact A|]. split; [lia|]. split; [split|intros H; lia].
      * intros H. apply C in H as [H|H]; [|right; lia].
        apply S1 in H as [H|H]; [now left | right; lia].
      * intros [H|H]; apply C.
        -- left. apply S1. now left.
        -- destruct (Nat.leb_spec 3 (S (length (reports r)))) as [H3|H3].
           ++ left. apply S1. now right.
           ++ right. lia.
Qed.

(** X18.  Reports are one per user, and the third one flags the review.
    After any run of [reportReview] requests on a review without reports, no
    user has two reports stored; the review is flagged exactly when it was
    flagged before or holds three reports or more, and with no report stored
    the review is as it was. *)
Theorem third_report_flags :
  forall (requests : list (ObjectId * option string * option string))
         (r : ReviewDoc),
    reports r = [] ->
    let r' := fold_left fileReport requests r in
    NoDup (map report_user (reports r')) /\
    (length (reports r') <= length requests)%nat /\
    (review_status (doc_review r') = "flagged" <->
     review_status (doc_review r) = "flagged" \/ (3 <= length (reports r'))%nat) /\
    (reports r' = [] -> doc_review r' = doc_review r).
Proof.
  intros requests r Hr.
  destruct (reports_loop requests r) as (A & B & C & D).
  { rewrite Hr. constructor. }
  cbn zeta in *. rewrite Hr in *. simpl in *.
  split; [exact A|]. split; [lia|]. split; [split|].
  - intros H. apply C in H. destruct H as [H|H]; [now left | right; lia].
  - intros [H|H]; apply C; [now left | right; lia].
  - intros H. apply D. now rewrite H.
Qed.

Lemma third_report_flags_witness :
  let r' := fold_left fileReport
              [(7%N, Some "spam", None); (7%N, Some "again", None);
               (8%N, None, None); (8%N, Some "rude", Some "see title");
               (9%N, Some "spam", None)]
              (mkReviewDoc (mkReview 1 5 1 "approved" 5) "" true 0 0 [] [] []) in
  (length (reports r') <= 5)%nat /\
  (review_status (doc_review r') = "flagged" <->
   "approved" = "flagged" \/ (3 <= length (reports r'))%nat).
Proof.
  destruct (third_report_flags
              [(7%N, Some "spam", None); (7%N, Some "again", None);
               (8%N, None, None); (8%N, Some "rude", Some "see title");
               (9%N, Some "spam", None)]
              (mkReviewDoc (mkReview 1 5 1 "approved" 5) "" true 0 0 [] [] [])
              eq_refl) as (_ & H1 & H2 & _).
  split; [exact H1 | exact H2].
Defined.

(** ** New and edited reviews *)

Lemma reviewOf_None reviews u p :
  reviewOf reviews u p = None <->
  ~ In (u, p) (map (fun r => (review_user r, review_product r)) reviews).
Proof.
  unfold reviewOf. split.
  - intros H Hin. apply in_map_iff in Hin as (r & E & Hr).
    injection E as Eu Ep.
    pose proof (find_none _ _ H r Hr) as F. simpl in F.
    rewrite Eu, Ep, !N.eqb_refl in F. discriminate.
  - intros H. apply find_all_false. intros r Hr.
    destruct (N.eqb_spec (review_user r) u) as [Eu|Eu]; [|reflexivity].
    destruct (N.eqb_spec (review_product r) p) as [Ep|Ep]; [|reflexivity].
    exfalso. apply H. apply in_map_iff. exists r. now rewrite Eu, Ep.
Qed.

Lemma approvedReviews_app l1 l2 pid :
  approvedReviews (l1 ++ l2) pid
  = (approvedReviews l1 pid ++ approvedReviews l2 pid)%list.
Proof. unfold approvedReviews. apply List.filter_app. Qed.

Lemma parseInt_range q :
  (1 <= q)%Q -> (q <= 5)%Q ->
  1 <= Qfloor q <= 5 /\ (inject_Z (Qfloor q) <= q)%Q /\
  (q < inject_Z (Qfloor q) + 1)%Q.
Proof.
  intros H1 H5.
  pose proof (Qfloor_le q) as Hlo. pose proof (Qlt_floor q) as Hhi.
  rewrite inject_Z_plus in Hhi. change (inject_Z 1) with 1%Q in Hhi.
  split; [|now split]. split.
  - change 1 with (Qfloor 1). now apply Qfloor_resp_le.
  - change 5 with (Qfloor 5). now apply Qfloor_resp_le.
Qed.

(** X19.  [createReview] stores a review only for a product that exists
    and that the user has not reviewed: a call never adds a second review of
    a product for a user, so a store in which no user holds two reviews of
    one product is such a store after the call (what [updateReview] does to
    such a store is another matter).  The review is appended as pending -
    the approved reviews of every product, which the rating is computed
    from, stay as they are - with a whole rating from 1 to 5 (the given
    rating cut down to an integer) and a comment that passed the length
    check; it is marked as a verified purchase exactly when a delivered
    order of the user holds the product, which is not required. *)
Theorem createReview_pending_and_unique :
  forall (products : gmap N Product) (orders : list Order)
         (reviews : list Review) (userId productId : ObjectId)
         (rating : option Q) (comment : option string) (newId : ObjectId)
         (doc : ReviewDoc) (reviews' : list Review),
    createReview products orders reviews userId productId rating comment newId
    = inr (doc, reviews') ->
    is_Some (products !! productId) /\
    reviews' = (reviews ++ [doc_review doc])%list /\
    review_user (doc_review doc) = userId /\
    review_product (doc_review doc) = productId /\
    review_status (doc_review doc) = "pending" /\
    (exists q, rating = Some q /\
               1 <= review_rating (doc_review doc) <= 5 /\
               (inject_Z (review_rating (doc_review doc)) <= q
                < inject_Z (review_rating (doc_review doc)) + 1)%Q) /\
    reviewOf reviews userId productId = None /\
    commentTooShort comment = false /\
    doc_comment doc = trim (default "" comment) /\
    verifiedPurchase doc = hasPurchased orders userId productId /\
    (forall pid, approvedReviews reviews' pid = approvedReviews reviews pid) /\
    (oneReviewEach reviews -> oneReviewEach reviews').
Proof.
  intros products orders reviews userId productId rating comment newId doc
         reviews' H.
  unfold createReview in H.
  destruct rating as [q|]; [|discriminate]. cbn [truthyQ orZero] in H.
  destruct (Qeq_bool q 0) eqn:Hz; [discriminate|]. cbn [negb orb] in H.
  destruct (Qle_bool 1 q) eqn:H1; [|discriminate].
  destruct (Qle_bool q 5) eqn:H5; [|discriminate]. cbn [negb orb] in H.
  apply Qle_bool_iff in H1, H5.
  destruct (commentTooShort comment) eqn:Hc; [discriminate|].
  destruct (products !! productId) as [product|] eqn:Hp; [|discriminate].
  destruct (reviewOf reviews userId productId) eqn:Hr; [discriminate|].
  injection H as <- <-.
  cbn [doc_review doc_comment verifiedPurchase review_user review_product
       review_status review_rating].
  destruct (parseInt_range q H1 H5) as (R1 & R2 & R3).
  split; [eauto|]. repeat (split; [reflexivity|]).
  split; [exists q; repeat split; try assumption; lia|].
  split; [reflexivity|]. split; [reflexivity|]. split; [reflexivity|].
  split; [reflexivity|]. split.
  - intros pid. rewrite approvedReviews_app. unfold approvedReviews at 2.
    simpl. rewrite andb_false_r. apply app_nil_r.
  - unfold oneReviewEach. intros Hnd. rewrite map_app. simpl.
    apply NoDup_app. split; [exact Hnd|]. split; [|apply NoDup_singleton].
    intros x Hx Hx'. apply list_elem_of_In in Hx, Hx'.
    destruct Hx' as [<-|[]]. apply reviewOf_None in Hr. contradiction.
Qed.

Lemma createReview_pending_and_unique_witness :
  is_Some (catalog !! 1%N) /\
  (forall pid,
      approvedReviews (reviewQueue ++ [mkReview 5 6 1 "pending" 4]) pid
      = approvedReviews reviewQueue pid).
Proof.
  destruct (createReview_pending_and_unique catalog [] reviewQueue 6%N 1%N
              (Some (9 # 2)) (Some "  fits well, washes well ") 5%N
              (mkReviewDoc (mkReview 5 6 1 "pending" 4)
                           "fits well, washes well" false 0 0 [] [] [])
              (reviewQueue ++ [mkReview 5 6 1 "pending" 4])%list eq_refl)
    as (H1 & _ & _ & _ & _ & _ & _ & _ & _ & _ & H2 & _).
  split; [exact H1 | exact H2].
Defined.

(** X20.  [canReviewProduct] and [createReview] agree: for a rating from 1
    to 5 and a comment that is long enough, the review is accepted exactly
    when [canReviewProduct] answers that the user can review the product -
    with or without a purchase. *)
Theorem canReview_agrees_with_createReview :
  forall (products : gmap N Product) (orders : list Order)
         (reviews : list Review) (userId productId : ObjectId)
         (q : Q) (comment : option string) (newId : ObjectId),
    (1 <= q)%Q -> (q <= 5)%Q -> commentTooShort comment = false ->
    ((exists created,
         createReview products orders reviews userId productId (Some q)
                      comment newId = inr created) <->
     (exists answer,
         canReviewProduct products orders reviews userId productId = inr answer /\
         canReview answer = true)).
Proof.
  intros products orders reviews userId productId q comment newId H1 H5 Hc.
  unfold createReview, canReviewProduct. cbn [truthyQ orZero].
  assert (Hz : Qeq_bool q 0 = false).
  { destruct (Qeq_bool q 0) eqn:E; [|reflexivity].
    apply Qeq_bool_iff in E. lra. }
  rewrite Hz. apply Qle_bool_iff in H1, H5. rewrite H1, H5, Hc.
  cbn [negb orb].
  destruct (products !! productId).
  - destruct (reviewOf reviews userId productId).
    + split; [intros [c Hx]; discriminate|].
      intros (a & Ha & Hcan). injection Ha as <-. discriminate.
    + split; intros _; eexists; [split|]; reflexivity.
  - split; [intros [c Hx]; discriminate | intros (a & Ha & _); discriminate].
Qed.

Lemma canReview_agrees_with_createReview_witness :
  (exists created,
      createReview catalog [] reviewQueue 6%N 1%N (Some (9 # 2))
                   (Some "  fits well, washes well ") 5%N = inr created) <->
  (exists answer,
      canReviewProduct catalog [] reviewQueue 6%N 1%N = inr answer /\
      canReview answer = true).
Proof.
  apply canReview_agrees_with_createReview; [lra | lra | reflexivity].
Defined.

Lemma saveReview_absent r reviews :
  ~ In (review_id r) (map review_id reviews) -> saveReview r reviews = reviews.
Proof.
  unfold saveReview. induction reviews as [|x rest IH]; intros H; [reflexivity|].
  simpl. destruct (N.eqb_spec (review_id x) (review_id r)) as [E|E].
  - exfalso. apply H. now left.
  - f_equal. apply IH. intros C. apply H. now right.
Qed.

Lemma saveReview_other_ids r reviews pid :
  NoDup (map review_id reviews) ->
  forall old,
    In old reviews -> review_id old = review_id r ->
    String.eqb (review_status old) "approved" = false ->
    String.eqb (review_status r) "approved" = false ->
    approvedReviews (saveReview r reviews) pid = approvedReviews reviews pid.
Proof.
  intros Hnd old Hin Hid Hold Hnew.
  induction reviews as [|x rest IH]; [reflexivity|].
  simpl in Hnd. apply NoDup_cons in Hnd as [Hx Hrest].
  rewrite list_elem_of_In in Hx.
  change (saveReview r (x :: rest))
    with ((if N.eqb (review_id x) (review_id r) then r else x)
          :: saveReview r rest).
  destruct (N.eqb_spec (review_id x) (review_id r)) as [E|E].
  - assert (x = old).
    { destruct Hin as [Hin|Hin]; [exact Hin|]. exfalso. apply Hx.
      apply in_map_iff. exists old. split; [congruence|exact Hin]. }
    subst x. rewrite saveReview_absent by (rewrite <- Hid; exact Hx).
    unfold approvedReviews. simpl. now rewrite Hold, Hnew, !andb_false_r.
  - destruct Hin as [Hin|Hin]; [subst x; contradiction|].
    unfold approvedReviews in *. simpl.
    destruct (_ && _); [f_equal|]; now apply IH.
Qed.

(** X21.  [updateReview] never edits an approved review and always leaves
    the edited one pending under its old id, so with distinct review ids the
    approved reviews of every product - and with them what the stored rating
    is computed from - are the same before and after, whatever fields the
    body names. *)
Theorem updateReview_keeps_approved_reviews :
  forall (reviews : list Review) (userId reviewId : ObjectId)
         (updates : ReviewUpdates) (review' : Review) (reviews' : list Review),
    NoDup (map review_id reviews) ->
    updateReview reviews userId reviewId updates = inr (review', reviews') ->
    (exists old, In old reviews /\ review_id old = reviewId /\
                 review_user old = userId /\
                 review_status old <> "approved") /\
    review_id review' = reviewId /\
    review_status review' = "pending" /\
    length reviews' = length reviews /\
    (forall pid, approvedReviews reviews' pid = approvedReviews reviews pid).
Proof.
  intros reviews userId reviewId updates review' reviews' Hnd H.
  unfold updateReview in H.
  destruct (List.find _ reviews) as [old|] eqn:F; [|discriminate].
  apply find_some in F as [Hin Hid]. apply andb_true_iff in Hid as [Hid Hu].
  apply N.eqb_eq in Hid, Hu.
  destruct (String.eqb_spec (review_status old) "approved") as [Ha|Ha];
    [discriminate|].
  destruct (_ && _); [discriminate|].
  destruct (_ && _); [discriminate|].
  injection H as <- <-.
  split; [exists old; repeat split; assumption|].
  split; [exact Hid|]. split; [reflexivity|].
  split; [unfold saveReview; apply length_map|].
  intros pid. apply (saveReview_other_ids _ reviews pid Hnd old Hin).
  - simpl. congruence.
  - now apply String.eqb_neq.
  - reflexivity.
Qed.

Lemma updateReview_keeps_approved_reviews_witness :
  approvedReviews
    [mkReview 1%N 7%N 1%N "approved" 5; mkReview 2%N 8%N 2%N "pending" 2;
     mkReview 3%N 9%N 1%N "approved" 4; mkReview 4%N 9%N 2%N "pending" 1] 1
  = approvedReviews reviewQueue 1.
Proof.
  destruct (updateReview_keeps_approved_reviews reviewQueue 8%N 2%N
              (mkReviewUpdates (Some 2) None (Some "approved") None (Some 2%N))
              (mkReview 2%N 8%N 2%N "pending" 2)
              [mkReview 1%N 7%N 1%N "approved" 5; mkReview 2%N 8%N 2%N "pending" 2;
               mkReview 3%N 9%N 1%N "approved" 4; mkReview 4%N 9%N 2%N "pending" 1])
    as (_ & _ & _ & _ & H).
  - simpl.
    repeat (apply NoDup_cons; split;
            [rewrite list_elem_of_In; simpl; intuition discriminate|]).
    apply NoDup_nil_2.
  - reflexivity.
  - exact (H 1%N).
Defined.

Lemma sumRatings_range rs :
  Forall (fun r => 1 <= review_rating r <= 5) rs ->
  Z.of_nat (length rs) <= sumRatings rs <= 5 * Z.of_nat (length rs).
Proof.
  unfold sumRatings. induction 1 as [|r rest Hr _ IH]; simpl; [lia|].
  cbn [length]. lia.
Qed.

Lemma countRating_total rs :
  Forall (fun r => 1 <= review_rating r <= 5) rs ->
  countRating 1 rs + countRating 2 rs + countRating 3 rs + countRating 4 rs
  + countRating 5 rs = Z.of_nat (length rs).
Proof.
  induction 1 as [|r rest Hr _ IH]; [reflexivity|].
  rewrite !countRating_cons. cbn [length].
  repeat case_decide; lia.
Qed.

Lemma tally_off_scale rs d k :
  Forall (fun r => review_rating r <> k) rs ->
  fold_left tally rs d !! k = d !! k.
Proof.
  intros H. revert d. induction H as [|r rest Hr _ IH]; intros d; [reflexivity|].
  simpl. rewrite IH, lookup_tally. now case_decide.
Qed.

(** X22.  The rating written to a product stays on the scale.  When every
    approved review carries a rating from 1 to 5, as [createReview] stores
    them, the average written lies between 1 and 5, the five counts of the
    distribution add up to the number of reviews, and the distribution has
    no other entry. *)
Theorem aggregate_on_the_scale :
  forall rs : list Review,
    rs <> [] ->
    Forall (fun r => 1 <= review_rating r <= 5) rs ->
    (1 <= ratings_average (aggregate rs) <= 5)%Q /\
    default 0 (ratings_distribution (aggregate rs) !! 1)
    + default 0 (ratings_distribution (aggregate rs) !! 2)
    + default 0 (ratings_distribution (aggregate rs) !! 3)
    + default 0 (ratings_distribution (aggregate rs) !! 4)
    + default 0 (ratings_distribution (aggregate rs) !! 5)
    = ratings_count (aggregate rs) /\
    (forall k, ~ 1 <= k <= 5 -> ratings_distribution (aggregate rs) !! k = None).
Proof.
  intros rs Hne Hall.
  destruct (aggregate_recomputed rs) as (Hc & _ & _ & Hd).
  split; [|split].
  - unfold aggregate. cbn [ratings_average].
    pose proof (sumRatings_range rs Hall) as [Hlo Hhi].
    rewrite totalRating_sum.
    set (n := Z.of_nat (length rs)) in *.
    assert (Hn : 0 < n).
    { subst n. clear -Hne. destruct rs; [contradiction|]. cbn [length]. lia. }
    set (x := (inject_Z (sumRatings rs) / inject_Z n)%Q).
    assert (Hn' : (0 < inject_Z n)%Q).
    { change 0%Q with (inject_Z 0). now rewrite <- Zlt_Qlt. }
    assert (Hx : (1 <= x <= 5)%Q).
    { subst x. split.
      - apply Qle_shift_div_l; [exact Hn'|]. rewrite Qmult_1_l.
        now rewrite <- Zle_Qle.
      - apply Qle_shift_div_r; [exact Hn'|].
        change 5%Q with (inject_Z 5). rewrite <- inject_Z_mult.
        now rewrite <- Zle_Qle. }
    destruct (toFixed_1_nearest x) as [E _]. rewrite E.
    assert (F1 : Qfloor (10 # 1) <= Qfloor (x * 10 + (1 # 2)))
      by (apply Qfloor_resp_le; lra).
    assert (F2 : Qfloor (x * 10 + (1 # 2)) <= Qfloor ((50 # 1) + (1 # 2)))
      by (apply Qfloor_resp_le; lra).
    change (Qfloor (10 # 1)) with 10 in F1.
    change (Qfloor ((50 # 1) + (1 # 2))) with 50 in F2.
    set (m := Qfloor (x * 10 + (1 # 2))) in *.
    rewrite Zle_Qle in F1, F2.
    change (inject_Z 10) with (10 # 1)%Q in F1.
    change (inject_Z 50) with (50 # 1)%Q in F2.
    rewrite (Qmake_Qdiv m 10). change (inject_Z (Z.pos 10)) with (10 # 1)%Q.
    assert (E2 : (inject_Z m / (10 # 1) == inject_Z m * (1 # 10))%Q) by field.
    rewrite E2. split; lra.
  - rewrite !Hd by lia. cbn [default]. rewrite Hc. now apply countRating_total.
  - intros k Hk. unfold aggregate. cbn [ratings_distribution].
    rewrite tally_off_scale.
    + unfold emptyDistribution.
      rewrite !lookup_insert_ne by lia. apply lookup_empty.
    + eapply Forall_impl; [exact Hall|]. simpl. intros r Hr. lia.
Qed.

Lemma aggregate_on_the_scale_witness :
  (1 <= ratings_average (aggregate (approvedReviews reviewQueue 1)) <= 5)%Q.
Proof.
  destruct (aggregate_on_the_scale (approvedReviews reviewQueue 1))
    as (H & _ & _).
  - discriminate.
  - repeat constructor; simpl; lia.
  - exact H.
Defined.

(** ** Return requests *)

Lemma existsb_openReturn idString itemId returns :
  existsb (openReturn idString itemId) returns = false ->
  forall i, idString i = itemId -> ~ In i (openReturns returns).
Proof.
  intros H i Hi Hin. unfold openReturns in Hin.
  apply in_map_iff in Hin as (r & E & Hr). apply filter_In in Hr as [Hr Hs].
  apply Bool.not_true_iff_false in H. apply H.
  apply existsb_exists. exists r. split; [exact Hr|].
  unfold openReturn. rewrite E, Hi, String.eqb_refl. exact Hs.
Qed.

Lemma validateReturn_passed idString castId order items :
  validateReturn idString castId order items = None ->
  Forall (fun returnItem =>
            exists i orderItem,
              castId (rt_itemId returnItem) = Some i /\
              In (i, orderItem) (rd_items order) /\
              rt_quantity returnItem <= item_quantity orderItem /\
              existsb (openReturn idString (rt_itemId returnItem))
                      (rd_returns order) = false) items.
Proof.
  induction items as [|x rest IH]; simpl; intros H; [constructor|].
  unfold itemById in H.
  destruct (castId (rt_itemId x)) as [i|] eqn:Hc; [|discriminate].
  destruct (List.find _ (rd_items order)) as [[i' orderItem]|] eqn:F;
    [|discriminate].
  simpl in H.
  destruct (existsb _ (rd_returns order)) eqn:Hopen; [discriminate|].
  destruct (Z.ltb_spec (item_quantity orderItem) (rt_quantity x)) as [Hq|Hq];
    [discriminate|].
  constructor; [|now apply IH].
  apply find_some in F as [Hin E]. simpl in E. apply N.eqb_eq in E. subst i'.
  exists i, orderItem. repeat split; assumption.
Qed.

Lemma newReturns_spec castId reason items :
  Forall (fun returnItem => is_Some (castId (rt_itemId returnItem))) items ->
  length (newReturns castId reason items) = length items /\
  Forall (fun r => ret_status r = "requested" /\ ret_reason r = reason)
         (newReturns castId reason items) /\
  openReturns (newReturns castId reason items)
  = omap (fun returnItem => castId (rt_itemId returnItem)) items.
Proof.
  unfold newReturns, openReturns.
  induction 1 as [|x rest [i Hi] _ (IH1 & IH2 & IH3)]; [now repeat split|].
  cbn [omap list_omap]. rewrite Hi. cbn [option_map length].
  split; [now rewrite IH1|]. split; [constructor; [now split | exact IH2]|].
  cbn [List.filter ret_status]. simpl. now rewrite IH3.
Qed.

(** X23.  An accepted return request is stored whole, after the returns the
    order has, as one requested return per item.  Each of them is for a line
    item of the order - the one the id of the request casts to - and for no
    more than was bought of it, and no return of the order that is not
    rejected prints its item id as the request spells it.  When the request
    spells every id the way the stored id prints and names no item twice, no
    item ends up with two returns that are not rejected.  (An id in another
    spelling passes the check although its item has an open return.) *)
Theorem requestReturn_one_open_return_per_item :
  forall (idString : ObjectId -> string) (castId : string -> option ObjectId)
         (order : ReturnsDoc) (canReturn : bool) (userId : ObjectId)
         (items : list ReturnItem) (reason : option string)
         (returns' : list ReturnRec),
    requestReturn idString castId (Some order) canReturn userId items reason
    = inr returns' ->
    canReturn = true /\ rd_user order = userId /\ items <> [] /\
    (exists text added,
       reason = Some text /\ text <> "" /\
       returns' = (rd_returns order ++ added)%list /\
       length added = length items /\
       Forall (fun r => ret_status r = "requested" /\ ret_reason r = text)
              added /\
       openReturns added
       = omap (fun returnItem => castId (rt_itemId returnItem)) items) /\
    Forall (fun returnItem =>
              exists i orderItem,
                castId (rt_itemId returnItem) = Some i /\
                In (i, orderItem) (rd_items order) /\
                rt_quantity returnItem <= item_quantity orderItem /\
                existsb (openReturn idString (rt_itemId returnItem))
                        (rd_returns order) = false) items /\
    ((forall returnItem i, In returnItem items ->
                           castId (rt_itemId returnItem) = Some i ->
                           idString i = rt_itemId returnItem) ->
     NoDup (omap (fun returnItem => castId (rt_itemId returnItem)) items) ->
     NoDup (openReturns (rd_returns order)) ->
     NoDup (openReturns returns')).
Proof.
  intros idString castId order canReturn userId items reason returns' H.
  unfold requestReturn in H.
  destruct items as [|x rest] eqn:Hitems; [discriminate|]. rewrite <- Hitems in *.
  destruct reason as [text|]; [|discriminate]. simpl in H.
  destruct (String.eqb_spec text "") as [Ht|Ht]; [discriminate|]. simpl in H.
  destruct (N.eqb_spec (rd_user order) userId) as [Hu|Hu]; [|discriminate].
  simpl in H. destruct canReturn; [|discriminate]. simpl in H.
  destruct (validateReturn idString castId order items) eqn:V; [discriminate|].
  injection H as <-. apply validateReturn_passed in V.
  assert (Hcast : Forall (fun returnItem =>
                            is_Some (castId (rt_itemId returnItem))) items).
  { eapply Forall_impl; [exact V|]. simpl.
    intros returnItem (i & _ & Hc & _). eauto. }
  destruct (newReturns_spec castId text items Hcast) as (N1 & N2 & N3).
  split; [reflexivity|]. split; [exact Hu|].
  split; [rewrite Hitems; discriminate|].
  split.
  { exists text, (newReturns castId text items). now repeat split. }
  split; [exact V|].
  intros Hcan Hnd Hold.
  assert (Happ : openReturns (rd_returns order ++ newReturns castId text items)
                 = (openReturns (rd_returns order)
                    ++ openReturns (newReturns castId text items))%list)
    by (unfold openReturns; now rewrite List.filter_app, map_app).
  rewrite Happ, N3. apply NoDup_app. split; [exact Hold|]. split; [|exact Hnd].
  intros i Hin Hin'. apply list_elem_of_In in Hin.
  apply list_elem_of_omap in Hin' as (returnItem & Hreq & Hc).
  rewrite Forall_forall in V.
  destruct (V returnItem Hreq) as (i' & _ & _ & _ & _ & Hopen).
  apply (existsb_openReturn _ _ _ Hopen i); [|exact Hin].
  apply Hcan; [now apply list_elem_of_In | exact Hc].
Qed.

Lemma requestReturn_one_open_return_per_item_witness :
  NoDup (openReturns
           [mkReturnRec 11 1 "late" "rejected";
            mkReturnRec 11 1 "wrong size" "requested";
            mkReturnRec 12 2 "wrong size" "requested"]).
Proof.
  destruct (requestReturn_one_open_return_per_item hexId readHexId
              (mkReturnsDoc 7
                 [(11%N, mkOrderItem 1 None 1 (10 # 1) (10 # 1) 0 0 0 (10 # 1));
                  (12%N, mkOrderItem 2 None 3 (5 # 1) (5 # 1) 0 0 0 (15 # 1))]
                 [mkReturnRec 11 1 "late" "rejected"])
              true 7%N [mkReturnItem "0xb" 1; mkReturnItem "0xc" 2]
              (Some "wrong size")
              [mkReturnRec 11 1 "late" "rejected";
               mkReturnRec 11 1 "wrong size" "requested";
               mkReturnRec 12 2 "wrong size" "requested"] eq_refl)
    as (_ & _ & _ & _ & _ & H).
  apply H.
  - intros returnItem i [<-|[<-|[]]]; intros [= <-]; reflexivity.
  - simpl. repeat (apply NoDup_cons; split;
                   [rewrite list_elem_of_In; simpl; intuition discriminate|]).
    apply NoDup_nil_2.
  - simpl. apply NoDup_nil_2.
Defined.

(** ** The wishlist *)

Lemma addToWishlist_spec wishlist productId :
  In productId (addToWishlist wishlist productId) /\
  (forall p, In p (addToWishlist wishlist productId)
             <-> In p wishlist \/ p = productId) /\
  (NoDup wishlist -> NoDup (addToWishlist wishlist productId)).
Proof.
  unfold addToWishlist.
  destruct (existsb _ wishlist) eqn:E.
  - apply existsb_exists in E as (p & Hp & Ep). apply N.eqb_eq in Ep. subst p.
    split; [exact Hp|]. split; [|auto].
    intros p. split; [now left | intros [H| ->]; assumption].
  - assert (Hout : ~ In productId wishlist).
    { intros H. apply Bool.not_true_iff_false in E. apply E.
      apply existsb_exists. exists productId. split; [exact H | apply N.eqb_refl]. }
    split; [apply in_or_app; right; now left|]. split.
    + intros p. rewrite in_app_iff. simpl. intuition congruence.
    + intros Hnd. apply NoDup_app. split; [exact Hnd|].
      split; [|apply NoDup_singleton].
      intros x Hx Hx'. apply list_elem_of_In in Hx, Hx'.
      destruct Hx' as [<-|[]]. contradiction.
Qed.

(** X24.  [saveForLater] moves a cart line to the wishlist: the cart is left
    as [removeFromCart] leaves it, the product of the line is on the
    wishlist of the user afterwards, the wishlist gains nothing else and
    loses nothing, and a wishlist without duplicates stays without
    duplicates.  When the user is not found the line is removed all the
    same. *)
Theorem saveForLater_moves_line_to_wishlist :
  forall (cart : option (list CartItem)) (wishlist : option (list ObjectId))
         (itemId : ObjectId) (cart' : option (list CartItem))
         (wishlist' : option (list ObjectId)),
    saveForLater cart wishlist itemId = inr (cart', wishlist') ->
    removeFromCart cart itemId = inr cart' /\
    exists items i item,
      cart = Some items /\ items !! i = Some item /\ ci_id item = itemId /\
      default [] cart' = delete i items /\
      match wishlist, wishlist' with
      | Some w, Some w' =>
          In (ci_product item) w' /\
          (forall p, In p w' <-> In p w \/ p = ci_product item) /\
          (NoDup w -> NoDup w') /\
          removeFromWishlist w' (ci_product item)
          = removeFromWishlist w (ci_product item)
      | None, None => True
      | _, _ => False
      end.
Proof.
  intros cart wishlist itemId cart' wishlist' H.
  unfold saveForLater in H. unfold removeFromCart.
  destruct cart as [items|]; [|discriminate].
  destruct (findIndex _ items) as [i|] eqn:F; [|discriminate].
  destruct (findIndex_Some _ _ _ F) as (item & Hi & Hid).
  apply N.eqb_eq in Hid. rewrite Hi in H.
  assert (Hw : wishlist'
               = option_map (fun w => addToWishlist w (ci_product item)) wishlist
               /\ (match delete i items with
                   | [] => inr None
                   | a :: l => inr (Some (a :: l))
                   end : CartError + option (list CartItem)) = inr cart'
               /\ default [] cart' = delete i items).
  { destruct (delete i items); injection H as <- <-; now repeat split. }
  destruct Hw as (-> & Hc & Hd). split; [exact Hc|].
  exists items, i, item. repeat split; try assumption.
  destruct wishlist as [w|]; simpl; [|exact I].
  destruct (addToWishlist_spec w (ci_product item)) as (A & B & C).
  repeat split; try assumption; try apply B.
  unfold removeFromWishlist, addToWishlist.
  destruct (existsb _ w); [reflexivity|].
  rewrite List.filter_app. simpl. rewrite N.eqb_refl. simpl. apply app_nil_r.
Qed.

Lemma saveForLater_moves_line_to_wishlist_witness :
  removeFromCart
    (Some [mkCartItem 1 7 Undefined 2 None; mkCartItem 2 8 Undefined 3 None]) 2%N
  = inr (Some [mkCartItem 1 7 Undefined 2 None]).
Proof.
  exact (proj1 (saveForLater_moves_line_to_wishlist
           (Some [mkCartItem 1 7 Undefined 2 None; mkCartItem 2 8 Undefined 3 None])
           (Some [7%N]) 2%N (Some [mkCartItem 1 7 Undefined 2 None])
           (Some [7%N; 8%N]) eq_refl)).
Defined.
